(** * projects/nerre/eval.py: annotation normaliser and scorer

    A shallow embedding of the brat-annotation evaluation script
    [src/projects/nerre/eval.py] and the properties its specification states
    about it.

    Conventions of the embedding.
    - A Python [str] is a [string]; characters are the 256 code points of
      [ascii], compared by code point as Python compares them.
    - A Python [list] is a [list]; [l[i]] is [getitem], which raises
      [IndexError] out of range, [l.index(x)] is [index], which raises
      [ValueError] when [x] is absent.
    - A run either returns a value or raises: [result].  Local names that
      Python leaves unbound until their first assignment ([ent1], [ent2])
      and the module global [remove_anno] are [option]s; reading [None]
      raises [UnboundLocalError] resp. [NameError].
    - The iteration order of a Python [set] is not specified; it is a
      parameter of the model ([SetOrder]).
    - An open file is the list of its lines; a folder is an association
      list from file names to files. *)

From Stdlib Require Import QArith Ascii String.
From stdpp Require Import gmap strings list fin_maps.

Local Open Scope string_scope.
Local Open Scope list_scope.

(** ** Exceptions and results *)

Inductive exn : Set :=
| IndexError
| ValueError
| KeyError
| NameError
| UnboundLocalError.

Inductive result (A : Type) : Type :=
| Ok (a : A)
| Raise (e : exn).

Arguments Ok {A} a.
Arguments Raise {A} e.

#[global] Instance result_ret : MRet result := fun _ a => Ok a.

#[global] Instance result_bind : MBind result := fun _ _ k m =>
  match m with
  | Ok a => k a
  | Raise e => Raise e
  end.

#[global] Instance result_fmap : FMap result := fun _ _ f m =>
  match m with
  | Ok a => Ok (f a)
  | Raise e => Raise e
  end.

(** [for x in l: st = body(st, x)], stopping at the first exception. *)
Fixpoint for_each {A S : Type} (body : S → A → result S) (l : list A) (st : S)
  : result S :=
  match l with
  | [] => Ok st
  | x :: l' => st' ← body st x; for_each body l' st'
  end.

(** ** Python string and list primitives *)

Module Py.

(** [str.isspace] on one character, for the code points below 256. *)
Definition isspace (c : ascii) : bool :=
  let n := N_of_ascii c in
  ((9 <=? n) && (n <=? 13) || (28 <=? n) && (n <=? 32)
   || (n =? 133) || (n =? 160))%N.

Fixpoint lstrip (s : string) : string :=
  match s with
  | EmptyString => EmptyString
  | String c s' => if isspace c then lstrip s' else s
  end.

Fixpoint rstrip (s : string) : string :=
  match s with
  | EmptyString => EmptyString
  | String c s' =>
      match rstrip s' with
      | EmptyString => if isspace c then EmptyString else String c EmptyString
      | r => String c r
      end
  end.

(** [s.strip()] *)
Definition strip (s : string) : string := rstrip (lstrip s).

(** [s.split(sep)] for a one-character separator, the only kind the script
    uses (tab, space, underscore). *)
Fixpoint split (sep : ascii) (s : string) : list string :=
  match s with
  | EmptyString => [EmptyString]
  | String c s' =>
      if Ascii.eqb c sep then EmptyString :: split sep s'
      else match split sep s' with
           | [] => [String c EmptyString]
           | w :: ws => String c w :: ws
           end
  end.

(** [sep.join(l)] *)
Definition join (sep : string) (l : list string) : string :=
  String.concat sep l.

Fixpoint replace_from (old new : string) (skip : nat) (s : string) : string :=
  match s with
  | EmptyString => EmptyString
  | String c s' =>
      match skip with
      | S k => replace_from old new k s'
      | O =>
          if String.prefix old s
          then new +:+ replace_from old new (String.length old - 1) s'
          else String c (replace_from old new 0 s')
      end
  end.

(** [s.replace(old, new)] for a non-empty [old] (the script replaces
    ["Arg1:"], ["Arg2:"] and [" "]): occurrences are replaced from the left
    and do not overlap. *)
Definition replace (old new s : string) : string := replace_from old new 0 s.

(** [s.startswith(p)] *)
Definition startswith (s p : string) : bool := String.prefix p s.

(** [s.endswith(p)] *)
Fixpoint endswith (s p : string) : bool :=
  String.eqb s p ||
  match s with
  | EmptyString => false
  | String _ s' => endswith s' p
  end.

(** [sub in s] for two strings *)
Fixpoint contains (sub s : string) : bool :=
  String.prefix sub s ||
  match s with
  | EmptyString => false
  | String _ s' => contains sub s'
  end.

(** [a > b] on strings: lexicographic by code point. *)
Definition gt (a b : string) : bool :=
  match String.compare a b with Gt => true | _ => false end.

(** [a < b] on strings *)
Definition lt (a b : string) : bool :=
  match String.compare a b with Lt => true | _ => false end.

(** [x in l] for a list *)
Definition mem (x : string) (l : list string) : bool := bool_decide (x ∈ l).

(** [l[i]] *)
Definition getitem {A : Type} (l : list A) (i : nat) : result A :=
  match l !! i with
  | Some x => Ok x
  | None => Raise IndexError
  end.

Fixpoint index_from (x : string) (l : list string) (i : nat) : result nat :=
  match l with
  | [] => Raise ValueError
  | y :: l' => if String.eqb y x then Ok i else index_from x l' (S i)
  end.

(** [l.index(x)] *)
Definition index (x : string) (l : list string) : result nat :=
  index_from x l 0.

End Py.

(** ** [normaliseAnnotations] *)

Definition tab : ascii := "009"%char.
Definition TAB : string := String tab EmptyString.

(** The argument [remove_anno]: [calculateMeasures] passes a list,
    [calculateIAA] passes the module global, a string. *)
Inductive remove_anno_t : Set :=
| RStr (s : string)
| RList (l : list string).

(** [x in remove_anno]: substring test on a string, membership in a list. *)
Definition py_in (x : string) (remove_anno : remove_anno_t) : bool :=
  match remove_anno with
  | RStr s => Py.contains x s
  | RList l => Py.mem x l
  end.

(** Iteration order of [set(l)]: some duplicate-free enumeration of the
    elements of [l]. *)
Class SetOrder : Type := {
  set_list : list string → list string;
  set_list_NoDup : ∀ l, NoDup (set_list l);
  set_list_elem : ∀ l x, x ∈ set_list l ↔ x ∈ l
}.

(** One admissible order: the elements in the order of their last
    occurrences. *)
#[global] Program Instance insertion_order : SetOrder :=
  {| set_list := remove_dups |}.
Next Obligation. intros l. apply NoDup_remove_dups. Qed.
Next Obligation. intros l x. apply elem_of_remove_dups. Qed.

(** The local variables of the first loop (lines 194-239), and what was
    printed so far.  [ent1] and [ent2] are function locals: they keep their
    value from one relation line to the next. *)
Record locals : Set := {
  res_full_anno : list string;
  res_anno : list string;
  spans_anno : list string;
  rels_anno : list string;
  ent1 : option string;
  ent2 : option string;
  printed : list string
}.

Definition locals0 : locals :=
  {| res_full_anno := []; res_anno := []; spans_anno := []; rels_anno := [];
     ent1 := None; ent2 := None; printed := [] |}.

Definition faulty : string := "IndexError! Faulty annotations".

(** Reading a local name. *)
Definition load (x : option string) : result string :=
  match x with
  | Some v => Ok v
  | None => Raise UnboundLocalError
  end.

(** [try: body  except IndexError: handler] where [handler] is the state
    reached when the exception was raised, after the handler ran. *)
Definition except_IndexError {A : Type} (body : result A) (handler : A)
  : result A :=
  match body with
  | Raise IndexError => Ok handler
  | _ => body
  end.

(** [try: body  except ValueError: continue] *)
Definition except_ValueError {A : Type} (body : result A) (handler : A)
  : result A :=
  match body with
  | Raise ValueError => Ok handler
  | _ => body
  end.

(** Lines 213-217, one round of [for l in res_full_anno]. *)
Definition resolve_step (arg1 arg2 : string)
    (ents : option string * option string) (l : string)
  : result (option string * option string) :=
  let r_g_tmp := Py.split tab (Py.strip l) in
  id1 ← Py.getitem r_g_tmp 0;
  e1 ← (if String.eqb id1 arg1
        then f ← Py.getitem r_g_tmp 1; Ok (Some (Py.replace " " "_" f))
        else Ok ents.1);
  id2 ← Py.getitem r_g_tmp 0;
  e2 ← (if String.eqb id2 arg2
        then f ← Py.getitem r_g_tmp 1; Ok (Some (Py.replace " " "_" f))
        else Ok ents.2);
  Ok (e1, e2).

(** Lines 219-225: a [Synonym-of] pair is swapped when the token at index 1
    of the first reference is greater, as a string, than that of the
    second. *)
Definition order_synonym (ents : option string * option string)
  : result (option string * option string) :=
  x1 ← load ents.1;
  let ent1_spl := Py.split "_" x1 in
  x2 ← load ents.2;
  let ent2_spl := Py.split "_" x2 in
  t1 ← Py.getitem ent1_spl 1;
  t2 ← Py.getitem ent2_spl 1;
  if Py.gt t1 t2 then Ok (Some x2, Some x1) else Ok ents.

(** Lines 210-229: a relation line, [st] already holding the stripped line
    in [res_full_anno]. *)
Definition relation_line (st : locals) (r_g_offs : list string)
  : result locals :=
  a1 ← Py.getitem r_g_offs 1;
  let arg1 := Py.replace "Arg1:" "" a1 in
  a2 ← Py.getitem r_g_offs 2;
  let arg2 := Py.replace "Arg2:" "" a2 in
  ents ← for_each (resolve_step arg1 arg2) (res_full_anno st) (ent1 st, ent2 st);
  label ← Py.getitem r_g_offs 0;
  ents ← (if String.eqb label "Synonym-of" then order_synonym ents else Ok ents);
  x1 ← load ents.1;
  x2 ← load ents.2;
  Ok {| res_full_anno := res_full_anno st;
        res_anno := res_anno st ++ [Py.join " " [label; x1; x2]];
        spans_anno := spans_anno st ++ [Py.join " " [x1; x2]];
        rels_anno := rels_anno st ++ [Py.join " " [label; x1; x2]];
        ent1 := ents.1; ent2 := ents.2;
        printed := printed st |}.

(** Lines 232-239: an entity line.  [field1] is [r_g[1]], which line 201
    has already read. *)
Definition entity_line (remove_anno : remove_anno_t) (st : locals)
    (field1 : string) (r_g_offs : list string) : result locals :=
  except_IndexError
    (o1 ← Py.getitem r_g_offs 1;
     o2 ← Py.getitem r_g_offs 2;
     let keytype :=
       if py_in "types" remove_anno then "KEYPHRASE-NOTYPES" else field1 in
     Ok {| res_full_anno := res_full_anno st;
           res_anno := res_anno st ++ [keytype];
           spans_anno := spans_anno st ++ [Py.join " " [o1; o2]];
           rels_anno := rels_anno st;
           ent1 := ent1 st; ent2 := ent2 st;
           printed := printed st |})
    {| res_full_anno := res_full_anno st;
       res_anno := res_anno st;
       spans_anno := spans_anno st;
       rels_anno := rels_anno st;
       ent1 := ent1 st; ent2 := ent2 st;
       printed := printed st ++ [faulty] |}.

(** Lines 200-239: the body of [for l in file_anno]. *)
Definition line_step (remove_anno : remove_anno_t) (st : locals) (l : string)
  : result locals :=
  let r_g := Py.split tab (Py.strip l) in
  field1 ← Py.getitem r_g 1;
  let r_g_offs := Py.split " " field1 in
  label ← Py.getitem r_g_offs 0;
  if py_in "rel" remove_anno && Py.endswith label "-of" then Ok st
  else
    let st' := {| res_full_anno := res_full_anno st ++ [Py.strip l];
                  res_anno := res_anno st;
                  spans_anno := spans_anno st;
                  rels_anno := rels_anno st;
                  ent1 := ent1 st; ent2 := ent2 st;
                  printed := printed st |} in
    if Py.endswith label "-of" then relation_line st' r_g_offs
    else entity_line remove_anno st' field1 r_g_offs.

(** [rels_anno[rels_anno.index(r2)] = r_new] *)
Definition set_at_index (rels : list string) (r2 r_new : string)
  : result (list string) :=
  i ← Py.index r2 rels;
  Ok (<[i := r_new]> rels).

(** Is [r2] a [Hyponym-of] relation whose argument [k] is the first member
    of the synonym pair [r_offs]? *)
Definition refers (r_offs r2_offs : list string) (k : nat) : result bool :=
  label ← Py.getitem r2_offs 0;
  if String.eqb label "Hyponym-of"
  then a ← Py.getitem r_offs 1; b ← Py.getitem r2_offs k; Ok (String.eqb a b)
  else Ok false.

(** Lines 254-259: the first argument of [r2].  [None] is [continue],
    taken in the handler. *)
Definition rewrite_head (r_offs r2_offs rels : list string) (r2 : string)
  : result (option (list string)) :=
  c1 ← refers r_offs r2_offs 1;
  if c1 : bool
  then label ← Py.getitem r2_offs 0;
       x ← Py.getitem r_offs 2;
       y ← Py.getitem r2_offs 2;
       let r_new := Py.join " " [label; x; y] in
       except_ValueError (Some <$> set_at_index rels r2 r_new) None
  else Ok (Some rels).

(** Lines 261-266: the second argument of [r2], tested on the tokens of the
    string read at the start of the round. *)
Definition rewrite_tail (r_offs r2_offs rels : list string) (r2 : string)
  : result (list string) :=
  c2 ← refers r_offs r2_offs 2;
  if c2 : bool
  then label ← Py.getitem r2_offs 0;
       x ← Py.getitem r2_offs 1;
       y ← Py.getitem r_offs 2;
       let r_new := Py.join " " [label; x; y] in
       except_ValueError (set_at_index rels r2 r_new) rels
  else Ok rels.

(** Lines 253-266, the body of [for r2 in rels_anno] at position [j] of the
    list, which the body itself updates in place. *)
Definition rewrite_hyponym (r_offs : list string) (rels : list string) (j : nat)
  : result (list string) :=
  r2 ← Py.getitem rels j;
  let r2_offs := Py.split " " r2 in
  first ← rewrite_head r_offs r2_offs rels r2;
  match first with
  | None => Ok rels
  | Some rels1 => rewrite_tail r_offs r2_offs rels1 r2
  end.

(** Lines 244-247: the [Synonym-of] reordering of one relation string. *)
Definition reorder_synonym (r : string) : result string :=
  let r_offs := Py.split " " r in
  label ← Py.getitem r_offs 0;
  if String.eqb label "Synonym-of"
  then b ← Py.getitem r_offs 2;
       tb ← Py.getitem (Py.split "_" b) 1;
       a ← Py.getitem r_offs 1;
       ta ← Py.getitem (Py.split "_" a) 1;
       if Py.lt tb ta then Ok (Py.join " " [label; b; a]) else Ok r
  else Ok r.

(** Lines 244-266, the body of [for r in rels_anno] at position [i].  The
    list is updated in place and never changes length, so both loops visit
    positions [0 .. len-1] and read the current element there.  Line 247
    assigns the reordered string to [r], which nothing reads afterwards:
    the tests that follow use [r_offs], split from the old [r]. *)
Definition rewrite_synonym (rels : list string) (i : nat)
  : result (list string) :=
  r ← Py.getitem rels i;
  let r_offs := Py.split " " r in
  r ← reorder_synonym r;
  label ← Py.getitem r_offs 0;
  if String.eqb label "Synonym-of"
  then for_each (rewrite_hyponym r_offs) (seq 0 (length rels)) rels
  else Ok rels.

(** Lines 243-266. *)
Definition rewrite_pass (rels : list string) : result (list string) :=
  for_each rewrite_synonym (seq 0 (length rels)) rels.

(** What [normaliseAnnotations] returns (a 4-tuple), and what it printed. *)
Record annotations : Set := {
  res_full_anno_new : list string;
  res_anno_new : list string;
  spans_anno_new : list string;
  rels_anno_new : list string;
  diagnostics : list string
}.

Definition with_diagnostic (acc : annotations) : annotations :=
  {| res_full_anno_new := res_full_anno_new acc;
     res_anno_new := res_anno_new acc;
     spans_anno_new := spans_anno_new acc;
     rels_anno_new := rels_anno_new acc;
     diagnostics := diagnostics acc ++ [faulty] |}.

(** Lines 275-284, the body of [for r in res_full_anno]: each append that
    ran before an [IndexError] stays. *)
Definition collect_step (st : locals) (acc : annotations) (r : string)
  : result annotations :=
  let r_g := Py.split tab (Py.strip r) in
  except_IndexError
    (id ← Py.getitem r_g 0;
     if Py.startswith id "R" || String.eqb id "*" then Ok acc
     else
       ind ← Py.index r (res_full_anno st);
       let acc1 :=
         {| res_full_anno_new := res_full_anno_new acc ++ [r];
            res_anno_new := res_anno_new acc;
            spans_anno_new := spans_anno_new acc;
            rels_anno_new := rels_anno_new acc;
            diagnostics := diagnostics acc |} in
       except_IndexError
         (label ← Py.getitem (res_anno st) ind;
          let acc2 :=
            {| res_full_anno_new := res_full_anno_new acc1;
               res_anno_new := res_anno_new acc1 ++ [label];
               spans_anno_new := spans_anno_new acc1;
               rels_anno_new := rels_anno_new acc1;
               diagnostics := diagnostics acc1 |} in
          except_IndexError
            (span ← Py.getitem (spans_anno st) ind;
             Ok {| res_full_anno_new := res_full_anno_new acc2;
                   res_anno_new := res_anno_new acc2;
                   spans_anno_new := spans_anno_new acc2 ++ [span];
                   rels_anno_new := rels_anno_new acc2;
                   diagnostics := diagnostics acc2 |})
            (with_diagnostic acc2))
         (with_diagnostic acc1))
    (with_diagnostic acc).

(** Lines 287-289, the body of [for r in rels_anno]. *)
Definition append_relation (acc : annotations) (r : string)
  : result annotations :=
  let acc1 :=
    {| res_full_anno_new := res_full_anno_new acc ++ ["R" +:+ TAB +:+ r];
       res_anno_new := res_anno_new acc ++ [r];
       spans_anno_new := spans_anno_new acc;
       rels_anno_new := rels_anno_new acc;
       diagnostics := diagnostics acc |} in
  x ← Py.getitem (Py.split " " r) 1;
  y ← Py.getitem (Py.split " " r) 2;
  Ok {| res_full_anno_new := res_full_anno_new acc1;
        res_anno_new := res_anno_new acc1;
        spans_anno_new := spans_anno_new acc1 ++ [Py.join " " [x; y]];
        rels_anno_new := rels_anno_new acc1;
        diagnostics := diagnostics acc1 |}.

Section Normalise.
Context `{SetOrder}.

(** [normaliseAnnotations(file_anno, remove_anno)], lines 187-291. *)
Definition normaliseAnnotations (file_anno : list string)
    (remove_anno : remove_anno_t) : result annotations :=
  st ← for_each (line_step remove_anno) file_anno locals0;
  rels ← rewrite_pass (rels_anno st);
  let rels := set_list rels in
  acc ← for_each (collect_step st) (res_full_anno st)
        {| res_full_anno_new := []; res_anno_new := [];
           spans_anno_new := []; rels_anno_new := rels;
           diagnostics := printed st |};
  for_each append_relation rels acc.

End Normalise.

(** A line of a brat file: fields separated by tabs, ended by a newline. *)
Definition line (id body text : string) : string :=
  id +:+ TAB +:+ body +:+ TAB +:+ text +:+ String "010" "".

Definition rel_line (id body : string) : string :=
  id +:+ TAB +:+ body +:+ String "010" "".

Definition demo_file : list string :=
  [ line "T1" "Task 0 1" "a"; line "T2" "Task 2 3" "b";
    line "T3" "Task 4 5" "c";
    rel_line "R1" "Synonym-of Arg1:T2 Arg2:T1";
    rel_line "R2" "Hyponym-of Arg1:T1 Arg2:T3" ].

(** ** Scoring: [precision_recall_fscore_support] *)

(** One entry of the [metrics] dictionary. *)
Record prf : Set := {
  precision : Q;
  recall : Q;
  f1_score : Q;
  support : nat
}.

Module Sklearn.

(** Modelled from the spec: [sklearn.metrics.precision_recall_fscore_support]
    is a library function and not part of the repository.  The spec (4.2)
    gives it as the standard multiclass formulas: a true positive is an exact
    label match at a shared key, precision is true positives over predicted,
    recall is true positives over gold, F1 their harmonic mean, support the
    number of gold occurrences; micro-averaging pools the counts of all
    labels.  Ratios are exact rationals; a ratio with denominator zero is 0,
    the library's documented default. *)
Definition ratio (a b : nat) : Q :=
  match b with
  | O => 0
  | S _ => Z.of_nat a # Pos.of_nat b
  end.

Definition count (label : string) (ys : list string) : nat :=
  length (filter (λ y, y = label) ys).

Definition true_positives (label : string) (y_true y_pred : list string) : nat :=
  length (filter (λ p, p.1 = label ∧ p.2 = label) (zip y_true y_pred)).

Definition fscore (p r : Q) : Q :=
  if Qeq_bool (p + r) 0 then 0 else 2 * p * r / (p + r).

(** [average=None]: four arrays, one entry per label. *)
Definition per_label (y_true y_pred labels : list string)
  : list Q * list Q * list Q * list nat :=
  let p l := ratio (true_positives l y_true y_pred) (count l y_pred) in
  let r l := ratio (true_positives l y_true y_pred) (count l y_true) in
  (p <$> labels, r <$> labels, (λ l, fscore (p l) (r l)) <$> labels,
   (λ l, count l y_true) <$> labels).

(** [average='micro']: three numbers. *)
Definition micro (y_true y_pred labels : list string) : Q * Q * Q :=
  let tp := sum_list ((λ l, true_positives l y_true y_pred) <$> labels) in
  let p := ratio tp (sum_list ((λ l, count l y_pred) <$> labels)) in
  let r := ratio tp (sum_list ((λ l, count l y_true) <$> labels)) in
  (p, r, fscore p r).

End Sklearn.

(** ** [calculateMeasures] *)

(** A folder: its entries in [os.listdir] order, each with its lines. *)
Definition folder : Set := list (string * list string).

(** [open(os.path.join(folder, f), "r")]; [None] is [IOError]. *)
Fixpoint open (d : folder) (f : string) : option (list string) :=
  match d with
  | [] => None
  | (name, content) :: d' => if String.eqb name f then Some content else open d' f
  end.

(** The accumulators of the loop over the files. *)
Record tally : Set := {
  res_all_gold : list string;
  res_all_pred : list string;
  targets : list string
}.

(** Lines 21-23. *)
Definition tally0 : tally :=
  {| res_all_gold := []; res_all_pred := []; targets := [] |}.

Definition no_annotations : annotations :=
  {| res_full_anno_new := []; res_anno_new := []; spans_anno_new := [];
     rels_anno_new := []; diagnostics := [] |}.

(** Lines 49-63, the body of [for i, r in enumerate(spans_all)]. *)
Definition align_step (gold pred : annotations) (t : tally) (r : string)
  : result tally :=
  t1 ← (if Py.mem r (spans_anno_new gold)
        then i ← Py.index r (spans_anno_new gold);
             label ← Py.getitem (res_anno_new gold) i;
             target ← Py.getitem (Py.split " " label) 0;
             Ok {| res_all_gold := res_all_gold t ++ [target];
                   res_all_pred := res_all_pred t;
                   targets := if Py.mem target (targets t) then targets t
                              else targets t ++ [target] |}
        else Ok {| res_all_gold := res_all_gold t ++ ["NONE"];
                   res_all_pred := res_all_pred t;
                   targets := targets t |});
  if Py.mem r (spans_anno_new pred)
  then i ← Py.index r (spans_anno_new pred);
       label ← Py.getitem (res_anno_new pred) i;
       target_pred ← Py.getitem (Py.split " " label) 0;
       Ok {| res_all_gold := res_all_gold t1;
             res_all_pred := res_all_pred t1 ++ [target_pred];
             targets := targets t1 |}
  else Ok {| res_all_gold := res_all_gold t1;
             res_all_pred := res_all_pred t1 ++ ["NONE"];
             targets := targets t1 |}.

(** Lines 25-28. *)
Definition as_list (remove_anno : remove_anno_t) : list string :=
  let l := match remove_anno with RStr s => [s] | RList l => l end in
  if Py.mem "types" l then l ++ ["rel"] else l.

(** The report of [print_report]: one row per target, then the aggregate. *)
Definition lookup_key (metrics : gmap string prf) (k : string) : result prf :=
  match metrics !! k with
  | Some v => Ok v
  | None => Raise KeyError
  end.

(** Lines 174-176, the body of [for target in targets]. *)
Definition report_row (metrics : gmap string prf) (rows : list (string * prf))
    (target : string) : result (list (string * prf)) :=
  results ← lookup_key metrics target;
  Ok (rows ++ [(target, results)]).

Definition print_report (metrics : gmap string prf) (targets : list string)
  : result (list (string * prf)) :=
  rows ← for_each (report_row metrics) targets [];
  overall ← lookup_key metrics "overall";
  Ok (rows ++ [("avg / total", overall)]).

(** Lines 72-78, the body of [for k, target in enumerate(targets)]. *)
Definition record_step (arrays : list Q * list Q * list Q * list nat)
    (metrics : gmap string prf) (kt : nat * string)
  : result (gmap string prf) :=
  let '(prec, recall, f1, support) := arrays in
  p ← Py.getitem prec kt.1;
  r ← Py.getitem recall kt.1;
  f ← Py.getitem f1 kt.1;
  s ← Py.getitem support kt.1;
  Ok (<[kt.2 := {| precision := p; recall := r; f1_score := f; support := s |}]>
        metrics).

Section Measures.
Context `{SetOrder}.

(** Lines 46-63: the labels of one gold file against its prediction. *)
Definition align (gold pred : annotations) (t : tally) : result tally :=
  let spans_all := set_list (spans_anno_new gold ++ spans_anno_new pred) in
  for_each (align_step gold pred) spans_all t.

(** Lines 31-63, the body of [for f in flist_gold]. *)
Definition measure_file (folder_pred : folder) (remove_anno : list string)
    (ignoremissing : bool) (t : tally) (f : string * list string)
  : result tally :=
  if negb (Py.endswith f.1 ".ann") then Ok t
  else
    match open folder_pred f.1 with
    | Some f_pred =>
        pred ← normaliseAnnotations f_pred (RList remove_anno);
        gold ← normaliseAnnotations f.2 (RList remove_anno);
        align gold pred t
    | None =>
        if ignoremissing then Ok t
        else gold ← normaliseAnnotations f.2 (RList remove_anno);
             align gold no_annotations t
    end.

(** Lines 65-92: from the two label sequences to the [metrics] dictionary. *)
Definition score (remove_anno : list string) (t : tally)
  : result (gmap string prf * list string) :=
  let targets :=
    if Py.mem "keys" remove_anno then ["Hyponym-of"; "Synonym-of"]
    else targets t in
  let arrays := Sklearn.per_label (res_all_gold t) (res_all_pred t) targets in
  metrics ← for_each (record_step arrays) (zip (seq 0 (length targets)) targets) ∅;
  metrics ←
    (if negb (Py.mem "types" remove_anno)
     then let '(prec, recall, f1) :=
            Sklearn.micro (res_all_gold t) (res_all_pred t) targets in
          Ok (<["overall" := {| precision := prec; recall := recall;
                               f1_score := f1;
                               support := sum_list arrays.2 |}]> metrics)
     else overall ← lookup_key metrics "KEYPHRASE-NOTYPES";
          Ok (<["overall" := overall]> metrics));
  Ok (metrics, targets).

(** [calculateMeasures(folder_gold, folder_pred, remove_anno, ignoremissing)]:
    the returned dictionary and the rows of the printed report. *)
Definition calculateMeasures (folder_gold folder_pred : folder)
    (remove_anno : remove_anno_t) (ignoremissing : bool)
  : result (gmap string prf * list (string * prf)) :=
  let remove_anno := as_list remove_anno in
  t ← for_each (measure_file folder_pred remove_anno ignoremissing) folder_gold
       tally0;
  '(metrics, targets) ← score remove_anno t;
  report ← print_report metrics targets;
  Ok (metrics, report).

End Measures.

(** ** [calculateIAA] *)

(** The module's global names that [calculateIAA] reads. *)
Record globals : Set := { g_remove_anno : option remove_anno_t }.

(** Reading a global name. *)
Definition load_global (g : globals) : result remove_anno_t :=
  match g_remove_anno g with
  | Some v => Ok v
  | None => Raise NameError
  end.

(** The globals once the [__main__] block has run, lines 297-304. *)
Definition main_globals (argv : list string) : globals :=
  {| g_remove_anno :=
       Some (RStr (if Nat.eqb (length argv) 4 then default "" (argv !! 3) else "")) |}.

Section IAA.
Context `{SetOrder}.
(** [sklearn.metrics.cohen_kappa_score], a library function. *)
Variable cohen_kappa_score : list string → list string → Q.

(** Lines 116-152, the body of [for f in flist_gold]. *)
Definition iaa_file (g : globals) (folder_pred : folder) (ignoremissing : bool)
    (t : tally) (f : string * list string) : result tally :=
  if negb (Py.endswith f.1 ".ann") then Ok t
  else
    match open folder_pred f.1 with
    | Some f_pred =>
        remove_anno ← load_global g;
        pred ← normaliseAnnotations f_pred remove_anno;
        if Nat.eqb (length (res_full_anno_new pred)) 0 then Ok t
        else
          remove_anno ← load_global g;
          gold ← normaliseAnnotations f.2 remove_anno;
          align gold pred t
    | None =>
        if ignoremissing then Ok t
        else
          remove_anno ← load_global g;
          gold ← normaliseAnnotations f.2 remove_anno;
          align gold no_annotations t
    end.

(** [calculateIAA(folder_gold, folder_pred, ignoremissing)]: the kappa it
    prints. *)
Definition calculateIAA (g : globals) (folder_gold folder_pred : folder)
    (ignoremissing : bool) : result Q :=
  t ← for_each (iaa_file g folder_pred ignoremissing) folder_gold tally0;
  Ok (cohen_kappa_score (res_all_gold t) (res_all_pred t)).

End IAA.

(** ** Predicates of the specification *)

(** The character [c] does not occur in [s]. *)
Fixpoint free_of (c : ascii) (s : string) : Prop :=
  match s with
  | EmptyString => True
  | String a s' => a ≠ c ∧ free_of c s'
  end.

(** The token the script compares two entity references by: index 1 of the
    underscore split, the start offset of a reference [LABEL_START_END]. *)
Definition offset_token (ent : string) : option string :=
  Py.split "_" ent !! 1.

(** A relation string as the first loop builds it: three tokens joined by
    spaces, and a [Synonym-of] pair already in order. *)
Definition wf_rel (r : string) : Prop :=
  ∃ label e1 e2,
    r = Py.join " " [label; e1; e2] ∧
    free_of " " label ∧ free_of " " e1 ∧ free_of " " e2 ∧
    (label = "Synonym-of" →
     ∃ t1 t2, offset_token e1 = Some t1 ∧ offset_token e2 = Some t2 ∧
              Py.gt t1 t2 = false).

Definition ents_free (ents : option string * option string) : Prop :=
  (∀ e, ents.1 = Some e → free_of " " e) ∧
  (∀ e, ents.2 = Some e → free_of " " e).

(** What the first loop keeps true of its variables. *)
Record loop_invariant (st : locals) : Prop := {
  inv_parallel : length (res_anno st) = length (spans_anno st);
  inv_rels : Forall wf_rel (rels_anno st);
  inv_ents : ents_free (ent1 st, ent2 st)
}.

(** [k] is the span key of the relation string [r] (line 289). *)
Definition key_of (r k : string) : Prop :=
  ∃ x y, Py.split " " r !! 1 = Some x ∧ Py.split " " r !! 2 = Some y ∧
         k = Py.join " " [x; y].

(** The number that a non-empty string of decimal digits denotes. *)
Fixpoint decimal_from (acc : N) (s : string) : option N :=
  match s with
  | EmptyString => Some acc
  | String c s' =>
      let d := N_of_ascii c in
      if ((48 <=? d) && (d <=? 57))%N
      then decimal_from (acc * 10 + (d - 48))%N s'
      else None
  end.

Definition decimal (s : string) : option N :=
  match s with
  | EmptyString => None
  | _ => decimal_from 0 s
  end.

(** The end offset of an entity reference [LABEL_START_END]. *)
Definition end_offset (ent : string) : option N :=
  Py.split "_" ent !! 2 ≫= decimal.

(** [label] is the label that the annotations [a] give the span key [r]:
    the first token of the entry stored with the first occurrence of [r]. *)
Definition label_at (a : annotations) (r label : string) : Prop :=
  ∃ i entry,
    spans_anno_new a !! i = Some r ∧
    (∀ j, j < i → spans_anno_new a !! j ≠ Some r) ∧
    res_anno_new a !! i = Some entry ∧
    Py.split " " entry !! 0 = Some label.

(** The pair of labels that the span key [r] contributes. *)
Definition aligned (gold pred : annotations) (r gl pl : string) : Prop :=
  (r ∈ spans_anno_new gold → label_at gold r gl) ∧
  (r ∉ spans_anno_new gold → gl = "NONE") ∧
  (r ∈ spans_anno_new pred → label_at pred r pl) ∧
  (r ∉ spans_anno_new pred → pl = "NONE").

(** No [Hyponym-of] relation of [rels] has the first member of a
    [Synonym-of] pair of [rels] as an argument. *)
Definition settled (rels : list string) : Prop :=
  ∀ r r2 a b x y,
    r ∈ rels → r2 ∈ rels →
    Py.split " " r = ["Synonym-of"; a; b] →
    Py.split " " r2 = ["Hyponym-of"; x; y] →
    x ≠ a ∧ y ≠ a.

Definition NOTYPES : string := "KEYPHRASE-NOTYPES".

(** What the first loop keeps true when relations are removed and the
    types are collapsed. *)
Definition types_invariant (st : locals) : Prop :=
  rels_anno st = [] ∧ Forall (λ l, l = NOTYPES) (res_anno st).

(** The label sequences and targets once the types are collapsed. *)
Definition types_tally (t : tally) : Prop :=
  Forall (λ l, l = NOTYPES ∨ l = "NONE") (res_all_gold t) ∧
  (targets t = [] ∨ targets t = [NOTYPES]).

(** The entry of the dictionary for one label, and the micro-averaged
    entry, as lines 68-89 assemble them from the arrays. *)
Definition label_record (y_true y_pred : list string) (l : string) : prf :=
  let tp := Sklearn.true_positives l y_true y_pred in
  let p := Sklearn.ratio tp (Sklearn.count l y_pred) in
  let r := Sklearn.ratio tp (Sklearn.count l y_true) in
  {| precision := p; recall := r; f1_score := Sklearn.fscore p r;
     support := Sklearn.count l y_true |}.

Definition micro_record (y_true y_pred labels : list string) : prf :=
  let '(p, r, f) := Sklearn.micro y_true y_pred labels in
  {| precision := p; recall := r; f1_score := f;
     support := sum_list ((λ l, Sklearn.count l y_true) <$> labels) |}.

(** The predicted folder holds an identical copy of every gold [.ann]
    file. *)
Definition identical_copies (folder_gold folder_pred : folder) : Prop :=
  ∀ f, f ∈ folder_gold → Py.endswith f.1 ".ann" = true →
       open folder_pred f.1 = Some f.2.

(** Precision, recall and F1 are all 1.0. *)
Definition perfect (rec : prf) : Prop :=
  (precision rec == 1)%Q ∧ (recall rec == 1)%Q ∧ (f1_score rec == 1)%Q.

(** The label [l] has a row in the report (line 65-66). *)
Definition reported (remove_anno : list string) (l : string) : Prop :=
  Py.mem "keys" remove_anno = false ∨ l ∈ ["Hyponym-of"; "Synonym-of"].

(** The two label sequences agree and every gold label is a target. *)
Definition agreeing (t : tally) : Prop :=
  res_all_pred t = res_all_gold t ∧
  ∀ l, l ∈ res_all_gold t ↔ l ∈ targets t.

(** Whatever [m] raises satisfies [P]. *)
Definition raises_in {A : Type} (P : exn → Prop) (m : result A) : Prop :=
  match m with
  | Ok _ => True
  | Raise e => P e
  end.

(** The two exceptions of the parsing loop. *)
Definition parse_error (e : exn) : Prop :=
  e = IndexError ∨ e = UnboundLocalError.

(** The test of lines 204 and 209 on a line of the file: its second tab
    field starts with a token that ends in ["-of"]. *)
Definition is_relation_line (l : string) : bool :=
  match Py.getitem (Py.split tab (Py.strip l)) 1 with
  | Ok field1 =>
      match Py.getitem (Py.split " " field1) 0 with
      | Ok label => Py.endswith label "-of"
      | Raise _ => false
      end
  | Raise _ => false
  end.

(** The identifier and the second tab field of a line. *)
Definition line_id (l : string) : option string :=
  Py.split tab (Py.strip l) !! 0.

Definition line_field (l : string) : option string :=
  Py.split tab (Py.strip l) !! 1.

(** What the loop over the files keeps true of its accumulators. *)
Definition tally_ok (t : tally) : Prop :=
  length (res_all_gold t) = length (res_all_pred t) ∧
  NoDup (targets t) ∧
  ∀ l, l ∈ targets t → l ∈ res_all_gold t.

(** The labels that get a row in the report (lines 65-66). *)
Definition report_labels (remove_anno : list string) (t : tally) : list string :=
  if Py.mem "keys" remove_anno then ["Hyponym-of"; "Synonym-of"] else targets t.

(** The label of a relation string, and what the rewrite pass may do to
    one: keep the label, and change the string only if the label is
    [Hyponym-of]. *)
Definition rel_label (r : string) : option string := Py.split " " r !! 0.

Definition same_kind (old new : string) : Prop :=
  rel_label new = rel_label old ∧
  (rel_label old ≠ Some "Hyponym-of" → new = old).

(** An entity line with its offsets: not a relation line, and at least
    three space-separated tokens in the second tab field. *)
Definition well_formed_entity (l : string) : Prop :=
  is_relation_line l = false ∧
  ∃ f o1 o2, line_field l = Some f ∧
             Py.split " " f !! 1 = Some o1 ∧ Py.split " " f !! 2 = Some o2.

(** The label and the span key that belong to a stripped entity line [r]:
    its second tab field (or the placeholder), and its two offsets. *)
Definition entity_label (remove_anno : remove_anno_t) (r label : string) : Prop :=
  ∃ f, Py.split tab r !! 1 = Some f ∧
       label = if py_in "types" remove_anno then "KEYPHRASE-NOTYPES" else f.

Definition entity_key (r k : string) : Prop :=
  ∃ f o1 o2, Py.split tab r !! 1 = Some f ∧
             Py.split " " f !! 1 = Some o1 ∧ Py.split " " f !! 2 = Some o2 ∧
             k = Py.join " " [o1; o2].

(** The test of line 277 on a stored line: it is neither a relation line
    [R...] nor an equivalence line [*]. *)
Definition kept (r : string) : bool :=
  match Py.getitem (Py.split tab (Py.strip r)) 0 with
  | Ok id => negb (Py.startswith id "R" || String.eqb id "*")
  | Raise _ => false
  end.

(** A property of relation strings kept when a [Hyponym-of] relation on
    [a] is rewritten to one on [b]. *)
Definition closed_under (G : string → Prop) (a b : string) : Prop :=
  (∀ y, free_of " " y → G (Py.join " " ["Hyponym-of"; a; y]) →
        G (Py.join " " ["Hyponym-of"; b; y])) ∧
  (∀ x, free_of " " x → G (Py.join " " ["Hyponym-of"; x; a]) →
        G (Py.join " " ["Hyponym-of"; x; b])).

(** [r] is no [Hyponym-of] relation with [c] as an argument. *)
Definition avoids (c r : string) : Prop :=
  ∀ x y, Py.split " " r = ["Hyponym-of"; x; y] → x ≠ c ∧ y ≠ c.

(** A relation list without chains: the first member of a [Synonym-of]
    pair is the second member of none, and no [Hyponym-of] relation has it
    as both arguments. *)
Definition chain_free (rels : list string) : Prop :=
  ∀ r a b, r ∈ rels → Py.split " " r = ["Synonym-of"; a; b] →
    (∀ r' c, r' ∈ rels → Py.split " " r' ≠ ["Synonym-of"; c; a]) ∧
    (∀ r', r' ∈ rels → Py.split " " r' ≠ ["Hyponym-of"; a; a]).

(** [l] is a label of the gold annotations: a gold [.ann] file, once
    normalised, gives it to one of its span keys (for a key that several
    annotations carry, the label stored with the first of them). *)
Definition gold_label `{SetOrder} (remove_anno : list string)
    (folder_gold : folder) (l : string) : Prop :=
  ∃ f a r, f ∈ folder_gold ∧ Py.endswith f.1 ".ann" = true ∧
           normaliseAnnotations f.2 (RList remove_anno) = Ok a ∧
           r ∈ spans_anno_new a ∧ label_at a r l.

(** ** Files and folders used as examples *)

Definition reversed_synonym_file : list string :=
  [ line "T1" "Task 20 25" "a"; line "T2" "Task 10 15" "b";
    rel_line "R1" "Synonym-of Arg1:T1 Arg2:T2" ].

Definition reversed_synonym_result : annotations :=
  {| res_full_anno_new :=
       [ "T1" +:+ TAB +:+ "Task 20 25" +:+ TAB +:+ "a";
         "T2" +:+ TAB +:+ "Task 10 15" +:+ TAB +:+ "b";
         "R" +:+ TAB +:+ "Synonym-of Task_10_15 Task_20_25" ];
     res_anno_new :=
       ["Task 20 25"; "Task 10 15"; "Synonym-of Task_10_15 Task_20_25"];
     spans_anno_new := ["20 25"; "10 15"; "Task_10_15 Task_20_25"];
     rels_anno_new := ["Synonym-of Task_10_15 Task_20_25"];
     diagnostics := [] |}.

Definition nested_synonym_file : list string :=
  [ line "T1" "Task 0 9" "a"; line "T2" "Task 1 5" "b";
    rel_line "R1" "Synonym-of Arg1:T1 Arg2:T2" ].

Definition duplicate_span_file : list string :=
  [ line "T1" "Task 0 5" "a"; line "T2" "Process 0 5" "a" ].

Definition pair_gold_file : list string :=
  [ line "T1" "Task 0 5" "Alice"; line "T2" "Task 10 15" "lives" ].

Definition pair_pred_file : list string :=
  [ line "T1" "Task 0 5" "Alice"; line "T3" "Process 20 25" "here" ].

Definition pair_gold : annotations :=
  {| res_full_anno_new :=
       [ "T1" +:+ TAB +:+ "Task 0 5" +:+ TAB +:+ "Alice";
         "T2" +:+ TAB +:+ "Task 10 15" +:+ TAB +:+ "lives" ];
     res_anno_new := ["Task 0 5"; "Task 10 15"];
     spans_anno_new := ["0 5"; "10 15"];
     rels_anno_new := [];
     diagnostics := [] |}.

Definition pair_pred : annotations :=
  {| res_full_anno_new :=
       [ "T1" +:+ TAB +:+ "Task 0 5" +:+ TAB +:+ "Alice";
         "T3" +:+ TAB +:+ "Process 20 25" +:+ TAB +:+ "here" ];
     res_anno_new := ["Task 0 5"; "Process 20 25"];
     spans_anno_new := ["0 5"; "20 25"];
     rels_anno_new := [];
     diagnostics := [] |}.

Definition no_globals : globals := {| g_remove_anno := None |}.

Definition one_doc : folder := [("doc.ann", pair_gold_file)].

Definition dangling_file : list string :=
  [ line "T1" "Task 0 5" "Alice";
    rel_line "R1" "Hyponym-of Arg1:T7 Arg2:T1" ].

Definition chain_file : list string :=
  [ line "T1" "Task 0 1" "a"; line "T2" "Task 2 3" "b";
    line "T3" "Task 4 5" "c"; line "T4" "Task 6 7" "d";
    rel_line "R1" "Synonym-of Arg1:T2 Arg2:T3";
    rel_line "R2" "Synonym-of Arg1:T1 Arg2:T2";
    rel_line "R3" "Hyponym-of Arg1:T1 Arg2:T4" ].

Definition demo_rels : list string :=
  [ "Synonym-of Task_0_1 Task_2_3"; "Hyponym-of Task_2_3 Task_4_5" ].

Definition faulty_file : list string :=
  [ line "T1" "Task" "Alice"; line "T2" "Task 10 15" "lives" ].

Definition chain_rels : list string :=
  [ "Synonym-of Task_2_3 Task_4_5"; "Synonym-of Task_0_1 Task_2_3";
    "Hyponym-of Task_2_3 Task_6_7" ].

Definition one_doc_record : prf :=
  label_record [NOTYPES; NOTYPES] [NOTYPES; NOTYPES] NOTYPES.

Definition entity_doc : folder := [("doc.ann", [line "T1" "Task 0 5" "x"])].

Definition one_doc_task : prf :=
  label_record ["Task"; "Task"] ["Task"; "Task"] "Task".

Definition one_doc_overall : prf :=
  micro_record ["Task"; "Task"] ["Task"; "Task"] ["Task"].

Definition zero_record : prf :=
  {| precision := 0; recall := 0; f1_score := 0; support := 0 |}.

Definition blank_line : string := String "010" "".

Definition mixed_file : list string :=
  [ line "T1" "Task 0 1" "a"; line "T2" "Task 2 3" "b";
    rel_line "R1" "Synonym-of Arg1:T2 Arg2:T1"; line "T3" "Task 4 5" "c" ].

Definition stripped_entities : list string :=
  [ "T1" +:+ TAB +:+ "Task 0 1" +:+ TAB +:+ "a";
    "T2" +:+ TAB +:+ "Task 2 3" +:+ TAB +:+ "b";
    "T1" +:+ TAB +:+ "Process 7 9" +:+ TAB +:+ "c" ].

Definition mixed_folder : folder :=
  [ ("notes.txt", [blank_line]); ("doc.ann", pair_gold_file) ].

Definition pred_folder : folder := [ ("doc.ann", pair_pred_file) ].

Definition pred_folder_more : folder :=
  [ ("other.ann", mixed_file); ("doc.ann", pair_pred_file) ].

Definition pair_tally : tally :=
  {| res_all_gold := ["Task"; "Task"; "NONE"];
     res_all_pred := ["NONE"; "Task"; "Process"];
     targets := ["Task"] |}.

Definition chain_locals : locals :=
  {| res_full_anno :=
       [ "T1" +:+ TAB +:+ "Task 0 1" +:+ TAB +:+ "a";
         "T2" +:+ TAB +:+ "Task 2 3" +:+ TAB +:+ "b";
         "T3" +:+ TAB +:+ "Task 4 5" +:+ TAB +:+ "c";
         "T4" +:+ TAB +:+ "Task 6 7" +:+ TAB +:+ "d";
         "R1" +:+ TAB +:+ "Synonym-of Arg1:T2 Arg2:T3";
         "R2" +:+ TAB +:+ "Synonym-of Arg1:T1 Arg2:T2";
         "R3" +:+ TAB +:+ "Hyponym-of Arg1:T1 Arg2:T4" ];
     res_anno :=
       [ "Task 0 1"; "Task 2 3"; "Task 4 5"; "Task 6 7";
         "Synonym-of Task_2_3 Task_4_5"; "Synonym-of Task_0_1 Task_2_3";
         "Hyponym-of Task_0_1 Task_6_7" ];
     spans_anno :=
       [ "0 1"; "2 3"; "4 5"; "6 7"; "Task_2_3 Task_4_5";
         "Task_0_1 Task_2_3"; "Task_0_1 Task_6_7" ];
     rels_anno :=
       [ "Synonym-of Task_2_3 Task_4_5"; "Synonym-of Task_0_1 Task_2_3";
         "Hyponym-of Task_0_1 Task_6_7" ];
     ent1 := Some "Task_0_1"; ent2 := Some "Task_6_7";
     printed := [] |}.

(** [mixed_file] normalised without types and relations. *)
Definition mixed_placeholders : annotations :=
  {| res_full_anno_new :=
       [ "T1" +:+ TAB +:+ "Task 0 1" +:+ TAB +:+ "a";
         "T2" +:+ TAB +:+ "Task 2 3" +:+ TAB +:+ "b";
         "T3" +:+ TAB +:+ "Task 4 5" +:+ TAB +:+ "c" ];
     res_anno_new := [NOTYPES; NOTYPES; NOTYPES];
     spans_anno_new := ["0 1"; "2 3"; "4 5"];
     rels_anno_new := [];
     diagnostics := [] |}.

(** A folder whose one file carries two annotations on one span. *)
Definition duplicate_doc : folder := [("doc.ann", duplicate_span_file)].

(** * Properties *)

(** ** The primitives on examples *)

Example strip_line : Py.strip ("  T1" +:+ String "009" "Task 0 5" +:+ String "010" "")
                     = "T1" +:+ String "009" "Task 0 5".
Proof. reflexivity. Qed.

Example split_spaces : Py.split " " "Task 0 5" = ["Task"; "0"; "5"].
Proof. reflexivity. Qed.

Example split_empty : Py.split " " "" = [""].
Proof. reflexivity. Qed.

Example replace_arg : Py.replace "Arg1:" "" "Arg1:T12" = "T12".
Proof. reflexivity. Qed.

Example replace_spaces : Py.replace " " "_" "Task 0 5" = "Task_0_5".
Proof. reflexivity. Qed.

Example endswith_of : Py.endswith "Synonym-of" "-of" = true.
Proof. reflexivity. Qed.

Example gt_lexicographic : Py.gt "5" "10" = true.
Proof. reflexivity. Qed.

Example demo_labels :
  (res_anno_new <$> normaliseAnnotations demo_file (RList [""]))
  = Ok ["Task 0 1"; "Task 2 3"; "Task 4 5";
        "Synonym-of Task_0_1 Task_2_3"; "Hyponym-of Task_2_3 Task_4_5"].
Proof. vm_compute. reflexivity. Qed.

Example demo_spans :
  (spans_anno_new <$> normaliseAnnotations demo_file (RList [""]))
  = Ok ["0 1"; "2 3"; "4 5"; "Task_0_1 Task_2_3"; "Task_2_3 Task_4_5"].
Proof. vm_compute. reflexivity. Qed.

Example demo_rel_removed :
  (res_anno_new <$> normaliseAnnotations demo_file (RList ["types"; "rel"]))
  = Ok ["KEYPHRASE-NOTYPES"; "KEYPHRASE-NOTYPES"; "KEYPHRASE-NOTYPES"].
Proof. vm_compute. reflexivity. Qed.

(** ** Results and loops *)

Lemma bind_Ok_l {A B : Type} (a : A) (k : A → result B) : Ok a ≫= k = k a.
Proof. reflexivity. Qed.

Lemma bind_Ok {A B : Type} (m : result A) (k : A → result B) (b : B) :
  m ≫= k = Ok b → ∃ a, m = Ok a ∧ k a = Ok b.
Proof. destruct m as [a|e]; simpl; [eauto | discriminate]. Qed.

Lemma fmap_Ok {A B : Type} (f : A → B) (m : result A) (b : B) :
  f <$> m = Ok b → ∃ a, m = Ok a ∧ b = f a.
Proof. destruct m as [a|e]; simpl; [|discriminate]. intros [= <-]. eauto. Qed.

Lemma for_each_cons {A S : Type} (body : S → A → result S) x l st :
  for_each body (x :: l) st = body st x ≫= for_each body l.
Proof. reflexivity. Qed.

Lemma for_each_app {A S : Type} (body : S → A → result S) l1 l2 st :
  for_each body (l1 ++ l2) st = for_each body l1 st ≫= for_each body l2.
Proof.
  revert st. induction l1 as [|x l1 IH]; intros st; simpl; [done|].
  destruct (body st x) as [st'|e]; simpl; [apply IH | done].
Qed.

(** A property kept by every round of a loop holds when the loop ends. *)
Lemma for_each_invariant {A S : Type} (P : S → Prop) (body : S → A → result S)
    l st st' :
  (∀ s x s', x ∈ l → P s → body s x = Ok s' → P s') →
  P st → for_each body l st = Ok st' → P st'.
Proof.
  revert st. induction l as [|x l IH]; intros st Hstep HP; simpl.
  - by intros [= <-].
  - intros (s1 & H1 & H2)%bind_Ok.
    apply (IH s1); [|by eapply Hstep; [left| |]|done].
    intros s y s' Hy. apply Hstep. by right.
Qed.

(** A loop whose rounds all return does return. *)
Lemma for_each_total {A S : Type} (P : S → Prop) (body : S → A → result S)
    l st :
  (∀ s x, x ∈ l → P s → ∃ s', body s x = Ok s' ∧ P s') →
  P st → ∃ st', for_each body l st = Ok st' ∧ P st'.
Proof.
  revert st. induction l as [|x l IH]; intros st Hstep HP; simpl; [eauto|].
  destruct (Hstep st x) as (s1 & -> & HP1); [by left|done|]. simpl.
  apply IH; [|done]. intros s y Hy. apply Hstep. by right.
Qed.

(** ** Strings *)

Lemma split_cons sep s : ∃ w ws, Py.split sep s = w :: ws.
Proof.
  destruct s as [|c s]; simpl; [eauto|].
  destruct (Ascii.eqb c sep); [eauto|]. destruct (Py.split sep s); eauto.
Qed.

Lemma getitem_split_0 sep s : ∃ w, Py.getitem (Py.split sep s) 0 = Ok w.
Proof. destruct (split_cons sep s) as (w & ws & ->). by exists w. Qed.

Lemma getitem_Ok {A : Type} (l : list A) i x :
  Py.getitem l i = Ok x ↔ l !! i = Some x.
Proof.
  unfold Py.getitem. destruct (l !! i); split; intros; simplify_eq; done.
Qed.

Lemma getitem_lt {A : Type} (l : list A) i :
  i < length l → ∃ x, Py.getitem l i = Ok x.
Proof.
  intros (x & Hx)%lookup_lt_is_Some_2. exists x. by apply getitem_Ok.
Qed.

Lemma split_free sep s : free_of sep s → Py.split sep s = [s].
Proof.
  induction s as [|c s IH]; simpl; [done|]. intros [Hc Hs].
  destruct (Ascii.eqb_spec c sep) as [->|_]; [done|]. by rewrite IH.
Qed.

Lemma split_app sep a s :
  free_of sep a → Py.split sep (a +:+ String sep s) = a :: Py.split sep s.
Proof.
  induction a as [|c a IH]; simpl.
  - intros _. by rewrite Ascii.eqb_refl.
  - intros [Hc Ha]. destruct (Ascii.eqb_spec c sep) as [->|_]; [done|].
    by rewrite IH.
Qed.

Lemma split_Forall_free sep s : Forall (free_of sep) (Py.split sep s).
Proof.
  induction s as [|c s IH]; simpl; [by repeat constructor|].
  destruct (Ascii.eqb_spec c sep) as [->|Hc]; [by constructor|].
  destruct (Py.split sep s) as [|w ws]; [by repeat constructor|].
  inversion_clear IH. by repeat constructor.
Qed.

Lemma getitem_split_free sep s i w :
  Py.getitem (Py.split sep s) i = Ok w → free_of sep w.
Proof.
  intros Hw%getitem_Ok. eapply Forall_lookup_1; [apply split_Forall_free|done].
Qed.

Lemma free_of_app c a b : free_of c a → free_of c b → free_of c (a +:+ b).
Proof.
  induction a as [|x a IH]; simpl; [done|]. intros [Hx Ha] Hb. split; auto.
Qed.

Lemma replace_space_free s : free_of " " (Py.replace " " "_" s).
Proof.
  unfold Py.replace. induction s as [|c s IH]; simpl; [done|].
  assert (String.prefix "" s = true) as Hp by (by destruct s).
  destruct (Ascii.ascii_dec " " c) as [<-|Hc]; simpl.
  - rewrite Hp. simpl. done.
  - destruct c as [[] [] [] [] [] [] [] []]; simpl; try (split; [done|apply IH]).
    by destruct Hc.
Qed.

Lemma join3 a b c :
  Py.join " " [a; b; c] = a +:+ String " " (b +:+ String " " c).
Proof. reflexivity. Qed.

Lemma join2 a b : Py.join " " [a; b] = a +:+ String " " b.
Proof. reflexivity. Qed.

(** A relation string splits back into the three tokens it was joined from. *)
Lemma split_join3 a b c :
  free_of " " a → free_of " " b → free_of " " c →
  Py.split " " (Py.join " " [a; b; c]) = [a; b; c].
Proof.
  intros Ha Hb Hc. rewrite join3, split_app by done.
  by rewrite split_app, split_free.
Qed.

(** ** The first loop *)

Lemma gt_asym a b : Py.gt a b = true → Py.gt b a = false.
Proof.
  unfold Py.gt. rewrite (String.compare_antisym b a).
  by destruct (String.compare a b).
Qed.

Lemma resolve_step_free arg1 arg2 ents l ents' :
  ents_free ents → resolve_step arg1 arg2 ents l = Ok ents' → ents_free ents'.
Proof.
  intros [H1 H2]. unfold resolve_step.
  intros (id1 & _ & (e1 & He1 & (id2 & _ & (e2 & He2 & [= <-])%bind_Ok)
    %bind_Ok)%bind_Ok)%bind_Ok.
  split; simpl; intros e ->.
  - destruct (String.eqb id1 arg1); [|simplify_eq; auto].
    apply bind_Ok in He1 as (f & _ & [= <-]). apply replace_space_free.
  - destruct (String.eqb id2 arg2); [|simplify_eq; auto].
    apply bind_Ok in He2 as (f & _ & [= <-]). apply replace_space_free.
Qed.

Lemma resolve_free arg1 arg2 l ents ents' :
  ents_free ents →
  for_each (resolve_step arg1 arg2) l ents = Ok ents' → ents_free ents'.
Proof.
  intros Hents. apply for_each_invariant; [|done].
  intros s x s' _. apply resolve_step_free.
Qed.

(** Lines 219-225 return both references bound, in the order of their
    offset tokens, and the same two references they were given. *)
Lemma order_synonym_spec ents ents' :
  order_synonym ents = Ok ents' →
  ∃ x1 x2 t1 t2,
    ents' = (Some x1, Some x2) ∧
    offset_token x1 = Some t1 ∧ offset_token x2 = Some t2 ∧
    Py.gt t1 t2 = false ∧
    (ents = (Some x1, Some x2) ∨ ents = (Some x2, Some x1)).
Proof.
  destruct ents as [[x1|] [x2|]]; unfold order_synonym; simpl; try done.
  intros (t1 & Ht1%getitem_Ok & (t2 & Ht2%getitem_Ok & Hgt)%bind_Ok)%bind_Ok.
  destruct (Py.gt t1 t2) eqn:Hcmp; simplify_eq.
  - exists x2, x1, t2, t1. eauto 10 using gt_asym.
  - exists x1, x2, t1, t2. eauto 10.
Qed.

Lemma relation_line_invariant st r_g_offs st' :
  Forall (free_of " ") r_g_offs →
  loop_invariant st → relation_line st r_g_offs = Ok st' → loop_invariant st'.
Proof.
  intros Hoffs [Hlen Hrels Hents]. unfold relation_line.
  intros (a1 & _ & (a2 & _ & (ents & Hres & (label & Hlabel &
    (ents' & Hord & (x1 & Hx1 & (x2 & Hx2 & [= <-])%bind_Ok)%bind_Ok)
    %bind_Ok)%bind_Ok)%bind_Ok)%bind_Ok)%bind_Ok.
  apply resolve_free in Hres; [|done].
  apply getitem_Ok in Hlabel. eapply Forall_lookup_1 in Hlabel; [|done].
  assert (ents_free ents' ∧
          (label = "Synonym-of" →
           ∃ t1 t2, offset_token x1 = Some t1 ∧ offset_token x2 = Some t2 ∧
                    Py.gt t1 t2 = false)) as [Hfree Hsyn].
  { destruct (String.eqb_spec label "Synonym-of") as [->|Hne].
    - apply order_synonym_spec in Hord
        as (y1 & y2 & t1 & t2 & -> & Ht1 & Ht2 & Hgt & Hsame).
      simpl in *. simplify_eq. split; [|by eauto].
      destruct Hres as [F1 F2].
      destruct Hsame as [->| ->]; split; simpl in *; intros; simplify_eq; auto.
    - simplify_eq. by split. }
  destruct ents' as [[y1|] [y2|]]; simplify_eq/=.
  destruct Hfree as [F1 F2]. split; simpl.
  - rewrite !length_app. simpl. lia.
  - apply Forall_app. split; [done|]. constructor; [|done].
    exists label, x1, x2. split_and!; [done|done|by apply F1|by apply F2|done].
  - done.
Qed.

Lemma except_IndexError_Ok {A : Type} (body : result A) handler a :
  except_IndexError body handler = Ok a →
  body = Ok a ∨ body = Raise IndexError ∧ a = handler.
Proof.
  destruct body as [b|[]]; simpl; intros; simplify_eq; auto.
Qed.

Lemma except_ValueError_Ok {A : Type} (body : result A) handler a :
  except_ValueError body handler = Ok a →
  body = Ok a ∨ body = Raise ValueError ∧ a = handler.
Proof.
  destruct body as [b|[]]; simpl; intros; simplify_eq; auto.
Qed.

(** An entity line either appends one label and one span key, or only
    prints the diagnostic. *)
Lemma entity_line_Ok remove_anno st field1 r_g_offs st' :
  entity_line remove_anno st field1 r_g_offs = Ok st' →
  res_full_anno st' = res_full_anno st ∧ rels_anno st' = rels_anno st ∧
  ent1 st' = ent1 st ∧ ent2 st' = ent2 st ∧
  ((∃ o1 o2, r_g_offs !! 1 = Some o1 ∧ r_g_offs !! 2 = Some o2 ∧
             res_anno st' = res_anno st ++
               [if py_in "types" remove_anno then "KEYPHRASE-NOTYPES" else field1] ∧
             spans_anno st' = spans_anno st ++ [Py.join " " [o1; o2]] ∧
             printed st' = printed st) ∨
   (r_g_offs !! 2 = None ∧ res_anno st' = res_anno st ∧
    spans_anno st' = spans_anno st ∧ printed st' = printed st ++ [faulty])).
Proof.
  unfold entity_line. intros [Hb|[Hb ->]]%except_IndexError_Ok.
  - apply bind_Ok in Hb as (o1 & Ho1%getitem_Ok & (o2 & Ho2%getitem_Ok & [= <-])
      %bind_Ok). simpl. split_and!; try done. left. by exists o1, o2.
  - simpl. split_and!; try done. right. split_and!; try done.
    unfold Py.getitem in Hb.
    destruct (r_g_offs !! 1) eqn:H1; simpl in Hb.
    + by destruct (r_g_offs !! 2).
    + apply lookup_ge_None in H1. apply lookup_ge_None. lia.
Qed.

Lemma line_step_invariant remove_anno st l st' :
  loop_invariant st → line_step remove_anno st l = Ok st' → loop_invariant st'.
Proof.
  intros Hinv. unfold line_step.
  intros (field1 & _ & (label & _ & Hstep)%bind_Ok)%bind_Ok.
  destruct (py_in "rel" remove_anno && Py.endswith label "-of"); [by simplify_eq|].
  destruct (Py.endswith label "-of").
  - eapply relation_line_invariant; [apply split_Forall_free| |done].
    by destruct Hinv.
  - apply entity_line_Ok in Hstep as (_ & Hrels & He1 & He2 & Hcase).
    destruct Hinv as [Hlen Hr He]. simpl in *.
    split; [|by rewrite Hrels|by rewrite He1, He2].
    destruct Hcase as [(o1 & o2 & _ & _ & -> & -> & _)|(_ & -> & -> & _)];
      [|done]. rewrite !length_app. simpl. lia.
Qed.

Lemma loop_invariant_init : loop_invariant locals0.
Proof. by repeat split. Qed.

Lemma first_loop_invariant remove_anno file_anno st :
  for_each (line_step remove_anno) file_anno locals0 = Ok st → loop_invariant st.
Proof.
  apply for_each_invariant; [|apply loop_invariant_init].
  intros s x s' _. apply line_step_invariant.
Qed.

(** ** The rewrite pass *)

Lemma wf_rel_split r :
  wf_rel r → ∃ label e1 e2, r = Py.join " " [label; e1; e2] ∧
                            Py.split " " r = [label; e1; e2].
Proof.
  intros (label & e1 & e2 & -> & Hl & H1 & H2 & _).
  exists label, e1, e2. by rewrite split_join3.
Qed.

Lemma wf_rel_hyponym x y :
  free_of " " x → free_of " " y → wf_rel (Py.join " " ["Hyponym-of"; x; y]).
Proof.
  intros Hx Hy. exists "Hyponym-of", x, y. split_and!; done.
Qed.

Lemma refers_true r_offs r2_offs k :
  refers r_offs r2_offs k = Ok true →
  r2_offs !! 0 = Some "Hyponym-of" ∧
  ∃ a, r_offs !! 1 = Some a ∧ r2_offs !! k = Some a.
Proof.
  unfold refers. intros (label & Hl%getitem_Ok & Hc)%bind_Ok.
  destruct (String.eqb_spec label "Hyponym-of") as [->|]; [|done].
  apply bind_Ok in Hc as (a & Ha%getitem_Ok & (b & Hb%getitem_Ok & [= Hab])
    %bind_Ok).
  apply String.eqb_eq in Hab as ->. eauto.
Qed.

Lemma set_at_index_Ok rels r2 r_new rels' :
  set_at_index rels r2 r_new = Ok rels' →
  ∃ i, rels' = <[i := r_new]> rels.
Proof. unfold set_at_index. intros (i & _ & [= <-])%bind_Ok. eauto. Qed.

Lemma set_at_index_wf rels r2 r_new rels' :
  Forall wf_rel rels → wf_rel r_new →
  set_at_index rels r2 r_new = Ok rels' →
  Forall wf_rel rels' ∧ length rels' = length rels.
Proof.
  intros Hrels Hnew (i & ->)%set_at_index_Ok. split.
  - by apply Forall_insert.
  - apply length_insert.
Qed.

Lemma hyponym_new_wf r_offs r2_offs x y :
  Forall (free_of " ") r_offs → Forall (free_of " ") r2_offs →
  x ∈ r_offs ++ r2_offs → y ∈ r_offs ++ r2_offs →
  wf_rel (Py.join " " ["Hyponym-of"; x; y]).
Proof.
  intros Hr H2 Hx Hy.
  pose proof (Forall_app_2 _ _ _ Hr H2) as Hall. rewrite Forall_forall in Hall.
  apply wf_rel_hyponym; by apply Hall.
Qed.

Lemma rewrite_head_wf r_offs r2_offs rels r2 rels1 :
  Forall (free_of " ") r_offs → Forall (free_of " ") r2_offs →
  Forall wf_rel rels →
  rewrite_head r_offs r2_offs rels r2 = Ok (Some rels1) →
  Forall wf_rel rels1 ∧ length rels1 = length rels.
Proof.
  intros Hr H2 Hrels. unfold rewrite_head. intros (c1 & Hc1 & Hfirst)%bind_Ok.
  destruct c1; [|by simplify_eq].
  apply refers_true in Hc1 as (Hl & a & Ha & Hb).
  apply bind_Ok in Hfirst as (label & Hl'%getitem_Ok & (x & Hx%getitem_Ok &
    (y & Hy%getitem_Ok & Hset)%bind_Ok)%bind_Ok). simplify_eq.
  apply except_ValueError_Ok in Hset as [Hset|[_ [=]]].
  apply fmap_Ok in Hset as (rels' & Hset & [= <-]).
  eapply set_at_index_wf; [done| |done].
  apply (hyponym_new_wf r_offs r2_offs); [done|done|..]; apply elem_of_app;
    [left|right]; by eapply list_elem_of_lookup_2.
Qed.

Lemma rewrite_tail_wf r_offs r2_offs rels r2 rels' :
  Forall (free_of " ") r_offs → Forall (free_of " ") r2_offs →
  Forall wf_rel rels →
  rewrite_tail r_offs r2_offs rels r2 = Ok rels' →
  Forall wf_rel rels' ∧ length rels' = length rels.
Proof.
  intros Hr H2 Hrels. unfold rewrite_tail. intros (c2 & Hc2 & Hrest)%bind_Ok.
  destruct c2; [|by simplify_eq].
  apply refers_true in Hc2 as (Hl & a & Ha & Hb).
  apply bind_Ok in Hrest as (label & Hl'%getitem_Ok & (x & Hx%getitem_Ok &
    (y & Hy%getitem_Ok & Hset)%bind_Ok)%bind_Ok). simplify_eq.
  apply except_ValueError_Ok in Hset as [Hset|[_ ->]]; [|done].
  eapply set_at_index_wf; [done| |done].
  apply (hyponym_new_wf r_offs r2_offs); [done|done|..]; apply elem_of_app;
    [right|left]; by eapply list_elem_of_lookup_2.
Qed.

Lemma rewrite_hyponym_wf r_offs rels j rels' :
  Forall (free_of " ") r_offs → Forall wf_rel rels →
  rewrite_hyponym r_offs rels j = Ok rels' →
  Forall wf_rel rels' ∧ length rels' = length rels.
Proof.
  intros Hr Hrels. unfold rewrite_hyponym.
  intros (r2 & _ & (first & Hfirst & Hrest)%bind_Ok)%bind_Ok.
  destruct first as [rels1|]; [|by simplify_eq].
  apply rewrite_head_wf in Hfirst as [Hwf1 Hlen1];
    [|done|apply split_Forall_free|done].
  rewrite <- Hlen1. eapply rewrite_tail_wf; [| |done|done];
    [done|apply split_Forall_free].
Qed.

Lemma rewrite_synonym_wf rels i rels' :
  Forall wf_rel rels → rewrite_synonym rels i = Ok rels' →
  Forall wf_rel rels' ∧ length rels' = length rels.
Proof.
  intros Hrels. unfold rewrite_synonym.
  intros (r & _ & (r' & _ & (label & _ & Hloop)%bind_Ok)%bind_Ok)%bind_Ok.
  destruct (String.eqb label "Synonym-of"); [|by simplify_eq].
  revert Hloop.
  apply (for_each_invariant
           (λ l, Forall wf_rel l ∧ length l = length rels)); [|done].
  intros s j s' _ [Hs Hlen] Hstep. rewrite <- Hlen.
  eapply rewrite_hyponym_wf; [apply split_Forall_free|done|done].
Qed.

(** The pass keeps the number of relations and their three-token shape. *)
Lemma rewrite_pass_wf rels rels' :
  Forall wf_rel rels → rewrite_pass rels = Ok rels' →
  Forall wf_rel rels' ∧ length rels' = length rels.
Proof.
  intros Hrels. unfold rewrite_pass.
  apply (for_each_invariant
           (λ l, Forall wf_rel l ∧ length l = length rels)); [|done].
  intros s j s' _ [Hs Hlen] Hstep. rewrite <- Hlen.
  by eapply rewrite_synonym_wf.
Qed.

(** ** The last two loops *)

Lemma collect_step_Ok st acc r acc' :
  length (res_anno st) = length (spans_anno st) →
  collect_step st acc r = Ok acc' →
  rels_anno_new acc' = rels_anno_new acc ∧
  (res_anno_new acc' = res_anno_new acc ∧
   spans_anno_new acc' = spans_anno_new acc ∨
   ∃ ind label span,
     res_anno st !! ind = Some label ∧ spans_anno st !! ind = Some span ∧
     res_anno_new acc' = res_anno_new acc ++ [label] ∧
     spans_anno_new acc' = spans_anno_new acc ++ [span]).
Proof.
  intros Hlen. unfold collect_step.
  intros [Hb|[_ ->]]%except_IndexError_Ok; [|by auto].
  apply bind_Ok in Hb as (id & _ & Hb).
  destruct (Py.startswith id "R" || String.eqb id "*"); [simplify_eq; by auto|].
  apply bind_Ok in Hb as (ind & _ & [Hb|[_ ->]]%except_IndexError_Ok);
    [|by auto].
  apply bind_Ok in Hb as (label & Hlabel%getitem_Ok & Hb).
  apply except_IndexError_Ok in Hb as [Hb|[Hb _]].
  - apply bind_Ok in Hb as (span & Hspan%getitem_Ok & [= <-]). simpl.
    split; [done|]. right. by exists ind, label, span.
  - apply lookup_lt_Some in Hlabel. rewrite Hlen in Hlabel.
    apply getitem_lt in Hlabel as (span & Hspan). by rewrite Hspan in Hb.
Qed.

Lemma collect_Ok st l acc acc' :
  length (res_anno st) = length (spans_anno st) →
  for_each (collect_step st) l acc = Ok acc' →
  rels_anno_new acc' = rels_anno_new acc ∧
  ∃ labels spans,
    res_anno_new acc' = res_anno_new acc ++ labels ∧
    spans_anno_new acc' = spans_anno_new acc ++ spans ∧
    length labels = length spans ∧
    Forall (λ x, x ∈ res_anno st) labels.
Proof.
  intros Hlen. revert acc. induction l as [|r l IH]; intros acc; simpl.
  - intros [= <-]. split; [done|]. exists [], []. by rewrite !app_nil_r.
  - intros (acc1 & H1 & H2)%bind_Ok.
    apply collect_step_Ok in H1 as [Hr1 Hcase]; [|done].
    apply IH in H2 as (Hr2 & labels & spans & Hl & Hs & Hlen' & Hall).
    split; [congruence|].
    destruct Hcase as [[E1 E2]|(ind & label & span & Hi & Hj & E1 & E2)].
    + exists labels, spans. by rewrite Hl, Hs, E1, E2.
    + exists (label :: labels), (span :: spans).
      rewrite Hl, Hs, E1, E2, <- !app_assoc. simpl. split_and!; try done.
      * by rewrite Hlen'.
      * constructor; [|done]. by eapply list_elem_of_lookup_2.
Qed.

Lemma append_relation_Ok rels acc acc' :
  for_each append_relation rels acc = Ok acc' →
  rels_anno_new acc' = rels_anno_new acc ∧
  diagnostics acc' = diagnostics acc ∧
  res_anno_new acc' = res_anno_new acc ++ rels ∧
  ∃ keys, Forall2 key_of rels keys ∧
          spans_anno_new acc' = spans_anno_new acc ++ keys.
Proof.
  revert acc. induction rels as [|r rels IH]; intros acc; simpl.
  - intros [= <-]. rewrite app_nil_r. split_and!; try done.
    exists []. by rewrite app_nil_r.
  - intros (acc1 & H1 & H2)%bind_Ok. unfold append_relation in H1.
    apply bind_Ok in H1 as (x & Hx%getitem_Ok & (y & Hy%getitem_Ok & [= <-])
      %bind_Ok).
    apply IH in H2 as (Hr & Hd & Hl & keys & Hkeys & Hs). simpl in *.
    split_and!; try done.
    + by rewrite Hl, <- app_assoc.
    + exists (Py.join " " [x; y] :: keys). split.
      * constructor; [|done]. by exists x, y.
      * by rewrite Hs, <- app_assoc.
Qed.

Lemma append_relation_total rels acc :
  Forall wf_rel rels → ∃ acc', for_each append_relation rels acc = Ok acc'.
Proof.
  revert acc. induction rels as [|r rels IH]; intros acc Hwf; simpl; [eauto|].
  inversion_clear Hwf as [|?? Hr Hrels].
  apply wf_rel_split in Hr as (label & e1 & e2 & -> & Hsplit).
  unfold append_relation. rewrite Hsplit. simpl. by apply IH.
Qed.

Section NormaliseFacts.
Context `{SetOrder}.

(** What a returned value of [normaliseAnnotations] is made of. *)
Lemma normalise_Ok file_anno remove_anno a :
  normaliseAnnotations file_anno remove_anno = Ok a →
  ∃ st rels labels spans keys,
    for_each (line_step remove_anno) file_anno locals0 = Ok st ∧
    rewrite_pass (rels_anno st) = Ok rels ∧
    rels_anno_new a = set_list rels ∧
    res_anno_new a = labels ++ set_list rels ∧
    spans_anno_new a = spans ++ keys ∧
    length labels = length spans ∧
    Forall (λ x, x ∈ res_anno st) labels ∧
    Forall2 key_of (set_list rels) keys.
Proof.
  unfold normaliseAnnotations.
  intros (st & Hst & (rels & Hrels & (acc & Hacc & Happ)%bind_Ok)%bind_Ok)
    %bind_Ok.
  pose proof (first_loop_invariant _ _ _ Hst) as [Hlen _ _].
  apply collect_Ok in Hacc as (Hr & labels & spans & Hl & Hs & Hlen' & Hall);
    [|done].
  apply append_relation_Ok in Happ as (Hr' & _ & Hl' & keys & Hkeys & Hs').
  simpl in *. exists st, rels, labels, spans, keys.
  split_and!; try done; congruence.
Qed.

(** The labels and the span keys come out with the same length. *)
Lemma normalise_parallel file_anno remove_anno a :
  normaliseAnnotations file_anno remove_anno = Ok a →
  length (res_anno_new a) = length (spans_anno_new a).
Proof.
  intros (st & rels & labels & spans & keys & _ & _ & _ & -> & -> & Hlen & _ & Hk)
    %normalise_Ok.
  rewrite !length_app, Hlen. f_equal. by eapply Forall2_length.
Qed.

Lemma set_list_Forall (P : string → Prop) l :
  Forall P l → Forall P (set_list l).
Proof.
  rewrite !Forall_forall. intros HP x Hx. apply HP. by apply set_list_elem.
Qed.

(** Every returned relation string has the three-token shape, with a
    [Synonym-of] pair in order. *)
Lemma normalise_rels_wf file_anno remove_anno a :
  normaliseAnnotations file_anno remove_anno = Ok a →
  Forall wf_rel (rels_anno_new a).
Proof.
  intros (st & rels & labels & spans & keys & Hst & Hrels & -> & _)%normalise_Ok.
  apply set_list_Forall.
  apply first_loop_invariant in Hst as [_ Hwf _].
  by apply rewrite_pass_wf in Hrels as [? _].
Qed.

End NormaliseFacts.

(** ** Synonym pairs: order of the two references *)

Lemma decimal_from_digits s acc acc' :
  decimal_from acc s = None → decimal_from acc' s = None.
Proof.
  revert acc acc'. induction s as [|c s IH]; intros acc acc'; simpl; [done|].
  destruct (_ && _); [apply IH|done].
Qed.

Lemma decimal_from_spec s acc n :
  decimal_from acc s = Some n →
  ∃ v, decimal_from 0 s = Some v ∧
       (n = acc * 10 ^ N.of_nat (String.length s) + v)%N ∧
       (v < 10 ^ N.of_nat (String.length s))%N.
Proof.
  revert acc n. induction s as [|c s IH]; intros acc n; simpl.
  - intros [= <-]. exists 0%N. split_and!; [done|lia|lia].
  - destruct (_ && _) eqn:Hd; [|done]. intros Hn.
    apply andb_prop in Hd as [Hlo%N.leb_le Hhi%N.leb_le].
    destruct (decimal_from (0 * 10 + (N_of_ascii c - 48)) s) as [w|] eqn:Hw.
    + apply IH in Hn as (v & Hv & -> & Hlt).
      apply IH in Hw as (v' & Hv' & -> & _). simplify_eq.
      exists ((0 * 10 + (N_of_ascii c - 48)) * 10 ^ N.of_nat (String.length s) + v)%N.
      rewrite Nat2N.inj_succ, N.pow_succ_r'. split_and!; [done|lia|nia].
    + by rewrite (decimal_from_digits _ _ _ Hw) in Hn.
Qed.

(** On numerals of equal length the string order of line 222 is the order
    of the numbers. *)
Lemma gt_false_numeric t1 t2 n1 n2 :
  String.length t1 = String.length t2 →
  decimal_from 0 t1 = Some n1 → decimal_from 0 t2 = Some n2 →
  Py.gt t1 t2 = false → (n1 ≤ n2)%N.
Proof.
  revert t2 n1 n2. induction t1 as [|c1 t1 IH]; intros [|c2 t2] n1 n2; simpl;
    try done.
  - intros _ [= <-] [= <-] _. lia.
  - intros [= Hlen].
    destruct (_ && _) eqn:Hd1; [|done].
    destruct ((48 <=? N_of_ascii c2)%N && _) eqn:Hd2; [|done].
    apply andb_prop in Hd1 as [Hlo1%N.leb_le Hhi1%N.leb_le].
    apply andb_prop in Hd2 as [Hlo2%N.leb_le Hhi2%N.leb_le].
    intros (v1 & Hv1 & -> & Hlt1)%decimal_from_spec
           (v2 & Hv2 & -> & Hlt2)%decimal_from_spec.
    rewrite Hlen in Hlt1 |- *. unfold Py.gt. simpl. unfold Ascii.compare.
    destruct (N.compare_spec (N_of_ascii c1) (N_of_ascii c2)) as [Heq|Hlt|Hgt];
      [|nia|done].
    intros Hcmp. rewrite Heq. specialize (IH t2 v1 v2 Hlen Hv1 Hv2 Hcmp). lia.
Qed.

Section Synonyms.
Context `{SetOrder}.

Lemma normalise_key_of file_anno remove_anno a r x y :
  normaliseAnnotations file_anno remove_anno = Ok a →
  r ∈ rels_anno_new a →
  Py.split " " r !! 1 = Some x → Py.split " " r !! 2 = Some y →
  Py.join " " [x; y] ∈ spans_anno_new a ∧ r ∈ res_anno_new a.
Proof.
  intros (st & rels & labels & spans & keys & _ & _ & -> & -> & -> & _ & _ & Hk)
    %normalise_Ok Hr Hx Hy.
  split; [|apply elem_of_app; by right].
  apply list_elem_of_lookup in Hr as (i & Hi).
  destruct (Forall2_lookup_l _ _ _ _ _ Hk Hi) as (k & Hki & x' & y' & Hx' & Hy' & ->).
  simplify_eq. apply elem_of_app. right. by eapply list_elem_of_lookup_2.
Qed.

(** In a returned [Synonym-of] string the first reference's offset token is
    not greater, as a string, than the second's. *)
Lemma synonym_string_order file_anno remove_anno a r e1 e2 :
  normaliseAnnotations file_anno remove_anno = Ok a →
  r ∈ rels_anno_new a →
  Py.split " " r = ["Synonym-of"; e1; e2] →
  ∃ t1 t2, offset_token e1 = Some t1 ∧ offset_token e2 = Some t2 ∧
           Py.gt t1 t2 = false.
Proof.
  intros Ha Hr Hsplit. apply normalise_rels_wf in Ha.
  rewrite Forall_forall in Ha.
  destruct (Ha r Hr) as (label & x1 & x2 & -> & Hl & H1 & H2 & Hsyn).
  rewrite split_join3 in Hsplit by done. simplify_eq. by apply Hsyn.
Qed.

(** C3, amended: the two references of every returned [Synonym-of] string,
    and of its span key, are in ascending order of their start offsets
    (the token at index 1 of the underscore split) whenever the two start
    offsets are numerals with the same number of digits. *)
Theorem synonym_ordered_by_start_offset file_anno remove_anno a r e1 e2
    t1 t2 n1 n2 :
  normaliseAnnotations file_anno remove_anno = Ok a →
  r ∈ rels_anno_new a →
  Py.split " " r = ["Synonym-of"; e1; e2] →
  offset_token e1 = Some t1 → offset_token e2 = Some t2 →
  String.length t1 = String.length t2 →
  decimal t1 = Some n1 → decimal t2 = Some n2 →
  (n1 ≤ n2)%N ∧
  Py.join " " [e1; e2] ∈ spans_anno_new a ∧ r ∈ res_anno_new a.
Proof.
  intros Ha Hr Hsplit Ht1 Ht2 Hlen Hn1 Hn2. split.
  - destruct (synonym_string_order _ _ _ _ _ _ Ha Hr Hsplit)
      as (t1' & t2' & Ht1' & Ht2' & Hgt). simplify_eq.
    destruct t1, t2; try done. by eapply gt_false_numeric.
  - eapply normalise_key_of; [done|done| |]; by rewrite Hsplit.
Qed.

End Synonyms.

Lemma synonym_ordered_by_start_offset_witness :
  (10 ≤ 20)%N ∧
  Py.join " " ["Task_10_15"; "Task_20_25"]
    ∈ spans_anno_new reversed_synonym_result ∧
  "Synonym-of Task_10_15 Task_20_25" ∈ res_anno_new reversed_synonym_result.
Proof.
  apply (synonym_ordered_by_start_offset reversed_synonym_file (RList [""])
           reversed_synonym_result "Synonym-of Task_10_15 Task_20_25"
           "Task_10_15" "Task_20_25" "10" "20" 10%N 20%N).
  - vm_compute. reflexivity.
  - simpl. apply list_elem_of_here.
  - reflexivity.
  - reflexivity.
  - reflexivity.
  - reflexivity.
  - reflexivity.
  - reflexivity.
Defined.

(** C3 as the specification states it fails: the second (end) offsets of a
    returned [Synonym-of] pair can be in descending order. *)
Lemma synonym_end_offsets_descending :
  (rels_anno_new <$> normaliseAnnotations nested_synonym_file (RList [""]))
    = Ok ["Synonym-of Task_0_9 Task_1_5"] ∧
  (spans_anno_new <$> normaliseAnnotations nested_synonym_file (RList [""]))
    = Ok ["0 9"; "1 5"; "Task_0_9 Task_1_5"] ∧
  end_offset "Task_0_9" = Some 9%N ∧ end_offset "Task_1_5" = Some 5%N ∧
  ¬ (9 ≤ 5)%N.
Proof.
  split_and!; [vm_compute; reflexivity..|lia].
Qed.

(** ** Span keys and labels of one file (C5) *)

Section Parallel.
Context `{SetOrder}.

(** C5, amended: the returned labels and span keys have the same length,
    and they end with one entry for each returned relation string, stored
    once, next to that relation's span key.  A span key itself can occur
    more than once. *)
Theorem spans_labels_parallel file_anno remove_anno a :
  normaliseAnnotations file_anno remove_anno = Ok a →
  length (res_anno_new a) = length (spans_anno_new a) ∧
  NoDup (rels_anno_new a) ∧
  ∃ labels spans keys,
    res_anno_new a = labels ++ rels_anno_new a ∧
    spans_anno_new a = spans ++ keys ∧
    length labels = length spans ∧
    Forall2 key_of (rels_anno_new a) keys.
Proof.
  intros Ha. split; [by eapply normalise_parallel|].
  apply normalise_Ok in Ha
    as (st & rels & labels & spans & keys & _ & _ & -> & -> & -> & Hlen & _ & Hk).
  split; [apply set_list_NoDup|]. by exists labels, spans, keys.
Qed.

End Parallel.

Lemma spans_labels_parallel_witness :
  length (res_anno_new reversed_synonym_result)
    = length (spans_anno_new reversed_synonym_result) ∧
  NoDup (rels_anno_new reversed_synonym_result) ∧
  ∃ labels spans keys,
    res_anno_new reversed_synonym_result
      = labels ++ rels_anno_new reversed_synonym_result ∧
    spans_anno_new reversed_synonym_result = spans ++ keys ∧
    length labels = length spans ∧
    Forall2 key_of (rels_anno_new reversed_synonym_result) keys.
Proof.
  apply (spans_labels_parallel reversed_synonym_file (RList [""])).
  vm_compute. reflexivity.
Defined.

(** C5 as the specification states it fails: two entity lines with the
    same offsets give the same span key twice. *)
Lemma span_key_twice :
  (spans_anno_new <$> normaliseAnnotations duplicate_span_file (RList [""]))
    = Ok ["0 5"; "0 5"] ∧
  (res_anno_new <$> normaliseAnnotations duplicate_span_file (RList [""]))
    = Ok ["Task 0 5"; "Process 0 5"] ∧
  ¬ NoDup ["0 5"; "0 5"].
Proof.
  split_and!; [vm_compute; reflexivity..|].
  intros Hnd. apply NoDup_cons in Hnd as [Hin _]. apply Hin. by left.
Qed.

(** ** Aligning gold and predicted labels (C1) *)

Lemma index_from_Ok x l k i :
  Py.index_from x l k = Ok i ↔
  ∃ n, i = k + n ∧ l !! n = Some x ∧ ∀ j, j < n → l !! j ≠ Some x.
Proof.
  revert k. induction l as [|y l IH]; intros k; simpl.
  - split; [done|]. by intros (n & _ & ? & _).
  - destruct (String.eqb_spec y x) as [->|Hne].
    + split.
      * intros [= <-]. exists 0. split_and!; [lia|done|lia].
      * intros (n & -> & Hn & Hfirst). destruct n as [|n]; [f_equal; lia|].
        destruct (Hfirst 0); [lia|done].
    + rewrite IH. split.
      * intros (n & -> & Hn & Hfirst). exists (S n). split_and!; [lia|done|].
        intros [|j] Hj; simpl; [congruence|apply Hfirst; lia].
      * intros ([|n] & -> & Hn & Hfirst); simplify_eq/=.
        exists n. split_and!; [lia|done|].
        intros j Hj. apply (Hfirst (S j)). lia.
Qed.

(** [l.index(x)] is the position of the first occurrence of [x]. *)
Lemma index_Ok x l i :
  Py.index x l = Ok i ↔ l !! i = Some x ∧ ∀ j, j < i → l !! j ≠ Some x.
Proof.
  unfold Py.index. rewrite index_from_Ok. split.
  - by intros (n & -> & ? & ?).
  - intros [? ?]. by exists i.
Qed.

Lemma index_elem x l : x ∈ l → ∃ i, Py.index x l = Ok i.
Proof.
  induction 1 as [x l|x y l Hx (i & Hi)]; unfold Py.index in *; simpl.
  - rewrite String.eqb_refl. eauto.
  - destruct (String.eqb y x); [eauto|].
    apply index_from_Ok in Hi as (n & -> & Hn & Hfirst).
    exists (1 + n). apply index_from_Ok. by exists n.
Qed.

Lemma mem_spec x l : Py.mem x l = true ↔ x ∈ l.
Proof. unfold Py.mem. apply bool_decide_eq_true. Qed.

(** Where the span key is present the label is found and read. *)
Lemma label_lookup a r :
  length (res_anno_new a) = length (spans_anno_new a) →
  r ∈ spans_anno_new a →
  ∃ i entry label,
    Py.index r (spans_anno_new a) = Ok i ∧
    Py.getitem (res_anno_new a) i = Ok entry ∧
    Py.getitem (Py.split " " entry) 0 = Ok label ∧
    label_at a r label.
Proof.
  intros Hlen (i & Hi)%index_elem.
  pose proof Hi as [Hi1 Hi2]%index_Ok.
  destruct (getitem_lt (res_anno_new a) i) as (entry & Hentry).
  { rewrite Hlen. by eapply lookup_lt_Some. }
  destruct (getitem_split_0 " " entry) as (label & Hlabel).
  exists i, entry, label. split_and!; try done.
  exists i, entry. split_and!; try done; by apply getitem_Ok.
Qed.

Lemma label_at_functional a r l1 l2 :
  label_at a r l1 → label_at a r l2 → l1 = l2.
Proof.
  intros (i & e & Hi & Hfi & He & Hl) (j & e' & Hj & Hfj & He' & Hl').
  assert (i = j) as ->.
  { destruct (Nat.lt_trichotomy i j) as [Hlt|[->|Hlt]]; [|done|].
    - by destruct (Hfj i Hlt). - by destruct (Hfi j Hlt). }
  congruence.
Qed.

(** The span key is among the keys of one side: its label is read. *)
Ltac present Hin Hlen :=
  rewrite (proj2 (mem_spec _ _) Hin);
  let i := fresh "i" in
  let e := fresh "e" in
  let l := fresh "l" in
  let Hi := fresh "Hi" in
  let He := fresh "He" in
  let Hl := fresh "Hl" in
  destruct (label_lookup _ _ Hlen Hin) as (i & e & l & Hi & He & Hl & ?);
  rewrite Hi; simpl; rewrite He; simpl; rewrite Hl; simpl.

(** The span key is not among the keys of one side. *)
Ltac absent Hout :=
  rewrite (proj2 (bool_decide_eq_false _) Hout : Py.mem _ _ = false); simpl.

(** One round of the alignment loop appends one label to each sequence. *)
Lemma align_step_spec gold pred t r :
  length (res_anno_new gold) = length (spans_anno_new gold) →
  length (res_anno_new pred) = length (spans_anno_new pred) →
  ∃ gl pl,
    align_step gold pred t r =
      Ok {| res_all_gold := res_all_gold t ++ [gl];
            res_all_pred := res_all_pred t ++ [pl];
            targets := if decide (r ∈ spans_anno_new gold)
                       then if Py.mem gl (targets t) then targets t
                            else targets t ++ [gl]
                       else targets t |} ∧
    aligned gold pred r gl pl.
Proof.
  intros Hg Hp. unfold align_step, aligned.
  destruct (decide (r ∈ spans_anno_new gold)) as [Hrg|Hrg];
    destruct (decide (r ∈ spans_anno_new pred)) as [Hrp|Hrp].
  - present Hrg Hg. present Hrp Hp.
    eexists _, _; split; [reflexivity|]. by split_and!.
  - present Hrg Hg. absent Hrp.
    eexists _, _; split; [reflexivity|]. by split_and!.
  - absent Hrg. present Hrp Hp.
    eexists _, _; split; [reflexivity|]. by split_and!.
  - absent Hrg. absent Hrp.
    eexists _, _; split; [reflexivity|]. by split_and!.
Qed.

Section Align.
Context `{SetOrder}.

Lemma align_steps gold pred keys t :
  length (res_anno_new gold) = length (spans_anno_new gold) →
  length (res_anno_new pred) = length (spans_anno_new pred) →
  ∃ t' gs ps,
    for_each (align_step gold pred) keys t = Ok t' ∧
    res_all_gold t' = res_all_gold t ++ gs ∧
    res_all_pred t' = res_all_pred t ++ ps ∧
    Forall3 (aligned gold pred) keys gs ps.
Proof.
  intros Hg Hp. revert t. induction keys as [|r keys IH]; intros t; simpl.
  - exists t, [], []. rewrite !app_nil_r. split_and!; try done. constructor.
  - destruct (align_step_spec gold pred t r Hg Hp) as (gl & pl & -> & Hal).
    simpl. match goal with |- context [for_each _ keys ?t1] =>
      destruct (IH t1) as (t' & gs & ps & -> & E1 & E2 & Hall) end.
    exists t', (gl :: gs), (pl :: ps). simpl in *.
    rewrite E1, E2, <- !app_assoc. split_and!; try done. by constructor.
Qed.

(** C1: for a gold file and its predicted file, the loop body of
    [calculateMeasures] appends to the two label sequences one pair of
    labels for each span key of the union, each key once: the gold label,
    or "NONE" when the key is not in gold, next to the predicted label, or
    "NONE" when the key is not in the prediction. *)
Theorem measure_file_parallel folder_pred remove_anno ignoremissing t name
    f_gold f_pred gold pred :
  Py.endswith name ".ann" = true →
  open folder_pred name = Some f_pred →
  normaliseAnnotations f_gold (RList remove_anno) = Ok gold →
  normaliseAnnotations f_pred (RList remove_anno) = Ok pred →
  ∃ t' keys gs ps,
    measure_file folder_pred remove_anno ignoremissing t (name, f_gold) = Ok t' ∧
    res_all_gold t' = res_all_gold t ++ gs ∧
    res_all_pred t' = res_all_pred t ++ ps ∧
    length gs = length ps ∧
    NoDup keys ∧
    (∀ r, r ∈ keys ↔ r ∈ spans_anno_new gold ∨ r ∈ spans_anno_new pred) ∧
    Forall3 (aligned gold pred) keys gs ps.
Proof.
  intros Hann Hopen Hgold Hpred. unfold measure_file. simpl.
  rewrite Hann, Hopen, Hpred, Hgold. simpl. unfold align.
  destruct (align_steps gold pred
              (set_list (spans_anno_new gold ++ spans_anno_new pred)) t)
    as (t' & gs & ps & Ht & E1 & E2 & Hall);
    [by eapply normalise_parallel..|].
  exists t', (set_list (spans_anno_new gold ++ spans_anno_new pred)), gs, ps.
  split_and!; try done.
  - apply Forall3_length_lr in Hall as Hl1.
    apply Forall3_length_lm in Hall as Hl2. congruence.
  - apply set_list_NoDup.
  - intros r. by rewrite set_list_elem, elem_of_app.
Qed.

End Align.

Lemma measure_file_parallel_witness :
  ∃ t' keys gs ps,
    measure_file [("doc.ann", pair_pred_file)] [""] false tally0
      ("doc.ann", pair_gold_file) = Ok t' ∧
    res_all_gold t' = res_all_gold tally0 ++ gs ∧
    res_all_pred t' = res_all_pred tally0 ++ ps ∧
    length gs = length ps ∧
    NoDup keys ∧
    (∀ r, r ∈ keys ↔ r ∈ spans_anno_new pair_gold ∨ r ∈ spans_anno_new pair_pred) ∧
    Forall3 (aligned pair_gold pair_pred) keys gs ps.
Proof.
  apply (measure_file_parallel [("doc.ann", pair_pred_file)] [""] false tally0
           "doc.ann" pair_gold_file pair_pred_file pair_gold pair_pred).
  - reflexivity.
  - reflexivity.
  - vm_compute. reflexivity.
  - vm_compute. reflexivity.
Defined.

Example measure_file_pair :
  measure_file [("doc.ann", pair_pred_file)] [""] false tally0
    ("doc.ann", pair_gold_file)
  = Ok {| res_all_gold := ["Task"; "Task"; "NONE"];
          res_all_pred := ["NONE"; "Task"; "Process"];
          targets := ["Task"] |}.
Proof. vm_compute. reflexivity. Qed.

(** ** [calculateIAA] without the global (C10) *)

Section Unbound.
Context `{SetOrder}.
Variable cohen_kappa_score : list string → list string → Q.

Lemma iaa_file_unbound g folder_pred ignoremissing t f :
  g_remove_anno g = None →
  iaa_file g folder_pred ignoremissing t f = Ok t ∨
  iaa_file g folder_pred ignoremissing t f = Raise NameError.
Proof.
  intros Hg. unfold iaa_file, load_global. rewrite Hg.
  destruct (negb _); [by left|].
  destruct (open _ _); [by right|]. destruct ignoremissing; auto.
Qed.

Lemma iaa_file_opened g folder_pred ignoremissing t f :
  g_remove_anno g = None →
  Py.endswith f.1 ".ann" = true → is_Some (open folder_pred f.1) →
  iaa_file g folder_pred ignoremissing t f = Raise NameError.
Proof.
  intros Hg Hann [f_pred Hopen]. unfold iaa_file, load_global.
  by rewrite Hg, Hann, Hopen.
Qed.

(** C10: [calculateIAA] reads the name [remove_anno], which is not one of
    its parameters.  When the module has no such global, the call raises
    [NameError] once a gold [.ann] file has a predicted counterpart that
    opens, and so returns no kappa. *)
Theorem calculateIAA_NameError g folder_gold folder_pred ignoremissing f :
  g_remove_anno g = None →
  f ∈ folder_gold →
  Py.endswith f.1 ".ann" = true →
  is_Some (open folder_pred f.1) →
  calculateIAA cohen_kappa_score g folder_gold folder_pred ignoremissing
    = Raise NameError.
Proof.
  intros Hg Hf Hann Hopen. unfold calculateIAA.
  enough (∀ t, for_each (iaa_file g folder_pred ignoremissing) folder_gold t
               = Raise NameError) as -> by done.
  induction Hf as [f d|f f' d Hf IH]; intros t; simpl.
  - by rewrite iaa_file_opened.
  - destruct (iaa_file_unbound g folder_pred ignoremissing t f' Hg) as [->| ->];
      simpl; [apply IH|]; done.
Qed.

End Unbound.

Lemma calculateIAA_NameError_witness :
  calculateIAA (λ _ _, 0%Q) no_globals one_doc one_doc true = Raise NameError.
Proof.
  apply (calculateIAA_NameError (λ _ _, 0%Q) no_globals one_doc one_doc true
           ("doc.ann", pair_gold_file)).
  - reflexivity.
  - apply list_elem_of_here.
  - reflexivity.
  - simpl. exists pair_gold_file. reflexivity.
Defined.

(** The [__main__] block binds the global before it calls [calculateIAA]. *)
Example main_binds_remove_anno argv :
  ∃ s, load_global (main_globals argv) = Ok (RStr s).
Proof. unfold load_global, main_globals. simpl. eauto. Qed.

(** ** A relation argument that names no line (C8) *)

(** C8: there is a file with a relation line, not filtered out, whose
    [Arg1] identifier is the identifier of no line of the file, on which
    [normaliseAnnotations] raises instead of skipping the relation: the
    local [ent1] is read before it was ever assigned. *)
Theorem unresolved_argument_raises :
  ∃ file label a1 a2,
    rel_line "R1" (label +:+ " Arg1:" +:+ a1 +:+ " Arg2:" +:+ a2) ∈ file ∧
    Py.endswith label "-of" = true ∧
    py_in "rel" (RList [""]) = false ∧
    (∀ l, l ∈ file → Py.split tab (Py.strip l) !! 0 ≠ Some a1) ∧
    ∀ so : SetOrder,
      normaliseAnnotations file (RList [""]) = Raise UnboundLocalError.
Proof.
  exists dangling_file, "Hyponym-of", "T7", "T1". split_and!.
  - apply list_elem_of_further, list_elem_of_here.
  - reflexivity.
  - reflexivity.
  - intros l Hl. unfold dangling_file in Hl.
    apply elem_of_cons in Hl as [->|Hl]; [by vm_compute|].
    apply elem_of_cons in Hl as [->|Hl]; [by vm_compute|].
    by apply elem_of_nil in Hl.
  - intros so. vm_compute. reflexivity.
Qed.

(** ** When [normaliseAnnotations] returns *)

Lemma index_result x l :
  (∃ i, Py.index x l = Ok i) ∨ Py.index x l = Raise ValueError.
Proof.
  unfold Py.index. generalize 0. induction l as [|y l IH]; intros k; simpl.
  - by right.
  - destruct (String.eqb y x); [left; eauto|apply IH].
Qed.

Lemma set_at_index_result rels r2 r_new :
  (∃ rels', set_at_index rels r2 r_new = Ok rels') ∨
  set_at_index rels r2 r_new = Raise ValueError.
Proof.
  unfold set_at_index. destruct (index_result r2 rels) as [[i ->]| ->]; simpl;
    eauto.
Qed.

Lemma refers_total r_offs r2_offs k :
  2 < length r_offs → 2 < length r2_offs → k < 3 →
  ∃ c, refers r_offs r2_offs k = Ok c.
Proof.
  intros Hr Hr2 Hk. unfold refers.
  destruct (getitem_lt r2_offs 0) as (label & ->); [lia|]. simpl.
  destruct (String.eqb label "Hyponym-of"); [|eauto].
  destruct (getitem_lt r_offs 1) as (a & ->); [lia|]. simpl.
  destruct (getitem_lt r2_offs k) as (b & ->); [lia|]. simpl. eauto.
Qed.

Lemma except_set_total rels r2 r_new handler :
  ∃ rels', except_ValueError (set_at_index rels r2 r_new) handler = Ok rels'.
Proof.
  destruct (set_at_index_result rels r2 r_new) as [[rels' ->]| ->]; simpl; eauto.
Qed.

Lemma except_set_Some_total rels r2 r_new :
  ∃ first, except_ValueError (Some <$> set_at_index rels r2 r_new) None
           = Ok first.
Proof.
  destruct (set_at_index_result rels r2 r_new) as [[rels' ->]| ->]; simpl; eauto.
Qed.

Lemma rewrite_head_total r_offs r2_offs rels r2 :
  2 < length r_offs → 2 < length r2_offs →
  ∃ first, rewrite_head r_offs r2_offs rels r2 = Ok first.
Proof.
  intros Hr H2. unfold rewrite_head.
  destruct (refers_total r_offs r2_offs 1) as (c1 & ->); [done|done|lia|].
  simpl. destruct c1; [|eauto].
  destruct (getitem_lt r2_offs 0) as (label & ->); [lia|].
  destruct (getitem_lt r_offs 2) as (x & ->); [lia|].
  destruct (getitem_lt r2_offs 2) as (y & ->); [lia|].
  apply except_set_Some_total.
Qed.

Lemma rewrite_tail_total r_offs r2_offs rels r2 :
  2 < length r_offs → 2 < length r2_offs →
  ∃ rels', rewrite_tail r_offs r2_offs rels r2 = Ok rels'.
Proof.
  intros Hr H2. unfold rewrite_tail.
  destruct (refers_total r_offs r2_offs 2) as (c2 & ->); [done|done|lia|].
  simpl. destruct c2; [|eauto].
  destruct (getitem_lt r2_offs 0) as (label & ->); [lia|].
  destruct (getitem_lt r2_offs 1) as (x & ->); [lia|].
  destruct (getitem_lt r_offs 2) as (y & ->); [lia|].
  apply except_set_total.
Qed.

Lemma rewrite_hyponym_total r_offs rels j :
  2 < length r_offs → Forall wf_rel rels → j < length rels →
  ∃ rels', rewrite_hyponym r_offs rels j = Ok rels'.
Proof.
  intros Hr Hrels Hj. unfold rewrite_hyponym.
  destruct (getitem_lt rels j Hj) as (r2 & Hr2). rewrite Hr2. simpl.
  apply getitem_Ok in Hr2. eapply Forall_lookup_1 in Hrels; [|done].
  apply wf_rel_split in Hrels as (l2 & x1 & x2 & _ & ->).
  destruct (rewrite_head_total r_offs [l2; x1; x2] rels r2) as (first & ->);
    [done|simpl; lia|].
  simpl. destruct first as [rels1|]; [|eauto].
  apply rewrite_tail_total; [done|simpl; lia].
Qed.

Lemma reorder_synonym_total r : wf_rel r → ∃ r', reorder_synonym r = Ok r'.
Proof.
  intros (label & e1 & e2 & -> & Hl & H1 & H2 & Hsyn). unfold reorder_synonym.
  rewrite split_join3 by done. simpl.
  destruct (String.eqb_spec label "Synonym-of") as [Heq|_]; [|eauto].
  destruct (Hsyn Heq) as (t1 & t2 & Ht1 & Ht2 & _). unfold offset_token in *.
  rewrite (proj2 (getitem_Ok _ _ _) Ht2). simpl.
  rewrite (proj2 (getitem_Ok _ _ _) Ht1). simpl.
  destruct (Py.lt t2 t1); eauto.
Qed.

Lemma rewrite_synonym_total rels i :
  Forall wf_rel rels → i < length rels →
  ∃ rels', rewrite_synonym rels i = Ok rels'.
Proof.
  intros Hrels Hi. unfold rewrite_synonym.
  destruct (getitem_lt rels i Hi) as (r & Hr). rewrite Hr. simpl.
  apply getitem_Ok in Hr. pose proof (Forall_lookup_1 _ _ _ _ Hrels Hr) as Hwf.
  destruct (reorder_synonym_total r Hwf) as (r' & ->). simpl.
  pose proof (split_Forall_free " " r) as Hfree.
  apply wf_rel_split in Hwf as (label & e1 & e2 & _ & Hsplit).
  rewrite Hsplit in *. simpl.
  destruct (String.eqb label "Synonym-of"); [|eauto].
  destruct (for_each_total (λ l, Forall wf_rel l ∧ length l = length rels)
              (rewrite_hyponym [label; e1; e2]) (seq 0 (length rels)) rels)
    as (rels' & Hloop & _); [|done|eauto].
  intros s j Hj [Hs Hlen]. apply elem_of_seq in Hj.
  destruct (rewrite_hyponym_total [label; e1; e2] s j) as (s' & Hs');
    [simpl; lia|done|lia|].
  exists s'. split; [done|]. rewrite <- Hlen.
  by eapply rewrite_hyponym_wf.
Qed.

(** The pass returns on relation strings of the shape the first loop
    builds. *)
Lemma rewrite_pass_total rels :
  Forall wf_rel rels → ∃ rels', rewrite_pass rels = Ok rels'.
Proof.
  intros Hrels. unfold rewrite_pass.
  destruct (for_each_total (λ l, Forall wf_rel l ∧ length l = length rels)
              rewrite_synonym (seq 0 (length rels)) rels)
    as (rels' & Hloop & _); [|done|eauto].
  intros s i Hi [Hs Hlen]. apply elem_of_seq in Hi.
  destruct (rewrite_synonym_total s i) as (s' & Hs'); [done|lia|].
  exists s'. split; [done|]. rewrite <- Hlen. by eapply rewrite_synonym_wf.
Qed.

Lemma getitem_result {A : Type} (l : list A) i :
  (∃ x, Py.getitem l i = Ok x) ∨ Py.getitem l i = Raise IndexError.
Proof. unfold Py.getitem. destruct (l !! i); eauto. Qed.

Lemma collect_step_total st acc r :
  r ∈ res_full_anno st → ∃ acc', collect_step st acc r = Ok acc'.
Proof.
  intros (ind & Hind)%index_elem. unfold collect_step.
  destruct (getitem_split_0 tab (Py.strip r)) as (id & ->). simpl.
  destruct (_ || _); [simpl; eauto|]. rewrite Hind. simpl.
  destruct (getitem_result (res_anno st) ind) as [[label ->]| ->]; simpl;
    [|eauto].
  destruct (getitem_result (spans_anno st) ind) as [[span ->]| ->]; simpl; eauto.
Qed.

Lemma collect_total st acc :
  ∃ acc', for_each (collect_step st) (res_full_anno st) acc = Ok acc'.
Proof.
  destruct (for_each_total (λ _, True) (collect_step st) (res_full_anno st) acc)
    as (acc' & Hacc & _); [|done|eauto].
  intros s r Hr _. destruct (collect_step_total st s r Hr) as (acc' & ->). eauto.
Qed.

Section Returns.
Context `{SetOrder}.

(** [normaliseAnnotations] returns whenever its first loop does. *)
Lemma normalise_total file_anno remove_anno st :
  for_each (line_step remove_anno) file_anno locals0 = Ok st →
  ∃ a rels,
    normaliseAnnotations file_anno remove_anno = Ok a ∧
    rewrite_pass (rels_anno st) = Ok rels ∧
    rels_anno_new a = set_list rels.
Proof.
  intros Hst. unfold normaliseAnnotations. rewrite Hst. simpl.
  pose proof (first_loop_invariant _ _ _ Hst) as [_ Hwf _].
  destruct (rewrite_pass_total _ Hwf) as (rels & Hrels). rewrite Hrels. simpl.
  apply rewrite_pass_wf in Hrels as Hwf'; [|done]. destruct Hwf' as [Hwf' _].
  match goal with |- context [for_each (collect_step st) _ ?acc0] =>
    destruct (collect_total st acc0) as (acc & Hacc) end.
  rewrite Hacc. simpl.
  destruct (append_relation_total (set_list rels) acc) as (a & Ha);
    [by apply set_list_Forall|].
  exists a, rels. split_and!; try done.
  apply append_relation_Ok in Ha as (-> & _).
  apply collect_Ok in Hacc as (-> & _); [done|].
  by destruct (first_loop_invariant _ _ _ Hst).
Qed.

Lemma set_list_nil : set_list [] = [].
Proof.
  destruct (set_list []) as [|x l] eqn:Hl; [done|].
  assert (x ∈ set_list []) as Hx by (rewrite Hl; left).
  apply (proj1 (set_list_elem _ _)) in Hx. by apply elem_of_nil in Hx.
Qed.

End Returns.

(** ** Running the canonicalisation again (C6) *)

Lemma lt_asym a b : Py.lt a b = true → Py.lt b a = false.
Proof.
  unfold Py.lt. rewrite (String.compare_antisym b a).
  by destruct (String.compare a b).
Qed.

Lemma for_each_fixed {A S : Type} (body : S → A → result S) l st :
  (∀ x, x ∈ l → body st x = Ok st) → for_each body l st = Ok st.
Proof.
  induction l as [|x l IH]; intros Hbody; simpl; [done|].
  rewrite Hbody by left. simpl. apply IH. intros y Hy. apply Hbody. by right.
Qed.

Lemma order_synonym_idempotent ents ents' :
  order_synonym ents = Ok ents' → order_synonym ents' = Ok ents'.
Proof.
  intros (x1 & x2 & t1 & t2 & -> & Ht1 & Ht2 & Hgt & _)%order_synonym_spec.
  unfold order_synonym, offset_token in *. simpl.
  rewrite (proj2 (getitem_Ok _ _ _) Ht1), (proj2 (getitem_Ok _ _ _) Ht2).
  simpl. by rewrite Hgt.
Qed.

Lemma reorder_synonym_idempotent r r' :
  reorder_synonym r = Ok r' → reorder_synonym r' = Ok r'.
Proof.
  intros Hr. pose proof Hr as Hr0. unfold reorder_synonym in Hr.
  apply bind_Ok in Hr as (label & Hlabel & Hr).
  destruct (String.eqb_spec label "Synonym-of") as [->|Hne]; [|by simplify_eq].
  apply bind_Ok in Hr as (b & Hb & (tb & Htb & (a & Ha & (ta & Hta & Hr)
    %bind_Ok)%bind_Ok)%bind_Ok).
  destruct (Py.lt tb ta) eqn:Hlt; [|by simplify_eq].
  injection Hr as <-. unfold reorder_synonym.
  change ("Synonym-of" +:+ " " +:+ b +:+ " " +:+ a)
    with (Py.join " " ["Synonym-of"; b; a]).
  rewrite split_join3 by (done || by eapply getitem_split_free).
  simpl. rewrite Hta, Htb. simpl. by rewrite (lt_asym _ _ Hlt).
Qed.

Lemma refers_settled rels r r2 a b l2 x y k :
  settled rels → r ∈ rels → r2 ∈ rels →
  Py.split " " r = ["Synonym-of"; a; b] → Py.split " " r2 = [l2; x; y] →
  k = 1 ∨ k = 2 →
  refers ["Synonym-of"; a; b] [l2; x; y] k = Ok false.
Proof.
  intros Hset Hr Hr2 Hs Hs2 Hk. unfold refers. simpl.
  destruct (String.eqb_spec l2 "Hyponym-of") as [->|_]; [|done].
  destruct (Hset r r2 a b x y Hr Hr2 Hs Hs2) as [Hx Hy].
  destruct Hk as [-> | ->]; simpl; f_equal; by apply String.eqb_neq.
Qed.

Lemma rewrite_hyponym_settled rels r a b j :
  Forall wf_rel rels → settled rels → r ∈ rels →
  Py.split " " r = ["Synonym-of"; a; b] → j < length rels →
  rewrite_hyponym ["Synonym-of"; a; b] rels j = Ok rels.
Proof.
  intros Hwf Hset Hr Hs Hj. unfold rewrite_hyponym.
  destruct (getitem_lt rels j Hj) as (r2 & Hr2). rewrite Hr2. simpl.
  apply getitem_Ok in Hr2.
  pose proof (Forall_lookup_1 _ _ _ _ Hwf Hr2) as (l2 & x & y & _ & Hs2)
    %wf_rel_split.
  apply list_elem_of_lookup_2 in Hr2. rewrite Hs2.
  unfold rewrite_head.
  rewrite (refers_settled rels r r2 a b l2 x y 1) by auto. simpl.
  unfold rewrite_tail.
  by rewrite (refers_settled rels r r2 a b l2 x y 2) by auto.
Qed.

Lemma rewrite_synonym_settled rels i :
  Forall wf_rel rels → settled rels → i < length rels →
  rewrite_synonym rels i = Ok rels.
Proof.
  intros Hwf Hset Hi. unfold rewrite_synonym.
  destruct (getitem_lt rels i Hi) as (r & Hr). rewrite Hr. simpl.
  apply getitem_Ok in Hr. pose proof (Forall_lookup_1 _ _ _ _ Hwf Hr) as Hr_wf.
  destruct (reorder_synonym_total r Hr_wf) as (r' & ->). simpl.
  apply wf_rel_split in Hr_wf as (label & e1 & e2 & _ & Hsplit).
  rewrite Hsplit. simpl.
  destruct (String.eqb_spec label "Synonym-of") as [->|_]; [|done].
  apply for_each_fixed. intros j Hj%elem_of_seq.
  eapply rewrite_hyponym_settled; [done|done| |done|lia].
  by eapply list_elem_of_lookup_2.
Qed.

(** The pass changes nothing in a settled list. *)
Lemma rewrite_pass_settled rels :
  Forall wf_rel rels → settled rels → rewrite_pass rels = Ok rels.
Proof.
  intros Hwf Hset. unfold rewrite_pass. apply for_each_fixed.
  intros i Hi%elem_of_seq. apply rewrite_synonym_settled; [done|done|lia].
Qed.

(** The six orders of the relations of [chain_file], and the pass on each. *)
Lemma chain_rels_permutations :
  permutations chain_rels
  = [ [ "Synonym-of Task_2_3 Task_4_5"; "Synonym-of Task_0_1 Task_2_3";
        "Hyponym-of Task_2_3 Task_6_7" ];
      [ "Synonym-of Task_0_1 Task_2_3"; "Synonym-of Task_2_3 Task_4_5";
        "Hyponym-of Task_2_3 Task_6_7" ];
      [ "Synonym-of Task_0_1 Task_2_3"; "Hyponym-of Task_2_3 Task_6_7";
        "Synonym-of Task_2_3 Task_4_5" ];
      [ "Synonym-of Task_2_3 Task_4_5"; "Hyponym-of Task_2_3 Task_6_7";
        "Synonym-of Task_0_1 Task_2_3" ];
      [ "Hyponym-of Task_2_3 Task_6_7"; "Synonym-of Task_2_3 Task_4_5";
        "Synonym-of Task_0_1 Task_2_3" ];
      [ "Hyponym-of Task_2_3 Task_6_7"; "Synonym-of Task_0_1 Task_2_3";
        "Synonym-of Task_2_3 Task_4_5" ] ].
Proof. vm_compute. reflexivity. Qed.

Lemma chain_order_rewritten l :
  l ∈ permutations chain_rels →
  ∃ rels', rewrite_pass l = Ok rels' ∧ rels' ≠ l ∧
           "Hyponym-of Task_2_3 Task_6_7" ∈ l ∧
           ("Hyponym-of Task_2_3 Task_6_7" ∉ rels') ∧
           "Hyponym-of Task_4_5 Task_6_7" ∈ rels'.
Proof.
  rewrite chain_rels_permutations. intros Hl.
  repeat (apply elem_of_cons in Hl as [->|Hl]);
    [..|by apply elem_of_nil in Hl];
    (eexists; split; [vm_compute; reflexivity|]; split; [discriminate|];
     split_and!; apply (bool_decide_unpack _); vm_compute; exact I).
Qed.

Section Idempotence.
Context `{SetOrder}.

(** The relations of [chain_file] in whatever order the set gives them. *)
Lemma chain_rels_orders :
  set_list chain_rels ∈ permutations chain_rels.
Proof.
  apply permutations_Permutation, NoDup_Permutation.
  - apply (bool_decide_unpack _). vm_compute. exact I.
  - apply set_list_NoDup.
  - intros r. by rewrite set_list_elem.
Qed.

(** C6 at the chain of synonyms of C2: whatever the order of the set, the
    rewrite pass run again on the relations that [normaliseAnnotations]
    returned for [chain_file] changes one of them: the returned
    [Hyponym-of Task_2_3 Task_6_7] is gone, replaced by
    [Hyponym-of Task_4_5 Task_6_7]. *)
Theorem rewrite_pass_again_rewrites :
  ∃ a rels',
    normaliseAnnotations chain_file (RList [""]) = Ok a ∧
    rewrite_pass (rels_anno_new a) = Ok rels' ∧
    rels' ≠ rels_anno_new a ∧
    "Hyponym-of Task_2_3 Task_6_7" ∈ rels_anno_new a ∧
    ("Hyponym-of Task_2_3 Task_6_7" ∉ rels') ∧
    "Hyponym-of Task_4_5 Task_6_7" ∈ rels'.
Proof.
  edestruct (normalise_total chain_file (RList [""])) as (a & rels & Ha & Hr & Hs).
  { vm_compute. reflexivity. }
  assert (rels = chain_rels) as ->.
  { vm_compute in Hr. by injection Hr as <-. }
  destruct (chain_order_rewritten _ chain_rels_orders) as (rels' & Hrels').
  exists a, rels'. rewrite Hs. by split.
Qed.

End Idempotence.

(** On a chain of synonyms the pass, run on the relations it returned,
    rewrites a relation again. *)
Lemma rewrite_pass_not_idempotent :
  (rels_anno_new <$> normaliseAnnotations chain_file (RList [""]))
    = Ok chain_rels ∧
  rewrite_pass chain_rels
    = Ok [ "Synonym-of Task_2_3 Task_4_5"; "Synonym-of Task_0_1 Task_2_3";
           "Hyponym-of Task_4_5 Task_6_7" ] ∧
  rewrite_pass chain_rels ≠ Ok chain_rels.
Proof.
  split_and!; [vm_compute; reflexivity..|]. vm_compute. discriminate.
Qed.

(** ** Hyponyms after the rewrite pass (C2) *)

Section Chain.
Context `{SetOrder}.

(** C2 at a chain of synonyms: [T2 ~ T3] is listed before [T1 ~ T2], and
    [T1] is a hyponym of [T4].  Whatever the order of the set, the returned
    relations are the two synonym pairs and a [Hyponym-of] relation on
    [Task_2_3]: not the smallest-index member [Task_0_1] of the synonym
    class, which the file named, and itself the first member of the pair
    [Task_2_3 ~ Task_4_5]. *)
Theorem hyponym_on_inner_synonym :
  ∃ a, normaliseAnnotations chain_file (RList [""]) = Ok a ∧
       ∀ r, r ∈ rels_anno_new a ↔ r ∈ chain_rels.
Proof.
  edestruct (normalise_total chain_file (RList [""])) as (a & rels & Ha & Hr & Hs).
  { vm_compute. reflexivity. }
  exists a. split; [done|]. intros r. rewrite Hs, set_list_elem.
  vm_compute in Hr. by injection Hr as <-.
Qed.

End Chain.

Example demo_hyponym_moved_off_smallest :
  (rels_anno_new <$> normaliseAnnotations demo_file (RList [""])) = Ok demo_rels.
Proof. vm_compute. reflexivity. Qed.

(** ** A line without offsets (C4) *)

Section Faulty.
Context `{SetOrder}.

(** C4 at a file whose first entity line has no offsets: the diagnostic is
    printed, but the line is returned among the full lines, where it stands
    next to the label and span key of the line after it. *)
Theorem faulty_line_is_kept :
  normaliseAnnotations faulty_file (RList [""])
  = Ok {| res_full_anno_new :=
            [ "T1" +:+ TAB +:+ "Task" +:+ TAB +:+ "Alice";
              "T2" +:+ TAB +:+ "Task 10 15" +:+ TAB +:+ "lives" ];
          res_anno_new := ["Task 10 15"];
          spans_anno_new := ["10 15"];
          rels_anno_new := [];
          diagnostics := [faulty; faulty] |}.
Proof.
  unfold normaliseAnnotations.
  set (first := for_each (line_step (RList [""])) faulty_file locals0).
  vm_compute in first. subst first.
  rewrite bind_Ok_l. cbn [rels_anno].
  change (rewrite_pass []) with (Ok ([] : list string)).
  rewrite bind_Ok_l, set_list_nil. vm_compute. reflexivity.
Qed.

End Faulty.

(** ** Collapsed types (C9) *)

Lemma line_step_types remove_anno st l st' :
  py_in "rel" remove_anno = true → py_in "types" remove_anno = true →
  types_invariant st → line_step remove_anno st l = Ok st' →
  types_invariant st'.
Proof.
  intros Hrel Htypes [Hrels Hres]. unfold line_step.
  intros (field1 & _ & (label & _ & Hstep)%bind_Ok)%bind_Ok.
  rewrite Hrel in Hstep. simpl in Hstep.
  destruct (Py.endswith label "-of"); [by simplify_eq|].
  apply entity_line_Ok in Hstep as (_ & Hr & _ & _ & Hcase). simpl in *.
  split; [congruence|].
  destruct Hcase as [(o1 & o2 & _ & _ & -> & _)|(_ & -> & _)]; [|done].
  rewrite Htypes. apply Forall_app. split; [done|]. by constructor.
Qed.

Section Types.
Context `{SetOrder}.

Lemma normalise_types file_anno remove_anno a :
  py_in "rel" remove_anno = true → py_in "types" remove_anno = true →
  normaliseAnnotations file_anno remove_anno = Ok a →
  rels_anno_new a = [] ∧ Forall (λ l, l = NOTYPES) (res_anno_new a).
Proof.
  intros Hrel Htypes
    (st & rels & labels & spans & keys & Hst & Hrels & -> & -> & _ & _ & Hall & _)
    %normalise_Ok.
  assert (types_invariant st) as [Hr Hres].
  { revert Hst. apply for_each_invariant; [|by split].
    intros s x s' _. by apply line_step_types. }
  rewrite Hr in Hrels. injection Hrels as <-. rewrite set_list_nil.
  split; [done|]. rewrite app_nil_r. rewrite Forall_forall in Hres.
  eapply Forall_impl; [done|]. intros l Hl. by apply Hres.
Qed.

Lemma align_invariant (P : tally → Prop) gold pred keys t t' :
  length (res_anno_new gold) = length (spans_anno_new gold) →
  length (res_anno_new pred) = length (spans_anno_new pred) →
  (∀ s r gl pl,
     r ∈ keys → P s → aligned gold pred r gl pl →
     P {| res_all_gold := res_all_gold s ++ [gl];
          res_all_pred := res_all_pred s ++ [pl];
          targets := if decide (r ∈ spans_anno_new gold)
                     then if Py.mem gl (targets s) then targets s
                          else targets s ++ [gl]
                     else targets s |}) →
  P t → for_each (align_step gold pred) keys t = Ok t' → P t'.
Proof.
  intros Hg Hp Hstep. apply for_each_invariant. intros s r s' Hr Hs.
  destruct (align_step_spec gold pred s r Hg Hp) as (gl & pl & -> & Hal).
  intros [= <-]. by apply Hstep.
Qed.

Lemma label_at_types a r label :
  Forall (λ l, l = NOTYPES) (res_anno_new a) → label_at a r label →
  label = NOTYPES.
Proof.
  intros Hall (i & entry & _ & _ & Hentry & Hlabel).
  pose proof (Forall_lookup_1 _ _ _ _ Hall Hentry) as Heq. simpl in Heq.
  subst entry. by injection Hlabel as <-.
Qed.

Lemma align_types gold pred t t' :
  length (res_anno_new gold) = length (spans_anno_new gold) →
  length (res_anno_new pred) = length (spans_anno_new pred) →
  Forall (λ l, l = NOTYPES) (res_anno_new gold) →
  types_tally t → align gold pred t = Ok t' → types_tally t'.
Proof.
  intros Hg Hp Hall. unfold align. apply align_invariant; [done|done|].
  intros s r gl pl _ [Hgold Htargets] (Hin & Hout & _). split; simpl.
  - apply Forall_app. split; [done|]. constructor; [|done].
    destruct (decide (r ∈ spans_anno_new gold)) as [Hr|Hr]; [left|right; auto].
    eapply label_at_types; eauto.
  - destruct (decide (r ∈ spans_anno_new gold)) as [Hr|Hr]; [|done].
    rewrite (label_at_types gold r gl Hall (Hin Hr)).
    destruct Htargets as [-> | ->]; [by right|by right].
Qed.

Lemma measure_file_types folder_pred ignoremissing t f t' :
  types_tally t →
  measure_file folder_pred ["types"; "rel"] ignoremissing t f = Ok t' →
  types_tally t'.
Proof.
  intros Ht. unfold measure_file.
  destruct (negb _); [by intros [= <-]|].
  destruct (open folder_pred f.1) as [f_pred|].
  - intros (pred & Hpred & (gold & Hgold & Hal)%bind_Ok)%bind_Ok.
    apply (align_types gold pred t t'); [by eapply normalise_parallel..| |done|done].
    by eapply proj2, (normalise_types _ (RList ["types"; "rel"])).
  - destruct ignoremissing; [by intros [= <-]|].
    intros (gold & Hgold & Hal)%bind_Ok.
    apply (align_types gold no_annotations t t');
      [by eapply normalise_parallel|done| |done|done].
    by eapply proj2, (normalise_types _ (RList ["types"; "rel"])).
Qed.

End Types.

(** ** The dictionary of metrics *)

Lemma record_suffix y_true y_pred pre suf (m0 : gmap string prf) :
  ∃ m,
    for_each (record_step (Sklearn.per_label y_true y_pred (pre ++ suf)))
      (zip (seq (length pre) (length suf)) suf) m0 = Ok m ∧
    ∀ l, m !! l = if decide (l ∈ suf)
                  then Some (label_record y_true y_pred l) else m0 !! l.
Proof.
  revert pre m0. induction suf as [|x suf IH]; intros pre m0.
  - exists m0. split; [done|]. intros l. by rewrite decide_False by apply not_elem_of_nil.
  - destruct (IH (pre ++ [x])
                (<[x := label_record y_true y_pred x]> m0)) as (m & Hm & Hlook).
    exists m. split.
    + rewrite <- app_assoc, length_app, Nat.add_1_r in Hm. simpl in Hm.
      simpl. unfold record_step at 1, Sklearn.per_label at 1. simpl.
      unfold Py.getitem. rewrite !list_lookup_fmap.
      rewrite (list_lookup_middle pre suf x (length pre)) by done. simpl.
      exact Hm.
    + intros l. rewrite Hlook.
      destruct (decide (l ∈ suf)) as [Hl|Hl].
      * by rewrite decide_True by (by right).
      * destruct (decide (l = x)) as [->|Hne].
        -- rewrite decide_True by (by left). by rewrite lookup_insert_eq.
        -- rewrite decide_False by (by intros [?|?]%elem_of_cons).
           by rewrite lookup_insert_ne.
Qed.

(** Lines 72-78: one entry for each target, and nothing else. *)
Lemma record_all y_true y_pred targets :
  ∃ m,
    for_each (record_step (Sklearn.per_label y_true y_pred targets))
      (zip (seq 0 (length targets)) targets) ∅ = Ok m ∧
    ∀ l, m !! l = if decide (l ∈ targets)
                  then Some (label_record y_true y_pred l) else None.
Proof.
  destruct (record_suffix y_true y_pred [] targets ∅) as (m & Hm & Hlook).
  exists m. split; [done|]. intros l. rewrite Hlook.
  by destruct (decide _).
Qed.

(** Lines 65-92: what the dictionary holds when [score] returns. *)
Lemma score_Ok remove_anno t metrics labels :
  score remove_anno t = Ok (metrics, labels) →
  labels = (if Py.mem "keys" remove_anno then ["Hyponym-of"; "Synonym-of"]
            else targets t) ∧
  (∀ l, l ≠ "overall" →
        metrics !! l = if decide (l ∈ labels)
                       then Some (label_record (res_all_gold t) (res_all_pred t) l)
                       else None) ∧
  metrics !! "overall"
    = Some (if Py.mem "types" remove_anno
            then label_record (res_all_gold t) (res_all_pred t) NOTYPES
            else micro_record (res_all_gold t) (res_all_pred t) labels) ∧
  (Py.mem "types" remove_anno = true → NOTYPES ∈ labels).
Proof.
  unfold score.
  set (labels0 := if Py.mem "keys" remove_anno then _ else _).
  destruct (record_all (res_all_gold t) (res_all_pred t) labels0)
    as (m & -> & Hlook).
  rewrite bind_Ok_l.
  intros (metrics' & Hover & [= <- <-])%bind_Ok. split; [done|].
  destruct (Py.mem "types" remove_anno); cbn [negb] in Hover.
  - apply bind_Ok in Hover as (overall & Hoverall & [= <-]).
    unfold lookup_key in Hoverall. rewrite Hlook in Hoverall.
    change "KEYPHRASE-NOTYPES" with NOTYPES in Hoverall.
    destruct (decide (NOTYPES ∈ labels0)) as [Hin|]; [|discriminate].
    injection Hoverall as <-. split_and!; [|by rewrite lookup_insert_eq|done].
    intros l Hl. by rewrite lookup_insert_ne.
  - unfold micro_record.
    destruct (Sklearn.micro _ _ _) as [[p r] f]. injection Hover as <-.
    split_and!; [|rewrite lookup_insert_eq; reflexivity|done].
    intros l Hl. by rewrite lookup_insert_ne.
Qed.

Lemma report_row_Ok (metrics : gmap string prf) rows l v :
  metrics !! l = Some v → report_row metrics rows l = Ok (rows ++ [(l, v)]).
Proof. intros Hv. unfold report_row, lookup_key. by rewrite Hv. Qed.

Lemma rows_Ok (metrics : gmap string prf) labels rows0 :
  (∀ l, l ∈ labels → is_Some (metrics !! l)) →
  ∃ rows,
    for_each (report_row metrics) labels rows0 = Ok rows ∧
    rows.*1 = rows0.*1 ++ labels ∧
    ∀ k v, (k, v) ∈ rows → (k, v) ∈ rows0 ∨ k ∈ labels ∧ metrics !! k = Some v.
Proof.
  revert rows0. induction labels as [|l labels IH]; intros rows0 Hall.
  - exists rows0. rewrite app_nil_r. split_and!; auto.
  - destruct (Hall l) as [v Hv]; [by left|].
    rewrite for_each_cons, (report_row_Ok _ _ _ _ Hv), bind_Ok_l.
    destruct (IH (rows0 ++ [(l, v)])) as (rows & -> & Hfst & Hrows).
    { intros l' Hl'. apply Hall. by right. }
    exists rows. split_and!; [done| |].
    + rewrite Hfst, fmap_app, <- app_assoc. done.
    + intros k v' [Hin|[Hin Hk]]%Hrows.
      * apply elem_of_app in Hin as [Hin|Hin]; [by left|].
        apply list_elem_of_singleton in Hin as [= -> ->]. right.
        split; [by left|done].
      * right. split; [by right|done].
Qed.

Section TypesReport.
Context `{SetOrder}.

(** C9: with [remove_anno = "types"] every relation line is dropped and
    every label is the placeholder; when [calculateMeasures] returns, the
    placeholder is the only label of the report and the "overall" entry is
    the per-label record of the placeholder itself. *)
Theorem types_single_label folder_gold folder_pred ignoremissing metrics report :
  calculateMeasures folder_gold folder_pred (RStr "types") ignoremissing
    = Ok (metrics, report) →
  as_list (RStr "types") = ["types"; "rel"] ∧
  (∀ file_anno a,
     normaliseAnnotations file_anno (RList ["types"; "rel"]) = Ok a →
     rels_anno_new a = [] ∧ Forall (λ l, l = NOTYPES) (res_anno_new a)) ∧
  ∃ t rec,
    for_each (measure_file folder_pred ["types"; "rel"] ignoremissing)
      folder_gold tally0 = Ok t ∧
    Sklearn.per_label (res_all_gold t) (res_all_pred t) [NOTYPES]
      = ([precision rec], [recall rec], [f1_score rec], [support rec]) ∧
    report = [(NOTYPES, rec); ("avg / total", rec)] ∧
    metrics = <["overall" := rec]> {[NOTYPES := rec]}.
Proof.
  intros Hcalc. split; [done|]. split.
  { intros file_anno a. by apply normalise_types. }
  unfold calculateMeasures in Hcalc.
  change (as_list (RStr "types")) with ["types"; "rel"] in Hcalc.
  apply bind_Ok in Hcalc as (t & Ht & ([metrics' targets'] & Hscore &
    (report' & Hreport & [= <- <-])%bind_Ok)%bind_Ok).
  assert (types_tally t) as [_ Htargets].
  { revert Ht. apply for_each_invariant; [|by split; [constructor|left]].
    intros s f s' _. apply measure_file_types. }
  apply score_Ok in Hscore as (Hlabels & Hlook & Hoverall & Hin).
  change (Py.mem "keys" ["types"; "rel"]) with false in Hlabels.
  change (Py.mem "types" ["types"; "rel"]) with true in Hoverall, Hin.
  cbn iota in Hlabels, Hoverall. specialize (Hin eq_refl).
  assert (targets' = [NOTYPES]) as ->.
  { rewrite Hlabels in *. destruct Htargets as [Hnil|Hone]; [|done].
    rewrite Hnil in Hin. by apply elem_of_nil in Hin. }
  set (rec := label_record (res_all_gold t) (res_all_pred t) NOTYPES) in *.
  assert (metrics' !! NOTYPES = Some rec) as Hrec.
  { rewrite Hlook by done. rewrite decide_True; [done|by left]. }
  exists t, rec. split_and!; [done|reflexivity| |].
  - unfold print_report in Hreport.
    rewrite for_each_cons, (report_row_Ok _ _ _ _ Hrec), !bind_Ok_l in Hreport.
    simpl for_each in Hreport. rewrite bind_Ok_l in Hreport.
    unfold lookup_key in Hreport. rewrite Hoverall, bind_Ok_l in Hreport.
    by injection Hreport as <-.
  - apply map_eq. intros k.
    destruct (decide (k = "overall")) as [->|Hk].
    + by rewrite Hoverall, lookup_insert_eq.
    + rewrite lookup_insert_ne, Hlook by done.
      destruct (decide (k = NOTYPES)) as [->|Hne].
      * rewrite decide_True by (by left). by rewrite lookup_singleton_eq.
      * rewrite decide_False, lookup_singleton_ne; [done|done|].
        by intros ->%list_elem_of_singleton.
Qed.

End TypesReport.

Lemma types_single_label_witness :
  as_list (RStr "types") = ["types"; "rel"] ∧
  (∀ file_anno a,
     normaliseAnnotations file_anno (RList ["types"; "rel"]) = Ok a →
     rels_anno_new a = [] ∧ Forall (λ l, l = NOTYPES) (res_anno_new a)) ∧
  ∃ t rec,
    for_each (measure_file one_doc ["types"; "rel"] false) one_doc tally0
      = Ok t ∧
    Sklearn.per_label (res_all_gold t) (res_all_pred t) [NOTYPES]
      = ([precision rec], [recall rec], [f1_score rec], [support rec]) ∧
    [(NOTYPES, one_doc_record); ("avg / total", one_doc_record)]
      = [(NOTYPES, rec); ("avg / total", rec)] ∧
    (<["overall" := one_doc_record]> {[NOTYPES := one_doc_record]}
       : gmap string prf)
      = <["overall" := rec]> {[NOTYPES := rec]}.
Proof.
  apply (types_single_label one_doc one_doc false
           (<["overall" := one_doc_record]> {[NOTYPES := one_doc_record]})
           [(NOTYPES, one_doc_record); ("avg / total", one_doc_record)]).
  vm_compute. reflexivity.
Defined.

(** ** Identical predictions (C7) *)

Lemma true_positives_self l ys :
  Sklearn.true_positives l ys ys = Sklearn.count l ys.
Proof.
  unfold Sklearn.true_positives, Sklearn.count.
  induction ys as [|y ys IH]; [done|]. simpl. rewrite !filter_cons. simpl.
  destruct (decide (y = l)) as [->|Hne].
  - rewrite decide_True by done. simpl. by rewrite IH.
  - rewrite decide_False by (by intros [? _]). done.
Qed.

Lemma count_pos l ys : l ∈ ys → 0 < Sklearn.count l ys.
Proof.
  unfold Sklearn.count. induction 1 as [l ys|l y ys Hl IH];
    rewrite filter_cons.
  - rewrite decide_True by done. simpl. lia.
  - destruct (decide _); simpl; lia.
Qed.

Lemma ratio_self n : 0 < n → (Sklearn.ratio n n == 1)%Q.
Proof.
  destruct n as [|n]; [lia|]. intros _. unfold Sklearn.ratio, Qeq.
  cbn [Qnum Qden]. lia.
Qed.

Lemma fscore_one p r : (p == 1)%Q → (r == 1)%Q → (Sklearn.fscore p r == 1)%Q.
Proof.
  intros Hp Hr. unfold Sklearn.fscore.
  destruct (Qeq_bool (p + r) 0) eqn:Hz.
  - apply Qeq_bool_eq in Hz. rewrite Hp, Hr in Hz. discriminate.
  - rewrite Hp, Hr. reflexivity.
Qed.

Lemma perfect_label l ys : l ∈ ys → perfect (label_record ys ys l).
Proof.
  intros Hl%count_pos. unfold perfect, label_record. simpl.
  rewrite true_positives_self.
  split_and!; [by apply ratio_self..|apply fscore_one; by apply ratio_self].
Qed.

Lemma sum_counts_pos l (labels ys : list string) :
  l ∈ labels → l ∈ ys →
  0 < sum_list ((λ l, Sklearn.count l ys) <$> labels).
Proof.
  intros Hl Hys%count_pos.
  induction Hl as [l labels|l x labels Hl IH]; rewrite fmap_cons; simpl;
    [lia|]. specialize (IH Hys). lia.
Qed.

Lemma perfect_micro l labels ys :
  l ∈ labels → l ∈ ys → perfect (micro_record ys ys labels).
Proof.
  intros Hl Hys. unfold perfect, micro_record, Sklearn.micro. simpl.
  rewrite (list_fmap_ext (λ l, Sklearn.true_positives l ys ys)
             (λ l, Sklearn.count l ys) labels)
    by (intros; apply true_positives_self).
  pose proof (sum_counts_pos l labels ys Hl Hys).
  split_and!; [by apply ratio_self..|apply fscore_one; by apply ratio_self].
Qed.

Section Identical.
Context `{SetOrder}.

Lemma align_self a t t' :
  length (res_anno_new a) = length (spans_anno_new a) →
  agreeing t → align a a t = Ok t' → agreeing t'.
Proof.
  intros Ha. unfold align. apply align_invariant; [done|done|].
  intros s r gl pl Hr [Heq Htargets] (Hg & _ & Hp & _).
  apply set_list_elem, elem_of_app in Hr.
  assert (r ∈ spans_anno_new a) as Hin by (by destruct Hr).
  rewrite (label_at_functional a r pl gl (Hp Hin) (Hg Hin)).
  rewrite decide_True by done. split; simpl; [by rewrite Heq|].
  intros l. rewrite elem_of_app, list_elem_of_singleton, Htargets.
  destruct (Py.mem gl (targets s)) eqn:Hm.
  - apply mem_spec in Hm. split; [intros [Hl| ->]; done|by left].
  - by rewrite elem_of_app, list_elem_of_singleton.
Qed.

Lemma measure_file_identical folder_pred remove_anno ignoremissing t f t' :
  (Py.endswith f.1 ".ann" = true → open folder_pred f.1 = Some f.2) →
  agreeing t →
  measure_file folder_pred remove_anno ignoremissing t f = Ok t' →
  agreeing t'.
Proof.
  intros Hopen Ht. unfold measure_file.
  destruct (Py.endswith f.1 ".ann"); simpl; [|by intros [= <-]].
  rewrite Hopen by done.
  intros (pred & Hpred & (gold & Hgold & Hal)%bind_Ok)%bind_Ok.
  rewrite Hpred in Hgold. injection Hgold as <-.
  eapply align_self; [by eapply normalise_parallel|done|done].
Qed.

(** A file aligned with itself appends the labels of its span keys. *)
Lemma align_self_labels a t t' :
  length (res_anno_new a) = length (spans_anno_new a) →
  align a a t = Ok t' →
  ∃ gs, res_all_gold t' = res_all_gold t ++ gs ∧
        ∀ l, l ∈ gs ↔ ∃ r, r ∈ spans_anno_new a ∧ label_at a r l.
Proof.
  intros Ha Hal. unfold align in Hal.
  destruct (align_steps a a (set_list (spans_anno_new a ++ spans_anno_new a)) t
              Ha Ha) as (t1 & gs & ps & Ht1 & Hgs & _ & Hall).
  rewrite Hal in Ht1. injection Ht1 as <-. exists gs. split; [done|].
  assert (∀ r, r ∈ set_list (spans_anno_new a ++ spans_anno_new a)
               ↔ r ∈ spans_anno_new a) as Hkeys.
  { intros r. rewrite set_list_elem, elem_of_app. tauto. }
  intros l. split.
  - intros (i & Hi)%list_elem_of_lookup_1.
    destruct (Forall3_lookup_m _ _ _ _ _ _ Hall Hi)
      as (r & pl & Hr & _ & Hg & _).
    apply list_elem_of_lookup_2, Hkeys in Hr. eauto.
  - intros (r & Hr & Hl). pose proof Hr as Hr'.
    apply Hkeys, list_elem_of_lookup_1 in Hr' as (i & Hi).
    destruct (Forall3_lookup_l _ _ _ _ _ _ Hall Hi)
      as (gl & pl & Hgl & _ & Hg & _).
    rewrite (label_at_functional a r l gl Hl (Hg Hr)).
    by eapply list_elem_of_lookup_2.
Qed.

Lemma measure_file_self_labels folder_pred remove_anno ignoremissing t f t' :
  (Py.endswith f.1 ".ann" = true → open folder_pred f.1 = Some f.2) →
  measure_file folder_pred remove_anno ignoremissing t f = Ok t' →
  ∃ gs, res_all_gold t' = res_all_gold t ++ gs ∧
        ∀ l, l ∈ gs ↔
             Py.endswith f.1 ".ann" = true ∧
             ∃ a r, normaliseAnnotations f.2 (RList remove_anno) = Ok a ∧
                    r ∈ spans_anno_new a ∧ label_at a r l.
Proof.
  intros Hopen. unfold measure_file.
  destruct (Py.endswith f.1 ".ann"); simpl.
  - rewrite Hopen by done.
    intros (pred & Hpred & (gold & Hgold & Hal)%bind_Ok)%bind_Ok.
    rewrite Hpred in Hgold. injection Hgold as <-.
    destruct (align_self_labels pred t t') as (gs & Hgs & Hl);
      [by eapply normalise_parallel|done|].
    exists gs. split; [done|]. intros l. rewrite Hl. split.
    + intros (r & Hr & Hlabel). split; [done|]. by exists pred, r.
    + intros (_ & a & r & Ha & Hr & Hlabel). exists r.
      assert (a = pred) as -> by congruence. done.
  - intros [= <-]. exists []. rewrite app_nil_r. split; [done|].
    intros l. split; [by intros ?%elem_of_nil|by intros [? _]].
Qed.

(** The gold label sequence holds exactly the labels of the gold files. *)
Lemma gold_sequence_labels folder_gold folder_pred remove_anno ignoremissing t :
  identical_copies folder_gold folder_pred →
  for_each (measure_file folder_pred remove_anno ignoremissing) folder_gold
    tally0 = Ok t →
  ∀ l, l ∈ res_all_gold t ↔ gold_label remove_anno folder_gold l.
Proof.
  intros Hid Ht l. split.
  - revert l. revert Ht.
    apply (for_each_invariant
             (λ s, ∀ l, l ∈ res_all_gold s → gold_label remove_anno folder_gold l)).
    + intros s f s' Hf Hs Hstep l.
      destruct (measure_file_self_labels _ _ _ _ _ _ (Hid f Hf) Hstep)
        as (gs & -> & Hgs).
      intros [Hl|Hl]%elem_of_app; [by apply Hs|].
      apply Hgs in Hl as (Hann & a & r & Ha & Hr & Hl). by exists f, a, r.
    + intros l Hl. by apply elem_of_nil in Hl.
  - intros (f & a & r & Hf & Hann & Ha & Hr & Hl).
    apply list_elem_of_split in Hf as (pre & post & ->).
    assert (identical_copies (f :: post) folder_pred) as Hid'.
    { intros x Hx. apply Hid, elem_of_app. by right. }
    rewrite for_each_app in Ht. apply bind_Ok in Ht as (s1 & _ & Ht).
    rewrite for_each_cons in Ht. apply bind_Ok in Ht as (s2 & Hstep & Ht).
    assert (l ∈ res_all_gold s2) as Hl2.
    { destruct (measure_file_self_labels _ _ _ _ _ _
                  (Hid' f (list_elem_of_here _ _)) Hstep) as (gs & -> & Hgs).
      apply elem_of_app. right. apply Hgs. split; [done|]. by exists a, r. }
    revert Ht.
    apply (for_each_invariant (λ s, l ∈ res_all_gold s)); [|done].
    intros s x s' Hx Hs Hstep'.
    destruct (measure_file_self_labels _ _ _ _ _ _
                (Hid' x (list_elem_of_further _ _ _ Hx)) Hstep')
      as (gs & -> & _).
    apply elem_of_app. by left.
Qed.

(** Every label asked for has its row, holding its entry of the dictionary. *)
Lemma report_rows_member (metrics : gmap string prf) labels rows0 rows :
  for_each (report_row metrics) labels rows0 = Ok rows →
  (∀ kv, kv ∈ rows0 → kv ∈ rows) ∧
  ∀ l, l ∈ labels → ∃ v, metrics !! l = Some v ∧ (l, v) ∈ rows.
Proof.
  revert rows0. induction labels as [|x labels IH]; intros rows0.
  - intros [= <-]. split; [done|]. by intros l ?%elem_of_nil.
  - rewrite for_each_cons. intros (rows1 & Hrow & Hrest)%bind_Ok.
    unfold report_row, lookup_key in Hrow.
    destruct (metrics !! x) as [v|] eqn:Hx; [|done].
    rewrite bind_Ok_l in Hrow. injection Hrow as <-.
    destruct (IH _ Hrest) as [Hsub Hall]. split.
    + intros kv Hkv. apply Hsub, elem_of_app. by left.
    + intros l [->|Hl]%elem_of_cons; [|by apply Hall].
      exists v. split; [done|]. apply Hsub, elem_of_app. right. by left.
Qed.

Lemma print_report_member (metrics : gmap string prf) labels report l :
  print_report metrics labels = Ok report → l ∈ labels →
  ∃ v, metrics !! l = Some v ∧ (l, v) ∈ report.
Proof.
  unfold print_report.
  intros (rows & Hrows & (overall & _ & [= <-])%bind_Ok)%bind_Ok Hl.
  destruct (report_rows_member _ _ _ _ Hrows) as [_ Hall].
  destruct (Hall l Hl) as (v & Hv & Hin). exists v. split; [done|].
  apply elem_of_app. by left.
Qed.

(** C7, amended: when the predicted folder holds identical copies of the
    gold files and [calculateMeasures] returns, the two label sequences are
    equal and hold exactly the labels that the normalised gold files give
    their span keys; every such label that has a row in the report has
    precision, recall and F1 equal to 1 in the dictionary and in its row,
    and so has the "overall" entry provided some such label has a row. *)
Theorem identical_prediction_is_perfect folder_gold folder_pred remove_anno
    ignoremissing metrics report :
  identical_copies folder_gold folder_pred →
  calculateMeasures folder_gold folder_pred remove_anno ignoremissing
    = Ok (metrics, report) →
  ∃ t,
    for_each (measure_file folder_pred (as_list remove_anno) ignoremissing)
      folder_gold tally0 = Ok t ∧
    res_all_pred t = res_all_gold t ∧
    (∀ l, l ∈ res_all_gold t ↔ gold_label (as_list remove_anno) folder_gold l) ∧
    (∀ l, gold_label (as_list remove_anno) folder_gold l →
          reported (as_list remove_anno) l →
          ∃ rec, metrics !! l = Some rec ∧ perfect rec ∧ (l, rec) ∈ report) ∧
    ((∃ l, gold_label (as_list remove_anno) folder_gold l ∧
           reported (as_list remove_anno) l) →
     ∃ rec, metrics !! "overall" = Some rec ∧ perfect rec ∧
            ("avg / total", rec) ∈ report).
Proof.
  intros Hid Hcalc. unfold calculateMeasures in Hcalc.
  apply bind_Ok in Hcalc as (t & Ht & ([metrics' labels] & Hscore &
    (report' & Hreport & [= <- <-])%bind_Ok)%bind_Ok).
  assert (agreeing t) as [Heq Htargets].
  { revert Ht. apply (for_each_invariant agreeing).
    - intros s f s' Hf. apply measure_file_identical. by apply Hid.
    - split; [done|]. intros l. simpl. done. }
  pose proof (gold_sequence_labels _ _ _ _ _ Hid Ht) as Hgold.
  apply score_Ok in Hscore as (Hlabels & Hlook & Hoverall & Hin).
  rewrite Heq in Hlook, Hoverall.
  assert (∀ l, l ∈ res_all_gold t → reported (as_list remove_anno) l →
               l ∈ labels) as Hrow.
  { intros l Hl [Hkeys|Hkeys]; rewrite Hlabels.
    - rewrite Hkeys. by apply Htargets.
    - destruct (Py.mem "keys" _) eqn:Hk; [done|by apply Htargets]. }
  assert ((∃ l, l ∈ res_all_gold t ∧ reported (as_list remove_anno) l) →
          ∃ rec, metrics' !! "overall" = Some rec ∧ perfect rec) as Hagg.
  { intros (l & Hl & Hrep). eexists. split; [done|].
    destruct (Py.mem "types" (as_list remove_anno)) eqn:Htypes.
    - apply perfect_label. specialize (Hin eq_refl). rewrite Hlabels in Hin.
      destruct (Py.mem "keys" _); [|by apply Htargets].
      repeat (apply elem_of_cons in Hin as [Hin|Hin]; [discriminate|]).
      by apply elem_of_nil in Hin.
    - by eapply perfect_micro; [apply Hrow|]. }
  exists t. split_and!; [done|done|done| |].
  - intros l Hl%Hgold Hrep.
    destruct (print_report_member _ _ _ l Hreport (Hrow l Hl Hrep))
      as (rec & Hrec & Hin_report).
    exists rec. split_and!; [done| |done].
    destruct (decide (l = "overall")) as [->|Hne].
    + destruct Hagg as (rec' & Hrec' & Hperfect); [eauto|]. congruence.
    + rewrite Hlook in Hrec by done.
      rewrite decide_True in Hrec by (by apply Hrow). injection Hrec as <-.
      by apply perfect_label.
  - intros (l & Hl%Hgold & Hrep).
    destruct Hagg as (rec & Hrec & Hperfect); [eauto|].
    exists rec. split_and!; [done|done|].
    unfold print_report in Hreport.
    apply bind_Ok in Hreport as (rows & _ & Hreport).
    unfold lookup_key in Hreport. rewrite Hrec in Hreport.
    rewrite bind_Ok_l in Hreport. injection Hreport as <-.
    apply elem_of_app. right. by left.
Qed.

End Identical.

Lemma identical_prediction_is_perfect_witness :
  ∃ t,
    for_each (measure_file one_doc (as_list (RStr "")) false) one_doc tally0
      = Ok t ∧
    res_all_pred t = res_all_gold t ∧
    (∀ l, l ∈ res_all_gold t ↔ gold_label (as_list (RStr "")) one_doc l) ∧
    (∀ l, gold_label (as_list (RStr "")) one_doc l →
          reported (as_list (RStr "")) l →
          ∃ rec, (<["overall" := one_doc_overall]> {["Task" := one_doc_task]}
                    : gmap string prf) !! l = Some rec ∧ perfect rec ∧
                 (l, rec)
                   ∈ [("Task", one_doc_task); ("avg / total", one_doc_overall)]) ∧
    ((∃ l, gold_label (as_list (RStr "")) one_doc l ∧
           reported (as_list (RStr "")) l) →
     ∃ rec, (<["overall" := one_doc_overall]> {["Task" := one_doc_task]}
               : gmap string prf) !! "overall" = Some rec ∧ perfect rec ∧
            ("avg / total", rec)
              ∈ [("Task", one_doc_task); ("avg / total", one_doc_overall)]).
Proof.
  apply (identical_prediction_is_perfect one_doc one_doc (RStr "") false
           (<["overall" := one_doc_overall]> {["Task" := one_doc_task]})
           [("Task", one_doc_task); ("avg / total", one_doc_overall)]).
  - intros f Hf _. unfold one_doc in Hf.
    apply list_elem_of_singleton in Hf. rewrite Hf. reflexivity.
  - vm_compute. reflexivity.
Defined.

(** The label "Task" of [one_doc] is a label of the gold annotations. *)
Example one_doc_gold_label : gold_label [""] one_doc "Task".
Proof.
  exists ("doc.ann", pair_gold_file), pair_gold, "0 5".
  split_and!; [by left|reflexivity|vm_compute; reflexivity|by left|].
  exists 0, "Task 0 5". split_and!; [reflexivity|intros j Hj; lia|reflexivity..].
Qed.

(** C7 as the specification states it fails.  With [remove_anno = "keys"]
    and a gold folder of one entity, copied as the prediction, the report
    has the rows "Hyponym-of" and "Synonym-of" only, and "overall" is 0.
    And a label whose annotation shares its span with an earlier one
    ("Process" on [0 5] after "Task" on [0 5]) gets no entry and no row at
    all. *)
Lemma identical_prediction_imperfect :
  identical_copies entity_doc entity_doc ∧
  ((λ mr, (mr.1 !! "overall", mr.1 !! "Task", mr.2))
     <$> calculateMeasures entity_doc entity_doc (RStr "keys") false)
    = Ok (Some zero_record, None,
          [("Hyponym-of", zero_record); ("Synonym-of", zero_record);
           ("avg / total", zero_record)]) ∧
  ¬ (precision zero_record == 1)%Q ∧
  identical_copies duplicate_doc duplicate_doc ∧
  ((λ mr, (mr.1 !! "Process", mr.2.*1))
     <$> calculateMeasures duplicate_doc duplicate_doc (RStr "") false)
    = Ok (None, ["Task"; "avg / total"]).
Proof.
  split_and!.
  - intros f Hf _. unfold entity_doc in Hf.
    apply list_elem_of_singleton in Hf as ->. reflexivity.
  - vm_compute. reflexivity.
  - discriminate.
  - intros f Hf _. unfold duplicate_doc in Hf.
    apply list_elem_of_singleton in Hf as ->. reflexivity.
  - vm_compute. reflexivity.
Qed.

(** * Further properties of the code *)

(** ** Which exceptions [normaliseAnnotations] raises, and where *)

Lemma raises_in_bind {A B : Type} (P : exn → Prop) (m : result A)
    (k : A → result B) :
  raises_in P m → (∀ a, m = Ok a → raises_in P (k a)) → raises_in P (m ≫= k).
Proof. destruct m as [a|e]; simpl; [auto|done]. Qed.

Lemma raises_in_for_each {A S : Type} (P : exn → Prop)
    (body : S → A → result S) l st :
  (∀ s x, raises_in P (body s x)) → raises_in P (for_each body l st).
Proof.
  intros Hbody. revert st. induction l as [|x l IH]; intros st; simpl; [done|].
  apply raises_in_bind; [apply Hbody|auto].
Qed.

Lemma raises_in_getitem {A : Type} (l : list A) i :
  raises_in parse_error (Py.getitem l i).
Proof. unfold Py.getitem. destruct (l !! i); simpl; [done|by left]. Qed.

Lemma raises_in_load x : raises_in parse_error (load x).
Proof. destruct x; simpl; [done|by right]. Qed.

Lemma raises_in_except {A : Type} (body : result A) handler :
  raises_in parse_error body →
  raises_in parse_error (except_IndexError body handler).
Proof. by destruct body as [a|[]]. Qed.

Ltac raises_step :=
  repeat first
    [ apply raises_in_getitem
    | apply raises_in_load
    | apply raises_in_bind; [|intros ? _]
    | apply raises_in_except
    | exact I
    | match goal with |- raises_in _ (if ?b then _ else _) => destruct b end
    | match goal with |- raises_in _ (let _ := _ in _) => cbv zeta end ].

Lemma raises_in_resolve_step arg1 arg2 ents l :
  raises_in parse_error (resolve_step arg1 arg2 ents l).
Proof. unfold resolve_step. raises_step. Qed.

Lemma raises_in_order_synonym ents : raises_in parse_error (order_synonym ents).
Proof. unfold order_synonym. raises_step. Qed.

Lemma raises_in_line_step remove_anno st l :
  raises_in parse_error (line_step remove_anno st l).
Proof.
  unfold line_step, relation_line, entity_line. raises_step.
  apply raises_in_for_each. intros. apply raises_in_resolve_step.
Qed.

Lemma line_step_without_tab remove_anno st l :
  free_of tab (Py.strip l) → line_step remove_anno st l = Raise IndexError.
Proof. intros Hl. unfold line_step. by rewrite (split_free _ _ Hl). Qed.

Section Exceptions.
Context `{SetOrder}.

(** X1: [normaliseAnnotations] returns exactly when its first loop, the
    parsing of the lines, returns: the rewrite pass and the two closing
    loops never raise. *)
Theorem normalise_returns_iff_parsed file_anno remove_anno :
  (∃ a, normaliseAnnotations file_anno remove_anno = Ok a) ↔
  (∃ st, for_each (line_step remove_anno) file_anno locals0 = Ok st).
Proof.
  split.
  - intros (a & Ha). apply normalise_Ok in Ha as (st & _ & _ & _ & _ & Hst & _).
    eauto.
  - intros (st & Hst).
    destruct (normalise_total _ _ _ Hst) as (a & _ & Ha & _). eauto.
Qed.

Lemma normalise_raises_parse file_anno remove_anno e :
  normaliseAnnotations file_anno remove_anno = Raise e → parse_error e.
Proof.
  intros Hraise.
  destruct (for_each (line_step remove_anno) file_anno locals0) as [st|e']
    eqn:Hloop.
  - destruct (normalise_total _ _ _ Hloop) as (a & _ & Ha & _). congruence.
  - unfold normaliseAnnotations in Hraise. rewrite Hloop in Hraise.
    injection Hraise as <-.
    pose proof (raises_in_for_each parse_error (line_step remove_anno)
                  file_anno locals0 (raises_in_line_step remove_anno)) as Hr.
    by rewrite Hloop in Hr.
Qed.

(** X2: the only exceptions that [normaliseAnnotations] raises are
    [IndexError] and [UnboundLocalError]. *)
Theorem normalise_raises_only file_anno remove_anno e :
  normaliseAnnotations file_anno remove_anno = Raise e →
  e = IndexError ∨ e = UnboundLocalError.
Proof. apply normalise_raises_parse. Qed.

(** X3: a line that has no tab once stripped (a blank line, say) makes
    [normaliseAnnotations] raise [IndexError] at line 201, whatever follows
    it, when the lines before it parse. *)
Theorem line_without_tab_raises pre l post remove_anno st :
  for_each (line_step remove_anno) pre locals0 = Ok st →
  free_of tab (Py.strip l) →
  normaliseAnnotations (pre ++ l :: post) remove_anno = Raise IndexError.
Proof.
  intros Hpre Hl. unfold normaliseAnnotations.
  rewrite for_each_app, Hpre, bind_Ok_l, for_each_cons.
  by rewrite (line_step_without_tab _ _ _ Hl).
Qed.

End Exceptions.

Lemma normalise_raises_only_witness :
  UnboundLocalError = IndexError ∨ UnboundLocalError = UnboundLocalError.
Proof.
  apply (normalise_raises_only dangling_file (RList [""]) UnboundLocalError).
  vm_compute. reflexivity.
Defined.

Lemma line_without_tab_raises_witness :
  normaliseAnnotations (pair_gold_file ++ blank_line :: pair_pred_file)
    (RList [""]) = Raise IndexError.
Proof.
  eapply (line_without_tab_raises pair_gold_file blank_line pair_pred_file
            (RList [""])).
  - vm_compute. reflexivity.
  - vm_compute. exact I.
Defined.

(** ** What [remove_anno] does to the parsing *)

Lemma for_each_ext {A S : Type} (body body' : S → A → result S) l st :
  (∀ s x, x ∈ l → body s x = body' s x) →
  for_each body l st = for_each body' l st.
Proof.
  revert st. induction l as [|x l IH]; intros st Hext; simpl; [done|].
  rewrite Hext by left. destruct (body' st x); simpl; [|done].
  apply IH. intros s y Hy. apply Hext. by right.
Qed.

Lemma line_step_relation_skipped remove_anno st l :
  py_in "rel" remove_anno = true → is_relation_line l = true →
  line_step remove_anno st l = Ok st.
Proof.
  intros Hrel. unfold is_relation_line, line_step.
  destruct (Py.getitem (Py.split tab (Py.strip l)) 1) as [field1|]; [|done].
  simpl. destruct (Py.getitem (Py.split " " field1) 0) as [label|]; [|done].
  simpl. intros ->. by rewrite Hrel.
Qed.

Section RemoveAnno.
Context `{SetOrder}.

(** X4: when ["rel" in remove_anno] holds, the relation lines of the file
    play no part: the result is the result on the file without them. *)
Theorem rel_ignores_relation_lines file_anno remove_anno :
  py_in "rel" remove_anno = true →
  normaliseAnnotations (filter (λ l, is_relation_line l = false) file_anno)
    remove_anno
  = normaliseAnnotations file_anno remove_anno.
Proof.
  intros Hrel. unfold normaliseAnnotations. f_equal.
  generalize locals0. induction file_anno as [|l file IH]; intros st; [done|].
  rewrite filter_cons. destruct (is_relation_line l) eqn:Hl.
  - rewrite decide_False by done. rewrite for_each_cons.
    by rewrite line_step_relation_skipped, bind_Ok_l.
  - rewrite decide_True by done. rewrite !for_each_cons.
    destruct (line_step remove_anno st l); simpl; [apply IH|done].
Qed.

(** X5: [normaliseAnnotations] looks at [remove_anno] through the two tests
    ["rel" in remove_anno] and ["types" in remove_anno] only; any other
    content, such as ["keys"], changes nothing. *)
Theorem normalise_depends_on_two_tests file_anno remove_anno remove_anno' :
  py_in "rel" remove_anno = py_in "rel" remove_anno' →
  py_in "types" remove_anno = py_in "types" remove_anno' →
  normaliseAnnotations file_anno remove_anno
  = normaliseAnnotations file_anno remove_anno'.
Proof.
  intros Hrel Htypes. unfold normaliseAnnotations. f_equal.
  apply for_each_ext. intros st l _.
  unfold line_step, entity_line. by rewrite Hrel, Htypes.
Qed.

End RemoveAnno.

Lemma rel_ignores_relation_lines_witness :
  normaliseAnnotations (filter (λ l, is_relation_line l = false) mixed_file)
    (RList ["rel"])
  = normaliseAnnotations mixed_file (RList ["rel"]).
Proof.
  apply (rel_ignores_relation_lines mixed_file (RList ["rel"])). reflexivity.
Defined.

Lemma normalise_depends_on_two_tests_witness :
  normaliseAnnotations mixed_file (RList ["keys"])
  = normaliseAnnotations mixed_file (RList [""]).
Proof.
  apply (normalise_depends_on_two_tests mixed_file (RList ["keys"]) (RList [""]));
    reflexivity.
Defined.

(** ** Resolving the arguments of a relation *)

Lemma resolve_step_Ok arg1 arg2 ents l ents' :
  resolve_step arg1 arg2 ents l = Ok ents' →
  ∃ id, line_id l = Some id ∧
    (if String.eqb id arg1
     then ∃ f, line_field l = Some f ∧ ents'.1 = Some (Py.replace " " "_" f)
     else ents'.1 = ents.1) ∧
    (if String.eqb id arg2
     then ∃ f, line_field l = Some f ∧ ents'.2 = Some (Py.replace " " "_" f)
     else ents'.2 = ents.2).
Proof.
  unfold resolve_step, line_id, line_field.
  intros (id1 & Hid1%getitem_Ok & (e1 & He1 & (id2 & Hid2%getitem_Ok &
    (e2 & He2 & [= <-])%bind_Ok)%bind_Ok)%bind_Ok)%bind_Ok.
  rewrite Hid1 in Hid2. injection Hid2 as <-. exists id1. split; [done|].
  split; simpl.
  - destruct (String.eqb id1 arg1); [|by injection He1].
    apply bind_Ok in He1 as (f & Hf%getitem_Ok & [= <-]). eauto.
  - destruct (String.eqb id1 arg2); [|by injection He2].
    apply bind_Ok in He2 as (f & Hf%getitem_Ok & [= <-]). eauto.
Qed.

Lemma resolve_unmatched arg1 arg2 lines ents ents' :
  for_each (resolve_step arg1 arg2) lines ents = Ok ents' →
  ((∀ l, l ∈ lines → line_id l ≠ Some arg1) → ents'.1 = ents.1) ∧
  ((∀ l, l ∈ lines → line_id l ≠ Some arg2) → ents'.2 = ents.2).
Proof.
  revert ents. induction lines as [|l lines IH]; intros ents; simpl.
  - by intros [= <-].
  - intros (ents1 & Hstep & Hrest)%bind_Ok.
    apply resolve_step_Ok in Hstep as (id & Hid & H1 & H2).
    destruct (IH _ Hrest) as [IH1 IH2]. split; intros Hno.
    + rewrite IH1 by (intros l' Hl'; apply Hno; by right).
      destruct (String.eqb_spec id arg1) as [->|_]; [|done].
      destruct (Hno l); [by left|done].
    + rewrite IH2 by (intros l' Hl'; apply Hno; by right).
      destruct (String.eqb_spec id arg2) as [->|_]; [|done].
      destruct (Hno l); [by left|done].
Qed.

(** X6: an [Arg1] identifier that is the identifier of no line leaves
    [ent1] as it was before the lookup: the value of the previous relation
    line, if there was one, is used again. *)
Theorem resolve_keeps_stale_value arg1 arg2 lines ents ents' :
  for_each (resolve_step arg1 arg2) lines ents = Ok ents' →
  (∀ l, l ∈ lines → line_id l ≠ Some arg1) →
  ents'.1 = ents.1.
Proof. intros Hloop. by apply resolve_unmatched in Hloop as [? _]. Qed.

(** X7: when several lines carry the identifier of [Arg1], the last of
    them gives [ent1]: its second tab field with the spaces replaced by
    underscores. *)
Theorem resolve_takes_last_match arg1 arg2 pre l post f ents ents' :
  for_each (resolve_step arg1 arg2) (pre ++ l :: post) ents = Ok ents' →
  line_id l = Some arg1 → line_field l = Some f →
  (∀ l', l' ∈ post → line_id l' ≠ Some arg1) →
  ents'.1 = Some (Py.replace " " "_" f).
Proof.
  rewrite for_each_app.
  intros (ents1 & _ & (ents2 & Hstep & Hpost)%bind_Ok)%bind_Ok Hid Hf Hno.
  apply resolve_unmatched in Hpost as [-> _]; [|done].
  apply resolve_step_Ok in Hstep as (id & Hid' & H1 & _).
  rewrite Hid in Hid'. injection Hid' as <-. rewrite String.eqb_refl in H1.
  destruct H1 as (f' & Hf' & ->). congruence.
Qed.

Lemma resolve_keeps_stale_value_witness :
  (Some "Stale_0_1", Some "Task_2_3").1
  = (Some "Stale_0_1", None : option string).1.
Proof.
  apply (resolve_keeps_stale_value "T7" "T2" stripped_entities
           (Some "Stale_0_1", None) (Some "Stale_0_1", Some "Task_2_3")).
  - vm_compute. reflexivity.
  - intros l Hl. unfold stripped_entities in Hl.
    repeat (apply elem_of_cons in Hl as [->|Hl]; [by vm_compute|]).
    by apply elem_of_nil in Hl.
Defined.

Lemma resolve_takes_last_match_witness :
  (Some "Process_7_9", Some "Task_2_3").1
  = Some (Py.replace " " "_" "Process 7 9").
Proof.
  apply (resolve_takes_last_match "T1" "T2"
           [ "T1" +:+ TAB +:+ "Task 0 1" +:+ TAB +:+ "a";
             "T2" +:+ TAB +:+ "Task 2 3" +:+ TAB +:+ "b" ]
           ("T1" +:+ TAB +:+ "Process 7 9" +:+ TAB +:+ "c") []
           "Process 7 9" (None, None) (Some "Process_7_9", Some "Task_2_3")).
  - vm_compute. reflexivity.
  - reflexivity.
  - reflexivity.
  - intros l' Hl'. by apply elem_of_nil in Hl'.
Defined.

(** ** The direction of a synonym pair *)

Lemma gt_total a b : a ≠ b → Py.gt a b = true ∨ Py.gt b a = true.
Proof.
  intros Hne. unfold Py.gt. rewrite (String.compare_antisym b a).
  destruct (String.compare a b) eqn:Hc; simpl; auto.
  by apply String.compare_eq_iff in Hc.
Qed.

(** X8: lines 219-225 do not depend on the direction in which the file
    gives a synonym pair, as long as the two offset tokens differ: both
    directions give the same ordered pair. *)
Theorem order_synonym_direction x1 x2 t1 t2 :
  offset_token x1 = Some t1 → offset_token x2 = Some t2 → t1 ≠ t2 →
  order_synonym (Some x1, Some x2) = order_synonym (Some x2, Some x1).
Proof.
  intros H1 H2 Hne. unfold order_synonym, offset_token in *. simpl.
  rewrite !(proj2 (getitem_Ok _ _ _) H1), !(proj2 (getitem_Ok _ _ _) H2).
  simpl. destruct (gt_total t1 t2 Hne) as [Hgt|Hgt]; rewrite Hgt;
    by rewrite (gt_asym _ _ Hgt).
Qed.

Lemma order_synonym_direction_witness :
  order_synonym (Some "Task_20_25", Some "Task_10_15")
  = order_synonym (Some "Task_10_15", Some "Task_20_25").
Proof.
  apply (order_synonym_direction "Task_20_25" "Task_10_15" "20" "10");
    [reflexivity|reflexivity|discriminate].
Defined.

(** ** The loop over the files of [calculateMeasures] *)

Section Folder.
Context `{SetOrder}.

Lemma align_tally_ok gold pred t t' :
  length (res_anno_new gold) = length (spans_anno_new gold) →
  length (res_anno_new pred) = length (spans_anno_new pred) →
  tally_ok t → align gold pred t = Ok t' → tally_ok t'.
Proof.
  intros Hg Hp. unfold align. apply align_invariant; [done|done|].
  intros s r gl pl _ (Hlen & Hnd & Hsub) _. split_and!; simpl.
  - rewrite !length_app. simpl. lia.
  - destruct (decide _); [|done]. destruct (Py.mem gl (targets s)) eqn:Hm; [done|].
    apply NoDup_app. split_and!; [done| |apply NoDup_singleton].
    intros l Hl ->%list_elem_of_singleton.
    apply mem_spec in Hl. congruence.
  - intros l Hl. apply elem_of_app.
    destruct (decide _); [|left; by apply Hsub].
    destruct (Py.mem gl (targets s)); [left; by apply Hsub|].
    apply elem_of_app in Hl as [Hl|Hl]; [left; by apply Hsub|by right].
Qed.

Lemma measure_file_tally_ok folder_pred remove_anno ignoremissing t f t' :
  tally_ok t →
  measure_file folder_pred remove_anno ignoremissing t f = Ok t' → tally_ok t'.
Proof.
  intros Ht. unfold measure_file.
  destruct (negb _); [by intros [= <-]|].
  destruct (open folder_pred f.1) as [f_pred|].
  - intros (pred & Hpred & (gold & Hgold & Hal)%bind_Ok)%bind_Ok.
    apply (align_tally_ok gold pred t t'); [by eapply normalise_parallel..|done|done].
  - destruct ignoremissing; [by intros [= <-]|].
    intros (gold & Hgold & Hal)%bind_Ok.
    apply (align_tally_ok gold no_annotations t t');
      [by eapply normalise_parallel|done|done|done].
Qed.

Lemma measure_file_other folder_pred remove_anno ignoremissing t f :
  Py.endswith f.1 ".ann" = false →
  measure_file folder_pred remove_anno ignoremissing t f = Ok t.
Proof. intros Hf. unfold measure_file. by rewrite Hf. Qed.

(** X9: when the loop over the gold files ends, the gold and the predicted
    label sequences have the same length, no target occurs twice, and
    every target is a label of the gold sequence. *)
Theorem file_loop_invariant folder_gold folder_pred remove_anno ignoremissing t :
  for_each (measure_file folder_pred remove_anno ignoremissing) folder_gold
    tally0 = Ok t →
  length (res_all_gold t) = length (res_all_pred t) ∧
  NoDup (targets t) ∧
  ∀ l, l ∈ targets t → l ∈ res_all_gold t.
Proof.
  apply (for_each_invariant tally_ok).
  - intros s f s' _. apply measure_file_tally_ok.
  - split_and!; [done|constructor|]. by intros l Hl%elem_of_nil.
Qed.

(** X10: entries of the gold folder whose name does not end in [".ann"]
    play no part in the result, whatever they contain. *)
Theorem other_files_ignored folder_gold folder_pred remove_anno ignoremissing :
  calculateMeasures
    (filter (λ f, Py.endswith f.1 ".ann" = true) folder_gold)
    folder_pred remove_anno ignoremissing
  = calculateMeasures folder_gold folder_pred remove_anno ignoremissing.
Proof.
  unfold calculateMeasures, folder in *. f_equal.
  generalize tally0. induction folder_gold as [|f d IH]; intros t; [done|].
  rewrite filter_cons. destruct (Py.endswith f.1 ".ann") eqn:Hf.
  - rewrite decide_True by done. rewrite !for_each_cons.
    destruct (measure_file _ _ _ t f); simpl; [apply IH|done].
  - rewrite decide_False by done. rewrite for_each_cons.
    rewrite measure_file_other, bind_Ok_l by done. apply IH.
Qed.

(** X11: the predicted folder is read through the names of the gold
    entries only: two predicted folders that open alike on those names
    give the same result, so predictions for documents that are not in the
    gold folder are never scored. *)
Theorem only_gold_names_are_opened folder_gold folder_pred folder_pred'
    remove_anno ignoremissing :
  (∀ f, f ∈ folder_gold → open folder_pred f.1 = open folder_pred' f.1) →
  calculateMeasures folder_gold folder_pred remove_anno ignoremissing
  = calculateMeasures folder_gold folder_pred' remove_anno ignoremissing.
Proof.
  intros Hopen. unfold calculateMeasures. f_equal.
  apply for_each_ext. intros t f Hf. unfold measure_file.
  by rewrite (Hopen f Hf).
Qed.

(** X12: a gold [.ann] file without a predicted file, when
    [ignoremissing] is true, leaves the label sequences as they are; when
    it is false, each distinct gold span key contributes its gold label
    against the predicted label "NONE". *)
Theorem missing_prediction folder_pred remove_anno t name f_gold gold :
  Py.endswith name ".ann" = true →
  open folder_pred name = None →
  normaliseAnnotations f_gold (RList remove_anno) = Ok gold →
  measure_file folder_pred remove_anno true t (name, f_gold) = Ok t ∧
  ∃ t' keys gs,
    measure_file folder_pred remove_anno false t (name, f_gold) = Ok t' ∧
    res_all_gold t' = res_all_gold t ++ gs ∧
    res_all_pred t' = res_all_pred t ++ replicate (length gs) "NONE" ∧
    NoDup keys ∧ (∀ r, r ∈ keys ↔ r ∈ spans_anno_new gold) ∧
    Forall2 (label_at gold) keys gs.
Proof.
  intros Hann Hopen Hgold. unfold measure_file. simpl.
  rewrite Hann, Hopen, Hgold. simpl. split; [done|]. unfold align.
  destruct (align_steps gold no_annotations
              (set_list (spans_anno_new gold ++ spans_anno_new no_annotations)) t)
    as (t' & gs & ps & Ht & E1 & E2 & Hall);
    [by eapply normalise_parallel|done|].
  exists t', (set_list (spans_anno_new gold ++ [])), gs.
  split_and!; [done|done| |apply set_list_NoDup| |].
  - rewrite E2. f_equal.
    assert (∀ ks gs ps, Forall3 (aligned gold no_annotations) ks gs ps →
                        ps = replicate (length gs) "NONE") as Hnone.
    { induction 1 as [|k g p' ks' gs' ps' (_ & _ & _ & Hp) _ IH]; [done|].
      simpl. rewrite <- IH. f_equal. apply Hp. simpl. apply not_elem_of_nil. }
    by eapply Hnone.
  - intros r. by rewrite set_list_elem, app_nil_r.
  - assert (∀ ks gs ps, Forall3 (aligned gold no_annotations) ks gs ps →
                        Forall (λ r, r ∈ spans_anno_new gold) ks →
                        Forall2 (label_at gold) ks gs) as Hlab.
    { induction 1 as [|k g p' ks' gs' ps' (Hg & _) _ IH]; [constructor|].
      intros [Hk Hks]%Forall_cons. constructor; auto. }
    eapply Hlab; [done|]. apply Forall_forall. intros r Hr.
    apply (proj1 (set_list_elem _ _)) in Hr. simpl in Hr.
    by rewrite app_nil_r in Hr.
Qed.

End Folder.

Lemma file_loop_invariant_witness :
  length (res_all_gold {| res_all_gold := ["Task"; "Task"; "NONE"];
                          res_all_pred := ["NONE"; "Task"; "Process"];
                          targets := ["Task"] |})
  = length (res_all_pred {| res_all_gold := ["Task"; "Task"; "NONE"];
                            res_all_pred := ["NONE"; "Task"; "Process"];
                            targets := ["Task"] |}) ∧
  NoDup ["Task"] ∧
  ∀ l, l ∈ ["Task"] → l ∈ ["Task"; "Task"; "NONE"].
Proof.
  apply (file_loop_invariant one_doc pred_folder [""] false
           {| res_all_gold := ["Task"; "Task"; "NONE"];
              res_all_pred := ["NONE"; "Task"; "Process"];
              targets := ["Task"] |}).
  vm_compute. reflexivity.
Defined.

Lemma only_gold_names_are_opened_witness :
  calculateMeasures one_doc pred_folder (RStr "") false
  = calculateMeasures one_doc pred_folder_more (RStr "") false.
Proof.
  apply (only_gold_names_are_opened one_doc pred_folder pred_folder_more).
  intros f Hf. unfold one_doc in Hf.
  apply list_elem_of_singleton in Hf. rewrite Hf. reflexivity.
Defined.

Lemma missing_prediction_witness :
  measure_file [] [""] true tally0 ("doc.ann", pair_gold_file) = Ok tally0 ∧
  ∃ t' keys gs,
    measure_file [] [""] false tally0 ("doc.ann", pair_gold_file) = Ok t' ∧
    res_all_gold t' = res_all_gold tally0 ++ gs ∧
    res_all_pred t' = res_all_pred tally0 ++ replicate (length gs) "NONE" ∧
    NoDup keys ∧ (∀ r, r ∈ keys ↔ r ∈ spans_anno_new pair_gold) ∧
    Forall2 (label_at pair_gold) keys gs.
Proof.
  apply (missing_prediction [] [""] tally0 "doc.ann" pair_gold_file pair_gold).
  - reflexivity.
  - reflexivity.
  - vm_compute. reflexivity.
Defined.

(** ** When [calculateMeasures] returns, and what it raises *)

Lemma score_total remove_anno t :
  Py.mem "types" remove_anno = false ∨ NOTYPES ∈ report_labels remove_anno t →
  ∃ metrics,
    score remove_anno t = Ok (metrics, report_labels remove_anno t) ∧
    is_Some (metrics !! "overall") ∧
    ∀ l, l ∈ report_labels remove_anno t → is_Some (metrics !! l).
Proof.
  intros Hcase. unfold score. fold (report_labels remove_anno t).
  destruct (record_all (res_all_gold t) (res_all_pred t)
              (report_labels remove_anno t)) as (m & -> & Hlook).
  rewrite bind_Ok_l.
  assert (∀ (v : prf) l, l ∈ report_labels remove_anno t →
                         is_Some (<["overall" := v]> m !! l)) as Hrows.
  { intros v l Hl. destruct (decide (l = "overall")) as [->|Hne].
    - rewrite lookup_insert_eq. eauto.
    - rewrite lookup_insert_ne, Hlook, decide_True by done. eauto. }
  destruct (Py.mem "types" remove_anno) eqn:Htypes; cbn [negb].
  - destruct Hcase as [?|Hin]; [done|]. unfold lookup_key.
    change "KEYPHRASE-NOTYPES" with NOTYPES.
    rewrite Hlook, decide_True by done. rewrite !bind_Ok_l.
    eexists. split_and!; [done| |by apply Hrows].
    rewrite lookup_insert_eq. eauto.
  - destruct (Sklearn.micro _ _ _) as [[p r] f]. rewrite bind_Ok_l.
    eexists. split_and!; [done| |by apply Hrows].
    rewrite lookup_insert_eq. eauto.
Qed.

Lemma score_KeyError remove_anno t :
  Py.mem "types" remove_anno = true → NOTYPES ∉ report_labels remove_anno t →
  score remove_anno t = Raise KeyError.
Proof.
  intros Htypes Hout. unfold score. fold (report_labels remove_anno t).
  destruct (record_all (res_all_gold t) (res_all_pred t)
              (report_labels remove_anno t)) as (m & -> & Hlook).
  rewrite bind_Ok_l, Htypes. cbn [negb]. unfold lookup_key.
  change "KEYPHRASE-NOTYPES" with NOTYPES.
  by rewrite Hlook, decide_False by done.
Qed.

Lemma print_report_total (metrics : gmap string prf) labels :
  is_Some (metrics !! "overall") →
  (∀ l, l ∈ labels → is_Some (metrics !! l)) →
  ∃ report, print_report metrics labels = Ok report ∧
            report.*1 = labels ++ ["avg / total"].
Proof.
  intros [overall Hoverall] Hrows. unfold print_report.
  destruct (rows_Ok metrics labels [] Hrows) as (rows & -> & Hfst & _).
  rewrite bind_Ok_l. unfold lookup_key. rewrite Hoverall, bind_Ok_l.
  eexists. split; [done|]. by rewrite fmap_app, Hfst.
Qed.

Section MeasuresReturn.
Context `{SetOrder}.

Lemma calculateMeasures_returns folder_gold folder_pred remove_anno
    ignoremissing t :
  for_each (measure_file folder_pred (as_list remove_anno) ignoremissing)
    folder_gold tally0 = Ok t →
  Py.mem "types" (as_list remove_anno) = false ∨
    NOTYPES ∈ report_labels (as_list remove_anno) t →
  ∃ metrics report,
    calculateMeasures folder_gold folder_pred remove_anno ignoremissing
      = Ok (metrics, report) ∧
    report.*1 = report_labels (as_list remove_anno) t ++ ["avg / total"] ∧
    is_Some (metrics !! "overall") ∧
    ∀ l, l ∈ report_labels (as_list remove_anno) t → is_Some (metrics !! l).
Proof.
  intros Ht Hcase. unfold calculateMeasures. rewrite Ht, bind_Ok_l.
  destruct (score_total _ t Hcase) as (metrics & -> & Hoverall & Hrows).
  rewrite bind_Ok_l.
  destruct (print_report_total metrics _ Hoverall Hrows) as (report & -> & Hfst).
  rewrite bind_Ok_l. by exists metrics, report.
Qed.

(** X13: once the loop over the gold files has returned,
    [calculateMeasures] returns too, unless "types" is requested and the
    placeholder is not among the report labels; the report then has one row
    per report label, in order, and the row "avg / total" last, and the
    dictionary has an entry for each of them. *)
Theorem measures_return folder_gold folder_pred remove_anno ignoremissing t :
  for_each (measure_file folder_pred (as_list remove_anno) ignoremissing)
    folder_gold tally0 = Ok t →
  Py.mem "types" (as_list remove_anno) = false ∨
    NOTYPES ∈ report_labels (as_list remove_anno) t →
  ∃ metrics report,
    calculateMeasures folder_gold folder_pred remove_anno ignoremissing
      = Ok (metrics, report) ∧
    report.*1 = report_labels (as_list remove_anno) t ++ ["avg / total"] ∧
    is_Some (metrics !! "overall") ∧
    ∀ l, l ∈ report_labels (as_list remove_anno) t → is_Some (metrics !! l).
Proof. apply calculateMeasures_returns. Qed.

(** X14: with "types" requested, [calculateMeasures] raises [KeyError] at
    line 92 when the placeholder label is not among the report labels: no
    gold annotation was read, or "keys" replaced the targets. *)
Theorem types_without_target_raises folder_gold folder_pred remove_anno
    ignoremissing t :
  for_each (measure_file folder_pred (as_list remove_anno) ignoremissing)
    folder_gold tally0 = Ok t →
  Py.mem "types" (as_list remove_anno) = true →
  NOTYPES ∉ report_labels (as_list remove_anno) t →
  calculateMeasures folder_gold folder_pred remove_anno ignoremissing
    = Raise KeyError.
Proof.
  intros Ht Htypes Hout. unfold calculateMeasures. rewrite Ht, bind_Ok_l.
  by rewrite score_KeyError.
Qed.

Lemma raises_in_normalise file_anno remove_anno :
  raises_in parse_error (normaliseAnnotations file_anno remove_anno).
Proof.
  destruct (normaliseAnnotations file_anno remove_anno) as [a|e] eqn:Ha;
    [done|]. by apply normalise_raises_parse in Ha.
Qed.

Lemma raises_in_align gold pred t :
  length (res_anno_new gold) = length (spans_anno_new gold) →
  length (res_anno_new pred) = length (spans_anno_new pred) →
  raises_in parse_error (align gold pred t).
Proof.
  intros Hg Hp. unfold align.
  by destruct (align_steps gold pred
                 (set_list (spans_anno_new gold ++ spans_anno_new pred)) t Hg Hp)
    as (t' & _ & _ & -> & _).
Qed.

Lemma raises_in_measure_file folder_pred remove_anno ignoremissing t f :
  raises_in parse_error
    (measure_file folder_pred remove_anno ignoremissing t f).
Proof.
  unfold measure_file. destruct (negb _); [done|].
  destruct (open folder_pred f.1) as [f_pred|].
  - apply raises_in_bind; [apply raises_in_normalise|]. intros pred Hpred.
    apply raises_in_bind; [apply raises_in_normalise|]. intros gold Hgold.
    apply raises_in_align; by eapply normalise_parallel.
  - destruct ignoremissing; [done|].
    apply raises_in_bind; [apply raises_in_normalise|]. intros gold Hgold.
    apply raises_in_align; [by eapply normalise_parallel|done].
Qed.

(** X15: [calculateMeasures] raises [KeyError] only at line 92: "types" is
    requested and, the files read, the placeholder is not among the labels
    of the report.  The look-ups of lines 72-78 and of [print_report] never
    miss. *)
Theorem measures_KeyError_only_with_types folder_gold folder_pred remove_anno
    ignoremissing :
  calculateMeasures folder_gold folder_pred remove_anno ignoremissing
    = Raise KeyError →
  Py.mem "types" (as_list remove_anno) = true ∧
  ∃ t, for_each (measure_file folder_pred (as_list remove_anno) ignoremissing)
         folder_gold tally0 = Ok t ∧
       NOTYPES ∉ report_labels (as_list remove_anno) t.
Proof.
  intros Hraise. unfold calculateMeasures in Hraise.
  destruct (for_each _ folder_gold tally0) as [t|e'] eqn:Ht.
  - rewrite bind_Ok_l in Hraise.
    destruct (Py.mem "types" (as_list remove_anno)) eqn:Htypes.
    + destruct (decide (NOTYPES ∈ report_labels (as_list remove_anno) t))
        as [Hin|Hout]; [|by eauto].
      destruct (calculateMeasures_returns _ _ _ _ _ Ht (or_intror Hin))
        as (metrics & report & Hret & _).
      unfold calculateMeasures in Hret. rewrite Ht, bind_Ok_l in Hret.
      congruence.
    + destruct (calculateMeasures_returns _ _ _ _ _ Ht (or_introl Htypes))
        as (metrics & report & Hret & _).
      unfold calculateMeasures in Hret. rewrite Ht, bind_Ok_l in Hret.
      congruence.
  - injection Hraise as ->.
    pose proof (raises_in_for_each parse_error
                  (measure_file folder_pred (as_list remove_anno) ignoremissing)
                  folder_gold tally0
                  (raises_in_measure_file _ _ _)) as Hr.
    rewrite Ht in Hr. by destruct Hr.
Qed.

End MeasuresReturn.

Lemma measures_return_witness :
  ∃ metrics report,
    calculateMeasures one_doc pred_folder (RStr "") false = Ok (metrics, report) ∧
    report.*1 = report_labels (as_list (RStr "")) pair_tally ++ ["avg / total"] ∧
    is_Some (metrics !! "overall") ∧
    ∀ l, l ∈ report_labels (as_list (RStr "")) pair_tally →
         is_Some (metrics !! l).
Proof.
  apply (measures_return one_doc pred_folder (RStr "") false pair_tally).
  - vm_compute. reflexivity.
  - left. reflexivity.
Defined.

Lemma types_without_target_raises_witness :
  calculateMeasures [] [] (RStr "types") false = Raise KeyError.
Proof.
  apply (types_without_target_raises [] [] (RStr "types") false tally0).
  - reflexivity.
  - reflexivity.
  - apply not_elem_of_nil.
Defined.

Lemma measures_KeyError_only_with_types_witness :
  Py.mem "types" (as_list (RStr "types")) = true ∧
  ∃ t, for_each (measure_file [] (as_list (RStr "types")) false) [] tally0
         = Ok t ∧
       NOTYPES ∉ report_labels (as_list (RStr "types")) t.
Proof.
  apply (measures_KeyError_only_with_types [] [] (RStr "types") false).
  vm_compute. reflexivity.
Defined.

(** ** What [calculateIAA] raises *)

Lemma raises_in_mono {A : Type} (P Q : exn → Prop) (m : result A) :
  (∀ e, P e → Q e) → raises_in P m → raises_in Q m.
Proof. intros HPQ. destruct m; simpl; auto. Qed.

Section IAAExceptions.
Context `{SetOrder}.
Variable cohen_kappa_score : list string → list string → Q.

Lemma raises_in_iaa_file g folder_pred ignoremissing t f :
  raises_in (λ e, e = NameError ∧ g_remove_anno g = None ∨ parse_error e)
    (iaa_file g folder_pred ignoremissing t f).
Proof.
  assert (∀ {A} (m : result A),
            raises_in parse_error m →
            raises_in (λ e, e = NameError ∧ g_remove_anno g = None ∨
                            parse_error e) m) as Hparse.
  { intros A m. apply raises_in_mono. auto. }
  assert (raises_in (λ e, e = NameError ∧ g_remove_anno g = None ∨
                          parse_error e) (load_global g)) as Hload.
  { unfold load_global. destruct (g_remove_anno g); simpl; auto. }
  unfold iaa_file. destruct (negb _); [done|].
  destruct (open folder_pred f.1) as [f_pred|].
  - apply raises_in_bind; [done|]. intros remove_anno _.
    apply raises_in_bind; [apply Hparse, raises_in_normalise|].
    intros pred Hpred. destruct (Nat.eqb _ 0); [done|].
    apply raises_in_bind; [done|]. intros remove_anno' _.
    apply raises_in_bind; [apply Hparse, raises_in_normalise|].
    intros gold Hgold.
    apply Hparse, raises_in_align; by eapply normalise_parallel.
  - destruct ignoremissing; [done|].
    apply raises_in_bind; [done|]. intros remove_anno _.
    apply raises_in_bind; [apply Hparse, raises_in_normalise|].
    intros gold Hgold.
    apply Hparse, raises_in_align; [by eapply normalise_parallel|done].
Qed.

(** X16: [calculateIAA] raises [NameError] only when the module has no
    global [remove_anno]. *)
Theorem iaa_NameError_only_unbound g folder_gold folder_pred ignoremissing :
  calculateIAA cohen_kappa_score g folder_gold folder_pred ignoremissing
    = Raise NameError →
  g_remove_anno g = None.
Proof.
  unfold calculateIAA. intros Hraise.
  pose proof (raises_in_for_each _ (iaa_file g folder_pred ignoremissing)
                folder_gold tally0
                (λ s x, raises_in_iaa_file g folder_pred ignoremissing s x))
    as Hr.
  destruct (for_each _ folder_gold tally0) as [t|e']; [done|].
  injection Hraise as ->. by destruct Hr as [[_ ?]|[?|?]].
Qed.

End IAAExceptions.

Lemma iaa_NameError_only_unbound_witness :
  g_remove_anno no_globals = None.
Proof.
  apply (iaa_NameError_only_unbound (λ _ _, 0%Q) no_globals one_doc one_doc true).
  reflexivity.
Defined.

(** ** What the rewrite pass leaves alone *)

Lemma same_kind_refl r : same_kind r r.
Proof. by split. Qed.

Lemma set_at_index_kind rels0 l r2 r_new l' :
  Forall2 same_kind rels0 l →
  rel_label r2 = Some "Hyponym-of" → rel_label r_new = Some "Hyponym-of" →
  set_at_index l r2 r_new = Ok l' → Forall2 same_kind rels0 l'.
Proof.
  intros Hall Hr2 Hnew. unfold set_at_index.
  intros (i & [Hi _]%index_Ok & [= <-])%bind_Ok.
  destruct (Forall2_lookup_r _ _ _ _ _ Hall Hi) as (o & Ho & Hlabel & _).
  rewrite <- (list_insert_id rels0 i o Ho). apply Forall2_insert; [done|].
  split; [congruence|]. intros Hne. destruct Hne. congruence.
Qed.

Lemma hyponym_label x y :
  free_of " " x → free_of " " y →
  rel_label (Py.join " " ["Hyponym-of"; x; y]) = Some "Hyponym-of".
Proof. intros Hx Hy. unfold rel_label. by rewrite split_join3. Qed.

Lemma rewrite_head_kind rels0 r_offs rels r2 rels1 :
  Forall (free_of " ") r_offs →
  Forall2 same_kind rels0 rels →
  rewrite_head r_offs (Py.split " " r2) rels r2 = Ok (Some rels1) →
  Forall2 same_kind rels0 rels1.
Proof.
  intros Hr Hall. unfold rewrite_head. intros (c1 & Hc1 & Hfirst)%bind_Ok.
  destruct c1; [|by simplify_eq].
  apply refers_true in Hc1 as (Hl & a & Ha & Hb).
  apply bind_Ok in Hfirst as (label & Hl'%getitem_Ok & (x & Hx%getitem_Ok &
    (y & Hy%getitem_Ok & Hset)%bind_Ok)%bind_Ok). simplify_eq.
  apply except_ValueError_Ok in Hset as [Hset|[_ [=]]].
  apply fmap_Ok in Hset as (rels' & Hset & [= <-]).
  eapply set_at_index_kind; [done|done| |done].
  apply hyponym_label.
  - by eapply Forall_lookup_1.
  - eapply Forall_lookup_1; [apply split_Forall_free|done].
Qed.

Lemma rewrite_tail_kind rels0 r_offs rels r2 rels' :
  Forall (free_of " ") r_offs →
  Forall2 same_kind rels0 rels →
  rewrite_tail r_offs (Py.split " " r2) rels r2 = Ok rels' →
  Forall2 same_kind rels0 rels'.
Proof.
  intros Hr Hall. unfold rewrite_tail. intros (c2 & Hc2 & Hrest)%bind_Ok.
  destruct c2; [|by simplify_eq].
  apply refers_true in Hc2 as (Hl & a & Ha & Hb).
  apply bind_Ok in Hrest as (label & Hl'%getitem_Ok & (x & Hx%getitem_Ok &
    (y & Hy%getitem_Ok & Hset)%bind_Ok)%bind_Ok). simplify_eq.
  apply except_ValueError_Ok in Hset as [Hset|[_ ->]]; [|done].
  eapply set_at_index_kind; [done|done| |done].
  apply hyponym_label.
  - eapply Forall_lookup_1; [apply split_Forall_free|done].
  - by eapply Forall_lookup_1.
Qed.

Lemma rewrite_hyponym_kind rels0 r_offs rels j rels' :
  Forall (free_of " ") r_offs →
  Forall2 same_kind rels0 rels →
  rewrite_hyponym r_offs rels j = Ok rels' →
  Forall2 same_kind rels0 rels'.
Proof.
  intros Hr Hall. unfold rewrite_hyponym.
  intros (r2 & _ & (first & Hfirst & Hrest)%bind_Ok)%bind_Ok.
  destruct first as [rels1|]; [|by simplify_eq].
  eapply rewrite_tail_kind; [done| |done].
  by eapply rewrite_head_kind.
Qed.

Lemma rewrite_synonym_kind rels0 rels i rels' :
  Forall2 same_kind rels0 rels →
  rewrite_synonym rels i = Ok rels' →
  Forall2 same_kind rels0 rels'.
Proof.
  intros Hall. unfold rewrite_synonym.
  intros (r & _ & (r' & _ & (label & _ & Hloop)%bind_Ok)%bind_Ok)%bind_Ok.
  destruct (String.eqb label "Synonym-of"); [|by simplify_eq].
  revert Hloop. apply (for_each_invariant (Forall2 same_kind rels0)); [|done].
  intros s j s' _ Hs. apply rewrite_hyponym_kind; [apply split_Forall_free|done].
Qed.

(** X17: the rewrite pass keeps every relation in its place with its
    label, and changes no relation string whose label is not [Hyponym-of]:
    the [Synonym-of] relations come out as they went in. *)
Theorem rewrite_pass_changes_hyponyms_only rels rels' :
  rewrite_pass rels = Ok rels' → Forall2 same_kind rels rels'.
Proof.
  unfold rewrite_pass.
  apply (for_each_invariant (Forall2 same_kind rels)).
  - intros s i s' _. apply rewrite_synonym_kind.
  - apply Forall_Forall2_diag, Forall_forall. intros r _. apply same_kind_refl.
Qed.

Lemma rewrite_pass_changes_hyponyms_only_witness :
  Forall2 same_kind (rels_anno chain_locals) chain_rels.
Proof.
  apply (rewrite_pass_changes_hyponyms_only (rels_anno chain_locals) chain_rels).
  vm_compute. reflexivity.
Defined.

Example chain_first_loop :
  for_each (line_step (RList [""])) chain_file locals0 = Ok chain_locals.
Proof. vm_compute. reflexivity. Qed.

(** ** A run without diagnostics *)

Lemma relation_line_Ok st r_g_offs st' :
  relation_line st r_g_offs = Ok st' →
  res_full_anno st' = res_full_anno st ∧ printed st' = printed st ∧
  length (res_anno st') = S (length (res_anno st)).
Proof.
  unfold relation_line.
  intros (a1 & _ & (a2 & _ & (ents & _ & (label & _ & (ents' & _ &
    (x1 & _ & (x2 & _ & [= <-])%bind_Ok)%bind_Ok)%bind_Ok)%bind_Ok)%bind_Ok)
    %bind_Ok)%bind_Ok.
  simpl. rewrite length_app. simpl. split_and!; [done|done|lia].
Qed.

Lemma line_step_count remove_anno st l st' :
  length (res_full_anno st) = length (res_anno st) + length (printed st) →
  line_step remove_anno st l = Ok st' →
  length (res_full_anno st') = length (res_anno st') + length (printed st').
Proof.
  intros Hcount. unfold line_step.
  intros (field1 & _ & (label & _ & Hstep)%bind_Ok)%bind_Ok.
  destruct (py_in "rel" remove_anno && Py.endswith label "-of"); [by simplify_eq|].
  destruct (Py.endswith label "-of").
  - apply relation_line_Ok in Hstep as (-> & -> & ->). simpl.
    rewrite length_app. simpl. lia.
  - apply entity_line_Ok in Hstep as (-> & _ & _ & _ & Hcase). simpl.
    rewrite length_app. simpl.
    destruct Hcase as [(o1 & o2 & _ & _ & -> & _ & ->)|(_ & -> & _ & ->)];
      rewrite length_app; simpl; lia.
Qed.

Lemma first_loop_count remove_anno file_anno st :
  for_each (line_step remove_anno) file_anno locals0 = Ok st →
  length (res_full_anno st) = length (res_anno st) + length (printed st).
Proof.
  apply (for_each_invariant
           (λ s, length (res_full_anno s)
                 = length (res_anno s) + length (printed s))); [|done].
  intros s l s' _. apply line_step_count.
Qed.

Lemma collect_step_diagnostics st acc r acc' :
  collect_step st acc r = Ok acc' →
  ∃ extra, diagnostics acc' = diagnostics acc ++ extra.
Proof.
  unfold collect_step.
  intros [Hb|[_ ->]]%except_IndexError_Ok; [|by exists [faulty]].
  apply bind_Ok in Hb as (id & _ & Hb).
  destruct (_ || _).
  { injection Hb as <-. exists []. by rewrite app_nil_r. }
  apply bind_Ok in Hb as (ind & _ & [Hb|[_ ->]]%except_IndexError_Ok);
    [|by exists [faulty]].
  apply bind_Ok in Hb as (label & _ & [Hb|[_ ->]]%except_IndexError_Ok);
    [|by exists [faulty]].
  apply bind_Ok in Hb as (span & _ & [= <-]). exists []. simpl.
  by rewrite app_nil_r.
Qed.

Lemma collect_diagnostics st l acc acc' :
  for_each (collect_step st) l acc = Ok acc' →
  ∃ extra, diagnostics acc' = diagnostics acc ++ extra.
Proof.
  revert acc. induction l as [|r l IH]; intros acc; simpl.
  - intros [= <-]. exists []. by rewrite app_nil_r.
  - intros (acc1 & (e1 & H1)%collect_step_diagnostics & (e2 & H2)%IH)%bind_Ok.
    exists (e1 ++ e2). by rewrite H2, H1, app_assoc.
Qed.

Lemma collect_step_aligned st acc r acc' :
  length (res_full_anno st) = length (res_anno st) →
  length (res_anno st) = length (spans_anno st) →
  r ∈ res_full_anno st →
  collect_step st acc r = Ok acc' →
  length (res_full_anno_new acc) = length (res_anno_new acc) →
  length (res_full_anno_new acc') = length (res_anno_new acc').
Proof.
  intros Hfull Hpar (ind & Hind)%index_elem. unfold collect_step.
  destruct (getitem_split_0 tab (Py.strip r)) as (id & ->). rewrite bind_Ok_l.
  destruct (_ || _); [by intros [= <-]|].
  rewrite Hind, bind_Ok_l.
  pose proof Hind as [Hlook%lookup_lt_Some _]%index_Ok.
  destruct (getitem_lt (res_anno st) ind) as (label & ->); [lia|].
  rewrite bind_Ok_l.
  destruct (getitem_lt (spans_anno st) ind) as (span & ->); [lia|].
  simpl. intros [= <-] Hacc. simpl. rewrite !length_app. simpl. lia.
Qed.

Lemma append_relation_full rels acc acc' :
  for_each append_relation rels acc = Ok acc' →
  length (res_full_anno_new acc')
  = length (res_full_anno_new acc) + length rels.
Proof.
  revert acc. induction rels as [|r rels IH]; intros acc; simpl.
  - intros [= <-]. lia.
  - intros (acc1 & H1 & H2)%bind_Ok. unfold append_relation in H1.
    apply bind_Ok in H1 as (x & _ & (y & _ & [= <-])%bind_Ok).
    apply IH in H2. simpl in H2. rewrite length_app in H2. simpl in H2. lia.
Qed.

Section Quiet.
Context `{SetOrder}.

(** X18: when [normaliseAnnotations] returns without having printed a
    diagnostic, the three returned sequences (full lines, labels, span
    keys) have the same length. *)
Theorem quiet_run_is_aligned file_anno remove_anno a :
  normaliseAnnotations file_anno remove_anno = Ok a →
  diagnostics a = [] →
  length (res_full_anno_new a) = length (res_anno_new a) ∧
  length (res_anno_new a) = length (spans_anno_new a).
Proof.
  intros Ha Hquiet. split; [|by eapply normalise_parallel].
  unfold normaliseAnnotations in Ha.
  apply bind_Ok in Ha as (st & Hst & (rels & Hrels & (acc & Hacc & Happ)
    %bind_Ok)%bind_Ok).
  pose proof (first_loop_count _ _ _ Hst) as Hcount.
  pose proof (first_loop_invariant _ _ _ Hst) as [Hpar _ _].
  pose proof (append_relation_Ok _ _ _ Happ) as (_ & Hd & Hres & _).
  pose proof (collect_diagnostics _ _ _ _ Hacc) as (extra & Hextra).
  simpl in Hextra. rewrite Hquiet, Hextra in Hd.
  symmetry in Hd. apply app_eq_nil in Hd as [Hprinted _].
  rewrite Hprinted in Hcount. simpl in Hcount. rewrite Nat.add_0_r in Hcount.
  assert (length (res_full_anno_new acc) = length (res_anno_new acc)) as Heq.
  { revert Hacc.
    apply (for_each_invariant
             (λ s, length (res_full_anno_new s) = length (res_anno_new s)));
      [|done].
    intros s r s' Hr Hs Hstep. by eapply collect_step_aligned. }
  rewrite (append_relation_full _ _ _ Happ), Hres, length_app. lia.
Qed.

End Quiet.

Lemma quiet_run_is_aligned_witness :
  length (res_full_anno_new reversed_synonym_result)
    = length (res_anno_new reversed_synonym_result) ∧
  length (res_anno_new reversed_synonym_result)
    = length (spans_anno_new reversed_synonym_result).
Proof.
  apply (quiet_run_is_aligned reversed_synonym_file (RList [""])).
  - vm_compute. reflexivity.
  - reflexivity.
Defined.

(** ** An entity line without offsets *)

Lemma line_step_printed remove_anno st l st' :
  line_step remove_anno st l = Ok st' →
  ∃ extra, printed st' = printed st ++ extra.
Proof.
  unfold line_step.
  intros (field1 & _ & (label & _ & Hstep)%bind_Ok)%bind_Ok.
  destruct (py_in "rel" remove_anno && Py.endswith label "-of").
  { injection Hstep as <-. exists []. by rewrite app_nil_r. }
  destruct (Py.endswith label "-of").
  - apply relation_line_Ok in Hstep as (_ & -> & _). exists []. simpl.
    by rewrite app_nil_r.
  - apply entity_line_Ok in Hstep as (_ & _ & _ & _ & Hcase). simpl in Hcase.
    destruct Hcase as [(o1 & o2 & _ & _ & _ & _ & ->)|(_ & _ & _ & ->)];
      [exists []; by rewrite app_nil_r|by exists [faulty]].
Qed.

Lemma first_loop_printed remove_anno l st st' :
  for_each (line_step remove_anno) l st = Ok st' →
  ∃ extra, printed st' = printed st ++ extra.
Proof.
  revert st. induction l as [|x l IH]; intros st; simpl.
  - intros [= <-]. exists []. by rewrite app_nil_r.
  - intros (st1 & (e1 & H1)%line_step_printed & (e2 & H2)%IH)%bind_Ok.
    exists (e1 ++ e2). by rewrite H2, H1, app_assoc.
Qed.

Lemma line_step_faulty remove_anno st l f st' :
  is_relation_line l = false → line_field l = Some f →
  Py.split " " f !! 2 = None →
  line_step remove_anno st l = Ok st' →
  printed st' = printed st ++ [faulty].
Proof.
  unfold is_relation_line, line_field, line_step.
  intros Hrel Hf%getitem_Ok Hshort. rewrite Hf in *. rewrite bind_Ok_l.
  destruct (getitem_split_0 " " f) as (label & Hlabel).
  rewrite Hlabel in *. rewrite bind_Ok_l, Hrel, andb_false_r.
  intros (_ & _ & _ & _ & Hcase)%entity_line_Ok. simpl in Hcase.
  destruct Hcase as [(o1 & o2 & _ & Ho2 & _)|(_ & _ & _ & ->)]; [|done].
  congruence.
Qed.

Section FaultyLine.
Context `{SetOrder}.

(** X19: an entity line whose second tab field has fewer than three
    space-separated tokens always leaves the diagnostic
    "IndexError! Faulty annotations" in the output of a run that
    returns. *)
Theorem faulty_line_prints pre l post f remove_anno a :
  normaliseAnnotations (pre ++ l :: post) remove_anno = Ok a →
  is_relation_line l = false → line_field l = Some f →
  Py.split " " f !! 2 = None →
  faulty ∈ diagnostics a.
Proof.
  intros Ha Hrel Hf Hshort. unfold normaliseAnnotations in Ha.
  apply bind_Ok in Ha as (st & Hst & (rels & Hrels & (acc & Hacc & Happ)
    %bind_Ok)%bind_Ok).
  rewrite for_each_app in Hst.
  apply bind_Ok in Hst as (st1 & _ & Hst). rewrite for_each_cons in Hst.
  apply bind_Ok in Hst as (st2 & Hl & Hpost).
  apply (line_step_faulty _ _ _ f) in Hl; [|done..].
  apply first_loop_printed in Hpost as (e1 & Hpost).
  apply collect_diagnostics in Hacc as (e2 & Hacc). simpl in Hacc.
  apply append_relation_Ok in Happ as (_ & -> & _).
  rewrite Hacc, Hpost, Hl. rewrite !elem_of_app, list_elem_of_singleton. auto.
Qed.

End FaultyLine.

Lemma faulty_line_prints_witness :
  faulty ∈ [faulty; faulty].
Proof.
  apply (faulty_line_prints [] (line "T1" "Task" "Alice")
           [line "T2" "Task 10 15" "lives"] "Task" (RList [""])
           {| res_full_anno_new :=
                [ "T1" +:+ TAB +:+ "Task" +:+ TAB +:+ "Alice";
                  "T2" +:+ TAB +:+ "Task 10 15" +:+ TAB +:+ "lives" ];
              res_anno_new := ["Task 10 15"];
              spans_anno_new := ["10 15"];
              rels_anno_new := [];
              diagnostics := [faulty; faulty] |}).
  - vm_compute. reflexivity.
  - reflexivity.
  - reflexivity.
  - reflexivity.
Defined.

(** ** Files of entity lines *)

Lemma line_step_entity remove_anno st l :
  well_formed_entity l →
  ∃ label k,
    line_step remove_anno st l
    = Ok {| res_full_anno := res_full_anno st ++ [Py.strip l];
            res_anno := res_anno st ++ [label];
            spans_anno := spans_anno st ++ [k];
            rels_anno := rels_anno st;
            ent1 := ent1 st; ent2 := ent2 st;
            printed := printed st |} ∧
    entity_label remove_anno (Py.strip l) label ∧ entity_key (Py.strip l) k.
Proof.
  intros (Hrel & f & o1 & o2 & Hf & Ho1 & Ho2).
  unfold is_relation_line, line_field, line_step, entity_line in *.
  rewrite (proj2 (getitem_Ok _ _ _) Hf) in *. rewrite bind_Ok_l.
  destruct (getitem_split_0 " " f) as (label & Hlabel).
  rewrite Hlabel in *. rewrite bind_Ok_l, Hrel, andb_false_r.
  rewrite (proj2 (getitem_Ok _ _ _) Ho1), (proj2 (getitem_Ok _ _ _) Ho2).
  simpl. eexists _, _. split; [reflexivity|]. split.
  - by exists f.
  - by exists f, o1, o2.
Qed.

Lemma first_loop_entities remove_anno file_anno st :
  Forall well_formed_entity file_anno →
  ∃ st' labels keys,
    for_each (line_step remove_anno) file_anno st = Ok st' ∧
    res_full_anno st' = res_full_anno st ++ (Py.strip <$> file_anno) ∧
    res_anno st' = res_anno st ++ labels ∧
    spans_anno st' = spans_anno st ++ keys ∧
    Forall2 (entity_label remove_anno) (Py.strip <$> file_anno) labels ∧
    Forall2 entity_key (Py.strip <$> file_anno) keys ∧
    rels_anno st' = rels_anno st ∧ printed st' = printed st.
Proof.
  intros Hwf. revert st. induction Hwf as [|l file Hl Hfile IH]; intros st.
  - exists st, [], []. rewrite !app_nil_r. split_and!; try done; constructor.
  - destruct (line_step_entity remove_anno st l Hl) as (label & k & Hstep & Hlab & Hk).
    rewrite for_each_cons, Hstep, bind_Ok_l.
    match goal with |- context [for_each _ file ?st1] =>
      destruct (IH st1) as (st' & labels & keys & -> & E1 & E2 & E3 & F1 & F2 & E4 & E5)
    end.
    simpl in *. exists st', (label :: labels), (k :: keys).
    rewrite E1, E2, E3, <- !app_assoc. split_and!; try done; by constructor.
Qed.

Lemma collect_step_entity remove_anno st acc r :
  Forall2 (entity_label remove_anno) (res_full_anno st) (res_anno st) →
  Forall2 entity_key (res_full_anno st) (spans_anno st) →
  r ∈ res_full_anno st →
  if kept r
  then ∃ label k,
         collect_step st acc r
         = Ok {| res_full_anno_new := res_full_anno_new acc ++ [r];
                 res_anno_new := res_anno_new acc ++ [label];
                 spans_anno_new := spans_anno_new acc ++ [k];
                 rels_anno_new := rels_anno_new acc;
                 diagnostics := diagnostics acc |} ∧
         entity_label remove_anno r label ∧ entity_key r k
  else collect_step st acc r = Ok acc.
Proof.
  intros Hlabels Hkeys (ind & Hind)%index_elem. unfold kept, collect_step.
  destruct (getitem_split_0 tab (Py.strip r)) as (id & ->). rewrite bind_Ok_l.
  destruct (_ || _); simpl; [done|].
  rewrite Hind, bind_Ok_l. apply index_Ok in Hind as [Hr _].
  destruct (Forall2_lookup_l _ _ _ _ _ Hlabels Hr) as (label & Hl & Hlab).
  destruct (Forall2_lookup_l _ _ _ _ _ Hkeys Hr) as (k & Hk & Hkey).
  rewrite (proj2 (getitem_Ok _ _ _) Hl), bind_Ok_l.
  rewrite (proj2 (getitem_Ok _ _ _) Hk). simpl. by exists label, k.
Qed.

Lemma collect_entities remove_anno st l acc :
  Forall2 (entity_label remove_anno) (res_full_anno st) (res_anno st) →
  Forall2 entity_key (res_full_anno st) (spans_anno st) →
  (∀ r, r ∈ l → r ∈ res_full_anno st) →
  ∃ acc' labels keys,
    for_each (collect_step st) l acc = Ok acc' ∧
    res_full_anno_new acc'
      = res_full_anno_new acc ++ filter (λ r, kept r = true) l ∧
    res_anno_new acc' = res_anno_new acc ++ labels ∧
    spans_anno_new acc' = spans_anno_new acc ++ keys ∧
    Forall2 (entity_label remove_anno) (filter (λ r, kept r = true) l) labels ∧
    Forall2 entity_key (filter (λ r, kept r = true) l) keys ∧
    rels_anno_new acc' = rels_anno_new acc ∧
    diagnostics acc' = diagnostics acc.
Proof.
  intros Hlabels Hkeys. revert acc.
  induction l as [|r l IH]; intros acc Hsub.
  - exists acc, [], []. rewrite !app_nil_r. split_and!; try done; constructor.
  - pose proof (collect_step_entity remove_anno st acc r Hlabels Hkeys
                  (Hsub r ltac:(left))) as Hstep.
    rewrite for_each_cons, filter_cons.
    destruct (kept r) eqn:Hkept.
    + rewrite decide_True by done.
      destruct Hstep as (label & k & -> & Hlab & Hk). rewrite bind_Ok_l.
      match goal with |- context [for_each _ l ?acc1] =>
        destruct (IH acc1) as (acc' & labels & keys & -> & E1 & E2 & E3 & F1 & F2 & E4 & E5)
      end.
      { intros r' Hr'. apply Hsub. by right. }
      simpl in E1, E2, E3, E4, E5.
      exists acc', (label :: labels), (k :: keys).
      rewrite E1, E2, E3, <- !app_assoc. split_and!; try done; by constructor.
    + rewrite Hstep, bind_Ok_l, decide_False by done. apply IH.
      intros r' Hr'. apply Hsub. by right.
Qed.

Section Entities.
Context `{SetOrder}.

(** X20: on a file of entity lines that all have their offsets,
    [normaliseAnnotations] returns without a diagnostic and without
    relations; the returned full lines are the stripped lines of the file,
    in order, except those whose identifier starts with "R" or is "*", and
    each of them stands next to its own label (its second tab field, or
    the placeholder under "types") and its own span key (its two
    offsets). *)
Theorem entities_keep_their_labels file_anno remove_anno :
  Forall well_formed_entity file_anno →
  ∃ a,
    normaliseAnnotations file_anno remove_anno = Ok a ∧
    res_full_anno_new a
      = filter (λ r, kept r = true) (Py.strip <$> file_anno) ∧
    Forall2 (entity_label remove_anno) (res_full_anno_new a) (res_anno_new a) ∧
    Forall2 entity_key (res_full_anno_new a) (spans_anno_new a) ∧
    rels_anno_new a = [] ∧ diagnostics a = [].
Proof.
  intros Hwf. unfold normaliseAnnotations.
  destruct (first_loop_entities remove_anno file_anno locals0 Hwf)
    as (st & labels & keys & -> & E1 & E2 & E3 & F1 & F2 & E4 & E5).
  simpl in *. rewrite E4.
  change (rewrite_pass []) with (Ok ([] : list string)).
  rewrite bind_Ok_l, set_list_nil.
  match goal with |- context [for_each (collect_step st) _ ?acc0] =>
    destruct (collect_entities remove_anno st (res_full_anno st) acc0)
      as (acc & labels' & keys' & -> & G1 & G2 & G3 & G4 & G5 & G6 & G7)
  end; [by rewrite E1, E2|by rewrite E1, E3|done|].
  simpl in *. exists acc.
  rewrite G1, G2, G3, G6, G7, E5. rewrite E1 in *. by split_and!.
Qed.

End Entities.

Lemma entities_keep_their_labels_witness :
  ∃ a,
    normaliseAnnotations pair_gold_file (RList [""]) = Ok a ∧
    res_full_anno_new a
      = filter (λ r, kept r = true) (Py.strip <$> pair_gold_file) ∧
    Forall2 (entity_label (RList [""])) (res_full_anno_new a) (res_anno_new a) ∧
    Forall2 entity_key (res_full_anno_new a) (spans_anno_new a) ∧
    rels_anno_new a = [] ∧ diagnostics a = [].
Proof.
  apply (entities_keep_their_labels pair_gold_file (RList [""])).
  unfold pair_gold_file.
  repeat apply Forall_cons_2; [..|apply Forall_nil_2];
    (split; [reflexivity|]; eexists _, _, _; split_and!; vm_compute; reflexivity).
Defined.

(** ** [print_report] and a missing key *)

Lemma report_row_cases (metrics : gmap string prf) rows l :
  (∃ v, metrics !! l = Some v ∧ report_row metrics rows l = Ok (rows ++ [(l, v)])) ∨
  (metrics !! l = None ∧ report_row metrics rows l = Raise KeyError).
Proof.
  unfold report_row, lookup_key.
  destruct (metrics !! l) as [v|]; [left; by exists v|by right].
Qed.

Lemma report_rows_raise (metrics : gmap string prf) labels rows e :
  for_each (report_row metrics) labels rows = Raise e → e = KeyError.
Proof.
  revert rows. induction labels as [|l labels IH]; intros rows; [done|].
  rewrite for_each_cons.
  destruct (report_row_cases metrics rows l) as [(v & _ & ->)|[_ ->]].
  - rewrite bind_Ok_l. apply IH.
  - by intros [= <-].
Qed.

Lemma report_rows_KeyError (metrics : gmap string prf) labels rows l :
  l ∈ labels → metrics !! l = None →
  for_each (report_row metrics) labels rows = Raise KeyError.
Proof.
  intros Hl Hnone. revert rows.
  induction Hl as [l labels|l l' labels Hl IH]; intros rows;
    rewrite for_each_cons.
  - destruct (report_row_cases metrics rows l) as [(v & Hv & _)|[_ ->]];
      [congruence|reflexivity].
  - destruct (report_row_cases metrics rows l') as [(v & _ & ->)|[_ ->]];
      [rewrite bind_Ok_l; by apply IH|reflexivity].
Qed.

(** X21: [print_report] raises [KeyError] when the dictionary lacks the
    entry of one of the targets or the entry "overall". *)
Theorem print_report_missing_key (metrics : gmap string prf) targets :
  metrics !! "overall" = None ∨ (∃ l, l ∈ targets ∧ metrics !! l = None) →
  print_report metrics targets = Raise KeyError.
Proof.
  intros Hmissing. unfold print_report.
  destruct (for_each (report_row metrics) targets []) as [rows|e] eqn:Hrows.
  - destruct Hmissing as [Hoverall|(l & Hl & Hnone)].
    + rewrite bind_Ok_l. unfold lookup_key. by rewrite Hoverall.
    + by rewrite (report_rows_KeyError metrics targets [] l Hl Hnone) in Hrows.
  - apply report_rows_raise in Hrows as ->. done.
Qed.

Lemma print_report_missing_key_witness :
  print_report (∅ : gmap string prf) ["Task"] = Raise KeyError.
Proof.
  apply (print_report_missing_key ∅ ["Task"]). left. reflexivity.
Defined.

(** ** "types" in any form *)

Section AnyTypes.
Context `{SetOrder}.

(** X22: whenever the [remove_anno] given to [calculateMeasures], a string
    or a list, makes ["types" in remove_anno] true, the files are
    normalised with relations removed too: every normalised file has no
    relation and no label but the placeholder. *)
Theorem types_implies_rel remove_anno file_anno a :
  Py.mem "types" (as_list remove_anno) = true →
  normaliseAnnotations file_anno (RList (as_list remove_anno)) = Ok a →
  rels_anno_new a = [] ∧ Forall (λ l, l = NOTYPES) (res_anno_new a).
Proof.
  intros Htypes. apply normalise_types; [|done].
  unfold as_list in *.
  destruct (Py.mem "types" match remove_anno with RStr s => [s] | RList l => l end)
    eqn:Hm; [|by rewrite Htypes in Hm].
  apply mem_spec, elem_of_app. right. by left.
Qed.

End AnyTypes.

Lemma types_implies_rel_witness :
  rels_anno_new mixed_placeholders = [] ∧
  Forall (λ l, l = NOTYPES) (res_anno_new mixed_placeholders).
Proof.
  apply (types_implies_rel (RList ["keys"; "types"]) mixed_file
           mixed_placeholders).
  - reflexivity.
  - vm_compute. reflexivity.
Defined.

(** ** Lists of relations without chains *)

Lemma for_each_seq_invariant {St : Type} (P : nat → St → Prop)
    (body : St → nat → result St) start n st st' :
  (∀ j s s', start ≤ j < start + n → P j s → body s j = Ok s' → P (S j) s') →
  P start st → for_each body (seq start n) st = Ok st' → P (start + n) st'.
Proof.
  revert start st. induction n as [|n IH]; intros start st Hstep HP; simpl.
  - intros [= <-]. by rewrite Nat.add_0_r.
  - intros (s1 & H1 & H2)%bind_Ok.
    replace (start + S n) with (S start + n) by lia.
    apply (IH (S start) s1); [| |done].
    + intros j s s' Hj. apply Hstep. lia.
    + apply (Hstep start st s1); [lia|done|done].
Qed.

Lemma refers_tokens a b l2 x y :
  refers ["Synonym-of"; a; b] [l2; x; y] 1
    = Ok (String.eqb l2 "Hyponym-of" && String.eqb a x) ∧
  refers ["Synonym-of"; a; b] [l2; x; y] 2
    = Ok (String.eqb l2 "Hyponym-of" && String.eqb a y).
Proof.
  unfold refers. simpl. by destruct (String.eqb l2 "Hyponym-of").
Qed.

(** One round of the inner loop, read on the tokens of [r2]. *)
Lemma rewrite_hyponym_cases a b l j r2 l2 x y l' :
  l !! j = Some r2 → Py.split " " r2 = [l2; x; y] →
  rewrite_hyponym ["Synonym-of"; a; b] l j = Ok l' →
  ∃ l1,
    (if String.eqb l2 "Hyponym-of" && String.eqb a x
     then ∃ i, Py.index r2 l = Ok i ∧ l1 = <[i := Py.join " " [l2; b; y]]> l
     else l1 = l) ∧
    (if String.eqb l2 "Hyponym-of" && String.eqb a y
     then (Py.index r2 l1 = Raise ValueError ∧ l' = l1) ∨
          ∃ i, Py.index r2 l1 = Ok i ∧ l' = <[i := Py.join " " [l2; x; b]]> l1
     else l' = l1).
Proof.
  intros Hj Hs. unfold rewrite_hyponym.
  rewrite (proj2 (getitem_Ok _ _ _) Hj), bind_Ok_l, Hs.
  destruct (refers_tokens a b l2 x y) as [H1 H2].
  intros (first & Hfirst & Hrest)%bind_Ok.
  unfold rewrite_head in Hfirst. rewrite H1, bind_Ok_l in Hfirst.
  unfold rewrite_tail in Hrest. 
  assert (∃ l1, first = Some l1 ∧
    if String.eqb l2 "Hyponym-of" && String.eqb a x
    then ∃ i, Py.index r2 l = Ok i ∧ l1 = <[i := Py.join " " [l2; b; y]]> l
    else l1 = l) as (l1 & -> & Hl1).
  { destruct (String.eqb l2 "Hyponym-of" && String.eqb a x).
    - simpl in Hfirst. unfold set_at_index in Hfirst.
      destruct (index_elem r2 l) as (i & Hi); [by eapply list_elem_of_lookup_2|].
      rewrite Hi in Hfirst. simpl in Hfirst. injection Hfirst as <-. eauto.
    - injection Hfirst as <-. eauto. }
  exists l1. split; [done|].
  rewrite H2, bind_Ok_l in Hrest.
  destruct (String.eqb l2 "Hyponym-of" && String.eqb a y); [|by injection Hrest].
  simpl in Hrest. unfold set_at_index in Hrest.
  destruct (index_result r2 l1) as [[i Hi]|Hi]; rewrite Hi in Hrest;
    simpl in Hrest; injection Hrest as <-; eauto.
Qed.

Lemma wf_rel_tokens r :
  wf_rel r → ∃ l2 x y, r = Py.join " " [l2; x; y] ∧
                       Py.split " " r = [l2; x; y] ∧
                       free_of " " x ∧ free_of " " y.
Proof.
  intros (l2 & x & y & -> & Hl & Hx & Hy & _).
  exists l2, x, y. by rewrite split_join3.
Qed.

Lemma rewrite_hyponym_closed (G : string → Prop) a b l j l' :
  closed_under G a b → Forall wf_rel l → Forall G l →
  rewrite_hyponym ["Synonym-of"; a; b] l j = Ok l' → Forall G l'.
Proof.
  intros [Hhead Htail] Hwf HG Hstep.
  assert (∃ r2, l !! j = Some r2) as (r2 & Hj).
  { unfold rewrite_hyponym in Hstep.
    apply bind_Ok in Hstep as (r2 & Hr2%getitem_Ok & _). eauto. }
  destruct (wf_rel_tokens r2 (Forall_lookup_1 _ _ _ _ Hwf Hj))
    as (l2 & x & y & Hr2 & Hs & Hx & Hy).
  pose proof (Forall_lookup_1 _ _ _ _ HG Hj) as HG2.
  destruct (rewrite_hyponym_cases a b l j r2 l2 x y l' Hj Hs Hstep)
    as (l1 & H1 & H2).
  destruct (String.eqb_spec l2 "Hyponym-of") as [->|_]; simpl in H1, H2;
    [|by subst].
  assert (Forall G l1) as HG1.
  { destruct (String.eqb_spec a x) as [<-|_]; [|by subst].
    destruct H1 as (i & _ & ->). apply Forall_insert; [done|].
    apply Hhead; [done|]. by rewrite <- Hr2. }
  destruct (String.eqb_spec a y) as [<-|_]; [|by subst].
  destruct H2 as [[_ ->]|(i & _ & ->)]; [done|].
  apply Forall_insert; [done|]. apply Htail; [done|]. by rewrite <- Hr2.
Qed.

Lemma rewrite_synonym_tokens l i l' :
  Forall wf_rel l → rewrite_synonym l i = Ok l' →
  ∃ r label a b,
    l !! i = Some r ∧ Py.split " " r = [label; a; b] ∧
    free_of " " a ∧ free_of " " b ∧
    if String.eqb label "Synonym-of"
    then for_each (rewrite_hyponym ["Synonym-of"; a; b]) (seq 0 (length l)) l
         = Ok l'
    else l' = l.
Proof.
  intros Hwf. unfold rewrite_synonym.
  intros (r & Hr%getitem_Ok & (r' & _ & (label & Hlabel & Hloop)%bind_Ok)
    %bind_Ok)%bind_Ok.
  destruct (wf_rel_tokens r (Forall_lookup_1 _ _ _ _ Hwf Hr))
    as (l2 & a & b & _ & Hs & Ha & Hb).
  rewrite Hs in Hlabel, Hloop. injection Hlabel as <-.
  exists r, l2, a, b. split_and!; try done.
  destruct (String.eqb_spec l2 "Synonym-of") as [->|_]; [done|by injection Hloop].
Qed.

Lemma rewrite_synonym_closed (G : string → Prop) l i l' :
  Forall wf_rel l →
  (∀ r a b, r ∈ l → Py.split " " r = ["Synonym-of"; a; b] → closed_under G a b) →
  Forall G l → rewrite_synonym l i = Ok l' → Forall G l'.
Proof.
  intros Hwf Hclosed HG
    (r & label & a & b & Hr & Hs & Ha & Hb & Hloop)%rewrite_synonym_tokens;
    [|done].
  destruct (String.eqb_spec label "Synonym-of") as [->|_]; [|by subst].
  assert (Forall (free_of " ") ["Synonym-of"; a; b]) as Hfree.
  { by repeat apply Forall_cons_2. }
  assert (closed_under G a b) as Hab.
  { apply (Hclosed r); [by eapply list_elem_of_lookup_2|done]. }
  enough (Forall wf_rel l' ∧ Forall G l') as [_ ?]; [done|].
  revert Hloop.
  apply (for_each_invariant (λ s, Forall wf_rel s ∧ Forall G s)); [|done].
  intros s j s' _ [Hs_wf Hs_G] Hstep. split.
  - by destruct (rewrite_hyponym_wf _ _ _ _ Hfree Hs_wf Hstep).
  - by eapply rewrite_hyponym_closed.
Qed.

Lemma hyponym_tokens x y :
  free_of " " x → free_of " " y →
  Py.split " " (Py.join " " ["Hyponym-of"; x; y]) = ["Hyponym-of"; x; y].
Proof. intros Hx Hy. by apply split_join3. Qed.

(** A relation on [a] at position [j], all positions before [j] avoiding
    [a], is the first occurrence of its string. *)
Lemma index_at_position a (l : list string) j r2 x y i :
  (∀ k r, k < j → l !! k = Some r → avoids a r) →
  l !! j = Some r2 → Py.split " " r2 = ["Hyponym-of"; x; y] →
  x = a ∨ y = a → Py.index r2 l = Ok i → i = j.
Proof.
  intros Hbefore Hj Hs Ha [Hi Hfirst]%index_Ok.
  destruct (Nat.lt_trichotomy i j) as [Hlt|[->|Hgt]]; [|done|].
  - destruct (Hbefore i r2 Hlt Hi x y Hs). by destruct Ha.
  - by destruct (Hfirst j Hgt).
Qed.

Lemma rewrite_hyponym_position a b l j l' :
  a ≠ b → free_of " " a → free_of " " b →
  Forall wf_rel l →
  (∀ r, r ∈ l → Py.split " " r ≠ ["Hyponym-of"; a; a]) →
  (∀ k r, k < j → l !! k = Some r → avoids a r) →
  rewrite_hyponym ["Synonym-of"; a; b] l j = Ok l' →
  ∀ k r, k < S j → l' !! k = Some r → avoids a r.
Proof.
  intros Hab Ha Hb Hwf Hself Hbefore Hstep.
  assert (∃ r2, l !! j = Some r2) as (r2 & Hj).
  { unfold rewrite_hyponym in Hstep.
    apply bind_Ok in Hstep as (r2 & Hr2%getitem_Ok & _). eauto. }
  destruct (wf_rel_tokens r2 (Forall_lookup_1 _ _ _ _ Hwf Hj))
    as (l2 & x & y & Hr2 & Hs & Hx & Hy).
  destruct (rewrite_hyponym_cases a b l j r2 l2 x y l' Hj Hs Hstep)
    as (l1 & H1 & H2).
  assert (∀ l0 : list string,
             l0 !! j = Some r2 ∧ avoids a r2 ∨
             (∃ r0 x0 y0, l0 = <[j := r0]> l ∧
                Py.split " " r0 = ["Hyponym-of"; x0; y0] ∧ x0 ≠ a ∧ y0 ≠ a) →
             (∀ k, k ≠ j → l0 !! k = l !! k) →
             ∀ k r, k < S j → l0 !! k = Some r → avoids a r) as Hdone.
  { intros l0 Hl0 Hother k r Hk Hr.
    destruct (decide (k = j)) as [->|Hne].
    - destruct Hl0 as [[Hl0 Hr2']|(r0 & x0 & y0 & -> & Hs0 & Hx0 & Hy0)].
      + assert (r = r2) as -> by congruence. done.
      + rewrite list_lookup_insert_eq in Hr by by eapply lookup_lt_Some.
        injection Hr as <-. intros x1 y1 Hs1. rewrite Hs0 in Hs1. by simplify_eq.
    - rewrite Hother in Hr by done. apply (Hbefore k); [lia|done]. }
  destruct (String.eqb_spec l2 "Hyponym-of") as [->|Hne]; simpl in H1, H2.
  - destruct (String.eqb_spec a x) as [<-|Hax];
      destruct (String.eqb_spec a y) as [<-|Hay].
    + destruct (Hself r2); [by eapply list_elem_of_lookup_2|done].
    + destruct H1 as (i & Hi & ->). subst l'.
      apply (index_at_position a l j r2 a y i) in Hi as ->; auto.
      apply Hdone.
      * right. exists (Py.join " " ["Hyponym-of"; b; y]), b, y.
        split_and!; [done|by apply hyponym_tokens|done|done].
      * intros k Hk. apply list_lookup_insert_ne. congruence.
    + subst l1. destruct H2 as [[Hi _]|(i & Hi & ->)].
      { destruct (index_elem r2 l) as (i & Hi');
          [by eapply list_elem_of_lookup_2|congruence]. }
      apply (index_at_position a l j r2 x a i) in Hi as ->; auto.
      apply Hdone.
      * right. exists (Py.join " " ["Hyponym-of"; x; b]), x, b.
        split_and!; [done|by apply hyponym_tokens|done|done].
      * intros k Hk. apply list_lookup_insert_ne. congruence.
    + subst. apply Hdone; [|done]. left. split; [done|].
      intros x0 y0 Hs0. rewrite Hs in Hs0. by simplify_eq.
  - subst. apply Hdone; [|done]. left. split; [done|].
    intros x0 y0 Hs0. rewrite Hs in Hs0. by simplify_eq.
Qed.

Lemma noself_closed c a b :
  c ≠ b → free_of " " a → free_of " " b →
  closed_under (λ r, Py.split " " r ≠ ["Hyponym-of"; c; c]) a b.
Proof.
  intros Hcb Ha Hb. split.
  - intros y Hy _. rewrite hyponym_tokens by done. congruence.
  - intros x Hx _. rewrite hyponym_tokens by done. congruence.
Qed.

Lemma avoids_closed c a b :
  c ≠ b → free_of " " a → free_of " " b → closed_under (avoids c) a b.
Proof.
  intros Hcb Ha Hb. split.
  - intros y Hy Hold x1 y1. rewrite hyponym_tokens by done. intros [= <- <-].
    split; [done|]. by destruct (Hold a y (hyponym_tokens a y Ha Hy)).
  - intros x Hx Hold x1 y1. rewrite hyponym_tokens by done. intros [= <- <-].
    split; [|done]. by destruct (Hold x a (hyponym_tokens x a Hx Ha)).
Qed.

(** After the rounds of a pair [a ~ b], no [Hyponym-of] relation is on [a]. *)
Lemma rewrite_synonym_settles l i r a b l' :
  Forall wf_rel l → l !! i = Some r →
  Py.split " " r = ["Synonym-of"; a; b] → a ≠ b →
  Forall (λ r, Py.split " " r ≠ ["Hyponym-of"; a; a]) l →
  rewrite_synonym l i = Ok l' → Forall (avoids a) l'.
Proof.
  intros Hwf Hr Hs Hab Hself
    (r' & label & a' & b' & Hr' & Hs' & Ha & Hb & Hloop)%rewrite_synonym_tokens;
    [|done].
  assert (r' = r) as -> by congruence. rewrite Hs in Hs'. simplify_eq.
  rewrite String.eqb_refl in Hloop.
  assert (Forall (free_of " ") ["Synonym-of"; a'; b']) as Hfree.
  { by repeat apply Forall_cons_2. }
  pose (P := λ (j : nat) (s : list string),
          Forall wf_rel s ∧ length s = length l ∧
          Forall (λ r, Py.split " " r ≠ ["Hyponym-of"; a'; a']) s ∧
          ∀ k r, k < j → s !! k = Some r → avoids a' r).
  assert (P (0 + length l) l') as (_ & Hlen & _ & Hall).
  { revert Hloop. apply (for_each_seq_invariant P).
    - intros j s s' _ (Hs_wf & Hs_len & Hs_self & Hs_before) Hstep.
      destruct (rewrite_hyponym_wf _ _ _ _ Hfree Hs_wf Hstep) as [? Hlen'].
      split_and!; [done|congruence| |].
      + apply (rewrite_hyponym_closed
                 (λ r, Py.split " " r ≠ ["Hyponym-of"; a'; a']) a' b' s j s');
          [by apply noself_closed|done|done|done].
      + apply (rewrite_hyponym_position a' b' s j s');
          [done|done|done|done| |done|done].
        intros r0 Hr0. rewrite Forall_forall in Hs_self. by apply Hs_self.
    - split_and!; [done|done|done|]. intros k r0 Hk. lia. }
  apply Forall_lookup_2. intros k r0 Hk. apply (Hall k); [|done].
  apply lookup_lt_Some in Hk. lia.
Qed.

Lemma synonym_kept rels s k r a b :
  Forall2 same_kind rels s → Py.split " " r = ["Synonym-of"; a; b] →
  rels !! k = Some r ↔ s !! k = Some r.
Proof.
  intros Hall Hs.
  assert (rel_label r = Some "Synonym-of") as Hlabel.
  { unfold rel_label. by rewrite Hs. }
  split; intros Hk.
  - destruct (Forall2_lookup_l _ _ _ _ _ Hall Hk) as (r' & Hr' & _ & Heq).
    rewrite Heq in Hr'; [done|]. by rewrite Hlabel.
  - destruct (Forall2_lookup_r _ _ _ _ _ Hall Hk) as (o & Ho & Hl & Heq).
    rewrite Heq; [done|]. by rewrite <- Hl, Hlabel.
Qed.

(** The pass leaves a list without chains settled. *)
Lemma rewrite_pass_chain_free rels rels' :
  Forall wf_rel rels → chain_free rels →
  rewrite_pass rels = Ok rels' → settled rels'.
Proof.
  intros Hwf Hfree Hpass.
  pose (P := λ (i : nat) (s : list string),
          Forall wf_rel s ∧ Forall2 same_kind rels s ∧
          (∀ r a b, r ∈ rels → Py.split " " r = ["Synonym-of"; a; b] →
             Forall (λ r', Py.split " " r' ≠ ["Hyponym-of"; a; a]) s) ∧
          ∀ k r a b, k < i → rels !! k = Some r →
             Py.split " " r = ["Synonym-of"; a; b] → Forall (avoids a) s).
  assert (∀ (G : string → Prop) c s i s',
            (∃ r b, r ∈ rels ∧ Py.split " " r = ["Synonym-of"; c; b]) →
            (∀ a b, c ≠ b → free_of " " a → free_of " " b → closed_under G a b) →
            Forall wf_rel s → Forall2 same_kind rels s → Forall G s →
            rewrite_synonym s i = Ok s' → Forall G s') as Hkeep.
  { intros G c s i s' (r & b & Hr & Hs) HG Hs_wf Hs_kind Hs_G.
    apply rewrite_synonym_closed; [done| |done].
    intros r1 a1 b1 Hr1 Hs1.
    pose proof (split_Forall_free " " r1) as Hfree1. rewrite Hs1 in Hfree1.
    apply Forall_cons_1 in Hfree1 as [_ [Ha1 [Hb1 _]%Forall_cons_1]%Forall_cons_1].
    apply HG; [|done|done]. intros ->.
    apply list_elem_of_lookup_1 in Hr1 as (k & Hk).
    apply (synonym_kept rels s k r1 a1 b1 Hs_kind Hs1) in Hk.
    destruct (Hfree r b1 b Hr Hs) as [Hchain _].
    destruct (Hchain r1 a1); [by eapply list_elem_of_lookup_2|done]. }
  assert (P (0 + length rels) rels') as (_ & Hkind & _ & Hall).
  { revert Hpass. unfold rewrite_pass. apply (for_each_seq_invariant P).
    - intros i s s' _ (Hs_wf & Hs_kind & Hs_self & Hs_before) Hstep.
      split_and!.
      + by destruct (rewrite_synonym_wf _ _ _ Hs_wf Hstep).
      + by eapply rewrite_synonym_kind.
      + intros r a b Hr Hs.
        apply (Hkeep _ a s i s'); eauto using noself_closed.
      + intros k r a b Hk Hr Hs. destruct (decide (k = i)) as [->|Hne].
        * eapply rewrite_synonym_settles; [done| |done| | |done].
          -- by apply (synonym_kept rels s i r a b Hs_kind Hs).
          -- intros ->. destruct (Hfree r b b) as [Hchain _];
               [by eapply list_elem_of_lookup_2|done|].
             destruct (Hchain r b); [by eapply list_elem_of_lookup_2|done].
          -- apply (Hs_self r a b); [by eapply list_elem_of_lookup_2|done].
        * apply (Hkeep _ a s i s'); eauto using avoids_closed.
          -- exists r, b. split; [by eapply list_elem_of_lookup_2|done].
          -- apply (Hs_before k r a b); [lia|done|done].
    - split_and!; [done| | |].
      + apply Forall_Forall2_diag, Forall_forall. intros r _. apply same_kind_refl.
      + intros r a b Hr Hs. apply Forall_forall. intros r' Hr'.
        by apply (Hfree r a b).
      + intros k r a b Hk. lia. }
  intros r r2 a b x y Hr Hr2 Hs Hs2.
  apply list_elem_of_lookup_1 in Hr as (k & Hk).
  pose proof Hk as Hk'.
  apply (synonym_kept rels rels' k r a b Hkind Hs) in Hk'.
  assert (k < 0 + length rels) as Hlt by (apply lookup_lt_Some in Hk'; lia).
  pose proof (Hall k r a b Hlt Hk' Hs) as Hav. rewrite Forall_forall in Hav.
  by apply (Hav r2 Hr2 x y).
Qed.

Section ChainFree.
Context `{SetOrder}.

(** X23: when the relations read by the first loop have no chain (the
    first member of a [Synonym-of] pair is the second member of none, and
    no [Hyponym-of] relation has it as both arguments),
    [normaliseAnnotations] returns, no returned [Hyponym-of] relation has
    the first member of a returned [Synonym-of] pair as an argument, and
    the rewrite pass run on the returned relations changes nothing. *)
Theorem chain_free_is_settled file_anno remove_anno rels :
  rels_anno <$> for_each (line_step remove_anno) file_anno locals0 = Ok rels →
  chain_free rels →
  ∃ a, normaliseAnnotations file_anno remove_anno = Ok a ∧
       settled (rels_anno_new a) ∧
       rewrite_pass (rels_anno_new a) = Ok (rels_anno_new a).
Proof.
  intros (st & Hst & ->)%fmap_Ok Hfree.
  destruct (normalise_total _ _ _ Hst) as (a & rels' & Ha & Hpass & Hrels).
  pose proof (first_loop_invariant _ _ _ Hst) as [_ Hwf _].
  assert (settled (rels_anno_new a)) as Hsettled.
  { rewrite Hrels. intros r r2 a0 b x y Hr Hr2.
    apply (proj1 (set_list_elem _ _)) in Hr, Hr2.
    by apply (rewrite_pass_chain_free _ _ Hwf Hfree Hpass r r2). }
  exists a. split_and!; [done|done|].
  apply rewrite_pass_settled; [|done]. rewrite Hrels. apply set_list_Forall.
  by destruct (rewrite_pass_wf _ _ Hwf Hpass).
Qed.

End ChainFree.

Lemma demo_first_rels_chain_free :
  chain_free ["Synonym-of Task_0_1 Task_2_3"; "Hyponym-of Task_0_1 Task_4_5"].
Proof.
  intros r a b Hr Hs.
  repeat (apply elem_of_cons in Hr as [->|Hr]); [..|by apply elem_of_nil in Hr];
    vm_compute in Hs; simplify_eq.
  split; [intros r' c Hr'|intros r' Hr'];
    repeat (apply elem_of_cons in Hr' as [->|Hr']);
    try (by apply elem_of_nil in Hr'); vm_compute; congruence.
Qed.

Lemma chain_free_is_settled_witness :
  ∃ a, normaliseAnnotations demo_file (RList [""]) = Ok a ∧
       settled (rels_anno_new a) ∧
       rewrite_pass (rels_anno_new a) = Ok (rels_anno_new a).
Proof.
  apply (chain_free_is_settled demo_file (RList [""])
           ["Synonym-of Task_0_1 Task_2_3"; "Hyponym-of Task_0_1 Task_4_5"]).
  - vm_compute. reflexivity.
  - apply demo_first_rels_chain_free.
Defined.

(** ** [calculateIAA]: empty predictions, and the script *)

Section IAAEmpty.
Context `{SetOrder}.
Variable cohen_kappa_score : list string → list string → Q.

Lemma iaa_file_empty g remove_anno folder_pred ignoremissing t name gold f_pred :
  g_remove_anno g = Some remove_anno →
  open folder_pred name = Some f_pred →
  res_full_anno_new <$> normaliseAnnotations f_pred remove_anno = Ok [] →
  iaa_file g folder_pred ignoremissing t (name, gold) = Ok t.
Proof.
  intros Hg Hopen (pred & Hpred & Hnil)%fmap_Ok.
  unfold iaa_file, load_global. cbn [fst snd]. rewrite Hg, Hopen.
  destruct (negb _); [done|].
  rewrite bind_Ok_l, Hpred, bind_Ok_l, <- Hnil. done.
Qed.

(** X24: a gold entry whose predicted file normalises to no line at all
    (an empty file, for one) is left out by [calculateIAA]: the gold file
    is not even parsed, and the result is that of the gold folder without
    the entry. *)
Theorem empty_prediction_left_out g remove_anno pre post name gold f_pred
    folder_pred ignoremissing :
  g_remove_anno g = Some remove_anno →
  open folder_pred name = Some f_pred →
  res_full_anno_new <$> normaliseAnnotations f_pred remove_anno = Ok [] →
  calculateIAA cohen_kappa_score g (pre ++ (name, gold) :: post) folder_pred
    ignoremissing
  = calculateIAA cohen_kappa_score g (pre ++ post) folder_pred ignoremissing.
Proof.
  intros Hg Hopen Hnil. unfold calculateIAA. rewrite !for_each_app.
  destruct (for_each _ pre tally0) as [t|e]; [|done].
  rewrite !bind_Ok_l, for_each_cons.
  by rewrite (iaa_file_empty g remove_anno folder_pred ignoremissing t name
                gold f_pred Hg Hopen Hnil), bind_Ok_l.
Qed.

(** X25: run as a script, the module binds the global [remove_anno]
    before [calculateIAA] is called, whatever the command line: whatever
    the call raises, it is not [NameError]. *)
Theorem script_run_no_NameError argv folder_gold folder_pred ignoremissing e :
  calculateIAA cohen_kappa_score (main_globals argv) folder_gold folder_pred
    ignoremissing = Raise e →
  e ≠ NameError.
Proof.
  unfold calculateIAA. intros Hraise.
  pose proof (raises_in_for_each _
                (iaa_file (main_globals argv) folder_pred ignoremissing)
                folder_gold tally0
                (λ s x, raises_in_iaa_file (main_globals argv) folder_pred
                          ignoremissing s x))
    as Hr.
  destruct (for_each _ folder_gold tally0) as [t|e']; [done|].
  injection Hraise as <-. by destruct Hr as [[_ [=]]|[->| ->]].
Qed.

End IAAEmpty.

Lemma empty_prediction_left_out_witness :
  calculateIAA (λ _ _, 0%Q) {| g_remove_anno := Some (RStr "") |}
    ([] ++ [("doc.ann", ["no tab"])]) [("doc.ann", [])] false
  = calculateIAA (λ _ _, 0%Q) {| g_remove_anno := Some (RStr "") |}
      ([] ++ []) [("doc.ann", [])] false.
Proof.
  apply (empty_prediction_left_out (λ _ _, 0%Q)
           {| g_remove_anno := Some (RStr "") |} (RStr "") [] []
           "doc.ann" ["no tab"] [] [("doc.ann", [])] false).
  - reflexivity.
  - reflexivity.
  - vm_compute. reflexivity.
Defined.

Lemma script_run_no_NameError_witness :
  IndexError ≠ NameError.
Proof.
  apply (script_run_no_NameError (λ _ _, 0%Q) ["eval.py"; "gold"; "pred"]
           [("doc.ann", ["no tab"])] [("doc.ann", ["no tab"])] true IndexError).
  vm_compute. reflexivity.
Defined.
